(** * Lighter whale tracker: trade ingestion, cooldown-gated alerts, reports

    A shallow embedding of the two bots of the repository:

    - [Bot]: the push variant under [bot/] (WebSocket feed, Redis sorted
      set of recent trades, SQLite table of Pushover users, periodic report);
    - [LighterBot]: the poll variant under [lighter_bot/] (HTTP feed,
      watermark in a state file, SQLite table of subscriptions).

    Conventions of the model.
    - Clock readings, Redis scores and SQLite REAL timestamps of the push
      variant are exact rationals ([Q], seconds); [datetime] values of the
      poll variant are integers ([Z], microseconds since the epoch, the
      resolution of [datetime]).  ISO-8601 texts of UTC datetimes compare
      like the instants they denote, so TEXT comparison in SQLite is [<=]
      on [Z].
    - USD amounts of the push variant are Python floats, i.e. IEEE-754
      binary64 numbers ([spec_float] with 53 bits of precision); those of
      the poll variant are [decimal.Decimal] values under the default
      context (28 significant digits, round-half-even).
    - Calls that leave the process (HTTP requests, Telegram sends, the
      clock, the file system) are arguments of the functions that make
      them. *)

From Stdlib Require Import ZArith QArith Qpower Lia Lqa Bool List Ascii String.
From Stdlib Require Import Sorting.Sorted Sorting.Permutation.
From Stdlib Require Import Structures.OrdersEx.
From Stdlib Require Import Floats.SpecFloat DecimalString.
From stdpp Require Import base option gmap strings list.

Import ListNotations.
Local Open Scope Z_scope.

(** ** Python values *)

Module Py.

(** Result of a call that may raise. *)
Inductive result (A : Type) : Type :=
| Ok (a : A)
| Raise (exc : string).
Arguments Ok {A} a.
Arguments Raise {A} exc.

Definition bind {A B} (r : result A) (k : A -> result B) : result B :=
  match r with
  | Ok a => k a
  | Raise e => Raise e
  end.

Definition raised {A} (r : result A) : bool :=
  match r with Ok _ => false | Raise _ => true end.

Fixpoint mapM {A B} (f : A -> result B) (l : list A) : result (list B) :=
  match l with
  | [] => Ok []
  | x :: l' => bind (f x) (fun y => bind (mapM f l') (fun ys => Ok (y :: ys)))
  end.

(** *** Floats: IEEE-754 binary64 *)

Definition prec : Z := 53.
Definition emax : Z := 1024.

Definition float := spec_float.

Definition fadd : float -> float -> float := SFadd prec emax.
Definition fdiv : float -> float -> float := SFdiv prec emax.
Definition fzero : float := S754_zero false.

(** [float(n)] for an [int]: the nearest double, [OverflowError] beyond
    the finite range. *)
Definition float_of_int (n : Z) : result float :=
  match binary_normalize prec emax n 0 false with
  | S754_infinity _ => Raise "OverflowError"
  | f => Ok f
  end.

(** The nearest double to [n / d] ([d > 0]); overflow gives an infinity. *)
Definition float_of_ratio (neg : bool) (n d : Z) : float :=
  match n with
  | Z0 => S754_zero neg
  | _ =>
      let '(m, e, l) := SFdiv_core_binary prec emax n 0 d 0 in
      binary_round_aux prec emax neg m e l
  end.

(** The nearest double to [c * 10^e], [c >= 0]. *)
Definition float_of_decimal (neg : bool) (c e : Z) : float :=
  if 0 <=? e then float_of_ratio neg (c * 10 ^ e) 1
  else float_of_ratio neg c (10 ^ (- e)).

(** Truth value of a float: every float but the two zeros. *)
Definition float_truthy (f : float) : bool :=
  match f with S754_zero _ => false | _ => true end.

(** The real number a finite float stands for. *)
Definition float_value (f : float) : option Q :=
  match f with
  | S754_zero _ => Some 0%Q
  | S754_finite s m e =>
      let v := if 0 <=? e then inject_Z (Z.pos m * 2 ^ e)
               else Qmake (Z.pos m) (Z.to_pos (2 ^ (- e))) in
      Some (if s then Qopp v else v)
  | _ => None
  end.

(** *** [float(str)]

    The grammar of Python's [float] on ASCII text: surrounding white
    space, a sign, then [inf], [infinity] or [nan] in any case, or a
    decimal number with optional fraction and exponent, where single
    underscores may separate digits.  (Non-ASCII digits and spaces,
    which Python accepts too, are outside the model.) *)

Definition is_space (a : ascii) : bool :=
  let n := Z.of_N (N_of_ascii a) in
  (9 <=? n) && (n <=? 13) || (28 <=? n) && (n <=? 32).

Definition digit_of (a : ascii) : option Z :=
  let n := Z.of_N (N_of_ascii a) in
  if (48 <=? n) && (n <=? 57) then Some (n - 48) else None.

Definition lower (a : ascii) : ascii :=
  let n := N_of_ascii a in
  if ((65 <=? n) && (n <=? 90))%N then ascii_of_N (n + 32) else a.

Fixpoint lstrip (l : list ascii) : list ascii :=
  match l with
  | a :: l' => if is_space a then lstrip l' else l
  | [] => []
  end.

Definition strip (l : list ascii) : list ascii :=
  rev (lstrip (rev (lstrip l))).

(** The rest of a digit part: [(["_"] digit)*], accumulating the value
    and the number of digits read. *)
Fixpoint digits_tail (acc cnt : Z) (l : list ascii) : Z * Z * list ascii :=
  match l with
  | a :: l' =>
      match digit_of a with
      | Some d => digits_tail (acc * 10 + d) (cnt + 1) l'
      | None =>
          if Ascii.eqb a "_" then
            match l' with
            | b :: l'' =>
                match digit_of b with
                | Some d => digits_tail (acc * 10 + d) (cnt + 1) l''
                | None => (acc, cnt, l)
                end
            | [] => (acc, cnt, l)
            end
          else (acc, cnt, l)
      end
  | [] => (acc, cnt, l)
  end.

Definition digitpart (acc : Z) (l : list ascii) : option (Z * Z * list ascii) :=
  match l with
  | a :: l' =>
      match digit_of a with
      | Some d => Some (digits_tail (acc * 10 + d) 1 l')
      | None => None
      end
  | [] => None
  end.

(** [number]: coefficient, number of fraction digits, rest. *)
Definition number (l : list ascii) : option (Z * Z * list ascii) :=
  match l with
  | "."%char :: l' => digitpart 0 l'
  | _ =>
      match digitpart 0 l with
      | Some (i, _, "."%char :: l') =>
          match digitpart i l' with
          | Some r => Some r
          | None => Some (i, 0, l')
          end
      | Some (i, _, l') => Some (i, 0, l')
      | None => None
      end
  end.

(** [exponent], when one can be read. *)
Definition exponent (l : list ascii) : Z * list ascii :=
  match l with
  | a :: l' =>
      if Ascii.eqb (lower a) "e" then
        let '(neg, l'') :=
          match l' with
          | "-"%char :: r => (true, r)
          | "+"%char :: r => (false, r)
          | _ => (false, l')
          end in
        match digitpart 0 l'' with
        | Some (x, _, r) => (if neg then - x else x, r)
        | None => (0, l)
        end
      else (0, l)
  | [] => (0, l)
  end.

Definition float_of_string (s : string) : result float :=
  let l := strip (list_ascii_of_string s) in
  let '(neg, l) :=
    match l with
    | "-"%char :: r => (true, r)
    | "+"%char :: r => (false, r)
    | _ => (false, l)
    end in
  let name := string_of_list_ascii (map lower l) in
  if String.eqb name "inf" || String.eqb name "infinity" then Ok (S754_infinity neg)
  else if String.eqb name "nan" then Ok S754_nan
  else
    match number l with
    | Some (c, k, r) =>
        match exponent r with
        | (x, []) => Ok (float_of_decimal neg c (x - k))
        | _ => Raise "ValueError"
        end
    | None => Raise "ValueError"
    end.

(** *** Values of a trade record of the feed

    A trade record is a JSON object; its values are [null], booleans,
    integers and strings (the feed sends decimal quantities as strings). *)

Inductive scalar : Type :=
| SNone
| SBool (b : bool)
| SInt (n : Z)
| SStr (s : string).

#[export] Instance scalar_eq_dec : EqDecision scalar.
Proof. solve_decision. Defined.

Definition truthy (v : scalar) : bool :=
  match v with
  | SNone => false
  | SBool b => b
  | SInt n => negb (n =? 0)
  | SStr s => negb (String.eqb s "")
  end.

(** [x or y] *)
Definition or_else (x y : scalar) : scalar := if truthy x then x else y.

(** [d.get(k)] and [d.get(k, default)] *)
Definition get (d : gmap string scalar) (k : string) : scalar :=
  default SNone (d !! k).

Definition get_default (d : gmap string scalar) (k : string) (dflt : scalar) : scalar :=
  default dflt (d !! k).

(** [float(v)] *)
Definition to_float (v : scalar) : result float :=
  match v with
  | SNone => Raise "TypeError"
  | SBool b => float_of_int (if b then 1 else 0)
  | SInt n => float_of_int n
  | SStr s => float_of_string s
  end.

(** [str(v)] *)
Definition str (v : scalar) : string :=
  match v with
  | SNone => "None"
  | SBool true => "True"
  | SBool false => "False"
  | SInt n => NilZero.string_of_int (Z.to_int n)
  | SStr s => s
  end.

(** [int(s)] for a string: white space, a sign and a digit part. *)
Definition int_of_string (s : string) : result Z :=
  let l := strip (list_ascii_of_string s) in
  let '(neg, l) :=
    match l with
    | "-"%char :: r => (true, r)
    | "+"%char :: r => (false, r)
    | _ => (false, l)
    end in
  match digitpart 0 l with
  | Some (n, _, []) => Ok (if neg then - n else n)
  | _ => Raise "ValueError"
  end.

(** [v == n] for an [int] [n]; a [bool] is the integer 0 or 1. *)
Definition eq_int (v : scalar) (n : Z) : bool :=
  match v with
  | SInt m => m =? n
  | SBool b => (if b then 1 else 0) =? n
  | _ => false
  end.

End Py.

(** ** [sorted(iterable, key=...)]

    Python's [sorted] is a stable sort; the result is determined by the
    input and the order on keys.  [sorted_by leb l] inserts each element
    in front of the first one that is not smaller. *)

Section Sorted.
Context {A : Type} (leb : A -> A -> bool).

Fixpoint insert_sorted (x : A) (l : list A) : list A :=
  match l with
  | [] => [x]
  | y :: l' => if leb x y then x :: l else y :: insert_sorted x l'
  end.

Fixpoint sorted_by (l : list A) : list A :=
  match l with
  | [] => []
  | x :: l' => insert_sorted x (sorted_by l')
  end.
End Sorted.

#[global] Instance Q_eq_dec : EqDecision Q.
Proof. solve_decision. Defined.

#[global] Instance spec_float_eq_dec : EqDecision spec_float.
Proof. solve_decision. Defined.

(** ** The push variant: [bot/] *)

Module Bot.
Import Py.

(** *** config.py *)

Record Config := {
  lighter_account_id : string;
  telegram_channel_id : string;
  report_interval_minutes : Z;
  sell_notify_cooldown_hours : Z
}.

(** *** lighter_ws.py: side resolution and enrichment *)

Definition _resolve_side (trade : gmap string scalar) (account_id_int : Z) : string :=
  if eq_int (get trade "bid_account_id") account_id_int then "buy"
  else if eq_int (get trade "ask_account_id") account_id_int then "sell"
  else "unknown".

(** The enriched trade [{**trade, "_side": .., "_ts": .., "_usd": ..,
    "_market": .., "_account_id": .., "_received_at": ..}]: the six
    helper keys with the types the code gives them, and the other keys
    of the record in [raw]. *)
Record enriched := {
  raw : gmap string scalar;
  _side : string;
  _ts : Q;
  _usd : float;
  _market : string;
  _account_id : string;
  _received_at : Q
}.

#[export] Instance enriched_eq_dec : EqDecision enriched.
Proof. solve_decision. Defined.

Definition helper_keys : list string :=
  ["_side"; "_ts"; "_usd"; "_market"; "_account_id"; "_received_at"].

(** [ts_ms / 1000.0]: the integer becomes a double, and the quotient
    is the double nearest to it; the result is the number that double
    stands for.  The quotient of a double by 1000.0 is finite. *)
Definition ms_to_seconds (ts_ms : scalar) : result Q :=
  let quotient n :=
    bind (float_of_int n) (fun f =>
    match float_value (fdiv f (float_of_decimal false 1000 0)) with
    | Some seconds => Ok (Qred seconds)
    | None => Raise "OverflowError"
    end) in
  match ts_ms with
  | SInt n => quotient n
  | SBool b => quotient (if b then 1 else 0)
  | _ => Raise "TypeError"
  end.

Definition enrich (account_id_str : string) (account_id_int : Z) (now : Q)
    (_market_key : string) (trade : gmap string scalar) : result enriched :=
  let now := Qred now in
  let side := _resolve_side trade account_id_int in
  let ts_ms := get trade "timestamp" in
  bind (if truthy ts_ms then ms_to_seconds ts_ms else Ok now) (fun ts_sec =>
  bind (to_float (or_else (get trade "usd_amount") (SInt 0))) (fun usd =>
  Ok {| raw := foldr delete trade helper_keys;
        _side := side;
        _ts := ts_sec;
        _usd := usd;
        _market := str (get_default trade "market_id" (SStr _market_key));
        _account_id := account_id_str;
        _received_at := now |})).

Definition is_sell (trade : enriched) : bool := String.eqb (_side trade) "sell".
Definition is_buy (trade : enriched) : bool := String.eqb (_side trade) "buy".

(** *** redis_client.py: the sorted set of recent trades

    The sorted set maps members to scores.  A member is the JSON text
    [json.dumps({**trade, "_member_id": ..}, sort_keys=True)]; two such
    texts are equal exactly when the enriched trades are ([_member_id]
    is computed from the trade), so the model takes the enriched trade
    as the member.  Among equal scores Redis orders members by the
    bytes of their texts: that order is the parameter [member_leb] of
    the reads.  The commands sent to Redis succeed, unless said
    otherwise. *)

Definition TRADE_RETENTION_SECONDS : Q := 360.

Definition zset : Type := list (enriched * Q).

(** [mapping[member] = score] on a Python dict, and ZADD of one member:
    an existing member keeps its place and takes the new score. *)
Fixpoint assign (member : enriched) (score : Q) (z : zset) : zset :=
  match z with
  | [] => [(member, score)]
  | (m, s) :: z' =>
      if decide (m = member) then (m, score) :: z'
      else (m, s) :: assign member score z'
  end.

Definition zadd (z mapping : zset) : zset :=
  fold_left (fun z ms => assign (fst ms) (snd ms) z) mapping z.

(** ZREMRANGEBYSCORE key -inf cutoff: both bounds are inclusive. *)
Definition zremrangebyscore (z : zset) (cutoff : Q) : zset * Z :=
  let kept := List.filter (fun ms => negb (Qle_bool (snd ms) cutoff)) z in
  (kept, Z.of_nat (length z) - Z.of_nat (length kept)).

(** The order of the entries of a sorted set: by score, and among
    equal scores by member. *)
Definition entry_leb (member_leb : enriched -> enriched -> bool)
    (a b : enriched * Q) : bool :=
  if Qeq_bool (snd a) (snd b) then member_leb (fst a) (fst b)
  else Qle_bool (snd a) (snd b).

(** ZRANGEBYSCORE key min +inf *)
Definition zrangebyscore (member_leb : enriched -> enriched -> bool) (z : zset)
    (min_score : Q) : list enriched :=
  map fst (sorted_by (entry_leb member_leb)
             (List.filter (fun ms => Qle_bool min_score (snd ms)) z)).

(** [score = float(trade.get("_ts") or time.time())] *)
Definition score_of (now : Q) (trade : enriched) : Q :=
  if Qeq_bool (_ts trade) 0 then Qred now else _ts trade.

(** The member for a trade.  [_member_id] is [str(trade_id)] when the
    trade has a [trade_id] that counts as true; it then replaces a
    [_member_id] of the record, which so plays no part in the member.
    Otherwise [_member_id] is the JSON text of the whole trade. *)
Definition member_of (trade : enriched) : enriched :=
  if truthy (get (raw trade) "trade_id") then
    {| raw := delete "_member_id" (raw trade);
       _side := _side trade; _ts := _ts trade; _usd := _usd trade;
       _market := _market trade; _account_id := _account_id trade;
       _received_at := _received_at trade |}
  else trade.

Definition store_trades (now : Q) (store : zset) (trades : list enriched) : zset :=
  match trades with
  | [] => store
  | _ =>
      let mapping :=
        fold_left
          (fun mapping trade => assign (member_of trade) (score_of now trade) mapping)
          trades [] in
      zadd store mapping
  end.

Definition purge_old_trades (now : Q) (store : zset) : zset * Z :=
  let cutoff := (now - TRADE_RETENTION_SECONDS)%Q in
  zremrangebyscore store cutoff.

Definition get_recent_trades (member_leb : enriched -> enriched -> bool) (now : Q)
    (store : zset) (window_seconds : option Q) : list enriched :=
  let window_seconds := default TRADE_RETENTION_SECONDS window_seconds in
  let min_score := (now - window_seconds)%Q in
  zrangebyscore member_leb store min_score.

(** *** database.py: the [users] table

    [user_id] is the primary key: no two rows share it.  Rows are kept
    in the order of their insertion. *)

Record user := {
  user_id : Z;
  pushover_key : string;
  last_notification_at : option Q
}.

Definition upsert_user (db : list user) (uid : Z) (key : string) : list user :=
  if existsb (fun u => user_id u =? uid) db then
    map (fun u => if user_id u =? uid
                  then {| user_id := user_id u; pushover_key := key;
                          last_notification_at := last_notification_at u |}
                  else u) db
  else db ++ [{| user_id := uid; pushover_key := key; last_notification_at := None |}].

Definition delete_user (db : list user) (uid : Z) : list user * bool :=
  let db' := List.filter (fun u => negb (user_id u =? uid)) db in
  (db', (length db' <? length db)%nat).

Definition get_all_users (db : list user) : list user := db.

Definition update_last_notification (now : Q) (db : list user) (uid : Z) : list user :=
  map (fun u => if user_id u =? uid
                then {| user_id := user_id u; pushover_key := pushover_key u;
                        last_notification_at := Some now |}
                else u) db.

Definition get_user (db : list user) (uid : Z) : option user :=
  List.find (fun u => user_id u =? uid) db.

(** *** pushover.py *)

(** What [client.post] gives: a response with its status code, or an
    [httpx.RequestError], the one exception the loop catches. *)
Inductive http_result :=
| Response (status_code : Z)
| RequestError.

(** One request to the Pushover API: the user it is for, and the USD
    amount of the message body. *)
Record push := { push_user : user; push_usd : float; push_trade : enriched }.

Definition _COOLDOWN_SECONDS (settings : Config) : Q :=
  inject_Z (sell_notify_cooldown_hours settings * 3600).

(** [last_notified and (now - last_notified) < _COOLDOWN_SECONDS] *)
Definition in_cooldown (cooldown now : Q) (u : user) : bool :=
  match last_notification_at u with
  | Some last_notified =>
      negb (Qeq_bool last_notified 0)
      && negb (Qle_bool cooldown (now - last_notified))
  | None => false
  end.

(** [float(usd)] for [usd = trade.get("_usd") or trade.get("usd_amount", "?")] *)
Definition body_usd (trade : enriched) : result float :=
  if float_truthy (_usd trade) then Ok (_usd trade)
  else to_float (get_default (raw trade) "usd_amount" (SStr "?")).

(** The loop over the users read at the start of [notify_sell]; [db] is
    the table, which [update_last_notification] writes. *)
Fixpoint notify_users (cooldown : Q) (post : user -> http_result) (now : Q)
    (stamp_at : Z -> Q) (trade : enriched) (usd : float)
    (users db : list user) : list push * list user :=
  match users with
  | [] => ([], db)
  | u :: rest =>
      if in_cooldown cooldown now u then
        notify_users cooldown post now stamp_at trade usd rest db
      else
        let db' :=
          match post u with
          | Response status_code =>
              if status_code =? 200
              then update_last_notification (stamp_at (user_id u)) db (user_id u)
              else db
          | RequestError => db
          end in
        let '(sent, db'') :=
          notify_users cooldown post now stamp_at trade usd rest db' in
        ({| push_user := u; push_usd := usd; push_trade := trade |} :: sent, db'')
  end.

(** [now] is the reading of [time.time()] at the start, [stamp_at uid]
    the reading inside [update_last_notification(uid)]. *)
Definition notify_sell (settings : Config) (post : user -> http_result) (now : Q)
    (stamp_at : Z -> Q) (db : list user) (trade : enriched)
    : result (list push * list user) :=
  let users := get_all_users db in
  match users with
  | [] => Ok ([], db)
  | _ =>
      bind (body_usd trade) (fun usd =>
      Ok (notify_users (_COOLDOWN_SECONDS settings) post now stamp_at trade usd users db))
  end.

(** *** lighter_ws.py: one message of the socket *)

Inductive ws_message :=
| NotJson
| Ping
| OtherType
| TradesUpdate (trades_by_market : list (string * list (gmap string scalar))).

Record state := {
  redis : zset;
  users : list user
}.

(** What the environment answers while one message is handled: the
    clock readings, and the answers of the Pushover API during the
    callback for the [k]-th sell trade of the message. *)
Record env := {
  time_recv : Q;
  time_store : Q;
  time_purge : Q;
  time_notify : nat -> Q;
  time_stamp : nat -> Z -> Q;
  http_post : nat -> user -> http_result
}.

Record effects := {
  ws_sent : list string;
  pushes : list push
}.

(** The callbacks, one sell trade after the other; an exception of a
    callback is logged and the next trade is taken. *)
Fixpoint fire_sell_callbacks (settings : Config) (e : env) (k : nat)
    (sell_trades : list enriched) (db : list user) : list push * list user :=
  match sell_trades with
  | [] => ([], db)
  | sell_trade :: rest =>
      let '(sent, db') :=
        match notify_sell settings (http_post e k) (time_notify e k)
                (time_stamp e k) db sell_trade with
        | Ok r => r
        | Raise _ => ([], db)
        end in
      let '(sent', db'') := fire_sell_callbacks settings e (S k) rest db' in
      (sent ++ sent', db'')
  end.

Definition enrich_all (account_id_str : string) (account_id_int : Z) (now : Q)
    (trades_by_market : list (string * list (gmap string scalar)))
    : result (list enriched) :=
  bind (mapM (fun kv => mapM (enrich account_id_str account_id_int now (fst kv)) (snd kv))
          trades_by_market)
       (fun ls => Ok (concat ls)).

Definition _handle_message (settings : Config) (e : env) (msg : ws_message)
    (st : state) : result (state * effects) :=
  match msg with
  | NotJson => Ok (st, {| ws_sent := []; pushes := [] |})
  | Ping => Ok (st, {| ws_sent := ["pong"]; pushes := [] |})
  | OtherType => Ok (st, {| ws_sent := []; pushes := [] |})
  | TradesUpdate trades_by_market =>
      let account_id_str := lighter_account_id settings in
      bind (int_of_string account_id_str) (fun account_id_int =>
      bind (enrich_all account_id_str account_id_int (time_recv e) trades_by_market)
        (fun all_trades =>
      let sell_trades := List.filter is_sell all_trades in
      let store :=
        match all_trades with
        | [] => redis st
        | _ => fst (purge_old_trades (time_purge e)
                      (store_trades (time_store e) (redis st) all_trades))
        end in
      let '(sent, db) := fire_sell_callbacks settings e 0 sell_trades (users st) in
      Ok ({| redis := store; users := db |}, {| ws_sent := []; pushes := sent |})))
  end.

(** [_receive_loop]: an exception of [_handle_message] is logged, and
    the next message is read. *)
Definition receive (settings : Config) (e : env) (msg : ws_message) (st : state)
    : state * effects :=
  match _handle_message settings e msg st with
  | Ok r => r
  | Raise _ => (st, {| ws_sent := []; pushes := [] |})
  end.

(** *** scheduler.py: the periodic report *)

Record stats := {
  buy_count : Z;
  sell_count : Z;
  buy_vol : float;
  sell_vol : float
}.

Definition zero_stats : stats :=
  {| buy_count := 0; sell_count := 0; buy_vol := fzero; sell_vol := fzero |}.

(** The running state of the aggregation loop. *)
Record totals := {
  market_stats : gmap string stats;
  total_buy_volume : float;
  total_sell_volume : float
}.

(** [trade.get("_market") or str(trade.get("market_id", "unknown"))] *)
Definition market_of (trade : enriched) : string :=
  if String.eqb (_market trade) "" then
    str (get_default (raw trade) "market_id" (SStr "unknown"))
  else _market trade.

(** [float(trade.get("_usd") or trade.get("usd_amount") or 0)] *)
Definition usd_of (trade : enriched) : result float :=
  if float_truthy (_usd trade) then Ok (_usd trade)
  else to_float (or_else (get (raw trade) "usd_amount") (SInt 0)).

Definition aggregate_step (acc : totals) (trade : enriched) : result totals :=
  let mkt := market_of trade in
  let st := default zero_stats (market_stats acc !! mkt) in
  bind (usd_of trade) (fun usd =>
  let side := _side trade in
  if String.eqb side "buy" then
    Ok {| market_stats :=
            <[mkt := {| buy_count := buy_count st + 1; sell_count := sell_count st;
                        buy_vol := fadd (buy_vol st) usd; sell_vol := sell_vol st |}]>
              (market_stats acc);
          total_buy_volume := fadd (total_buy_volume acc) usd;
          total_sell_volume := total_sell_volume acc |}
  else if String.eqb side "sell" then
    Ok {| market_stats :=
            <[mkt := {| buy_count := buy_count st; sell_count := sell_count st + 1;
                        buy_vol := buy_vol st; sell_vol := fadd (sell_vol st) usd |}]>
              (market_stats acc);
          total_buy_volume := total_buy_volume acc;
          total_sell_volume := fadd (total_sell_volume acc) usd |}
  else
    Ok {| market_stats := <[mkt := st]> (market_stats acc);
          total_buy_volume := total_buy_volume acc;
          total_sell_volume := total_sell_volume acc |}).

Fixpoint aggregate (acc : totals) (trades : list enriched) : result totals :=
  match trades with
  | [] => Ok acc
  | trade :: rest => bind (aggregate_step acc trade) (fun acc' => aggregate acc' rest)
  end.

Definition no_totals : totals :=
  {| market_stats := ∅; total_buy_volume := fzero; total_sell_volume := fzero |}.

(** The lines of the report, each with the values its format string
    takes; the text is the lines joined by newlines. *)
Inductive line :=
| Title (now_utc : string)
| Account (account_id : string)
| Window (minutes : Z)
| Blank
| TotalBuy (volume : float)
| TotalSell (volume : float)
| BreakdownHeader
| Market (mkt : string) (s : stats).

Record telegram_message := {
  chat_id : string;
  text : list line
}.

(** [sorted(market_stats.items())]: pairs compare by their keys first. *)
Definition sorted_items (m : gmap string stats) : list (string * stats) :=
  sorted_by (fun a b => String.leb (fst a) (fst b)) (map_to_list m).

Definition report_lines (settings : Config) (now_utc : string) (t : totals) : list line :=
  [ Title now_utc;
    Account (lighter_account_id settings);
    Window (report_interval_minutes settings);
    Blank;
    TotalBuy (total_buy_volume t);
    TotalSell (total_sell_volume t) ]
  ++ (if (1 <? size (market_stats t))%nat
      then [Blank; BreakdownHeader]
           ++ map (fun kv => Market (fst kv) (snd kv)) (sorted_items (market_stats t))
      else []).

(** [bot_ref] tells whether [set_bot] has run, [store] is [None] when
    Redis cannot be read; the result lists the messages handed to
    [send_message]. *)
Definition _post_trade_report (member_leb : enriched -> enriched -> bool)
    (settings : Config) (bot_ref : bool) (store : option zset) (now : Q)
    (now_utc : string) : result (list telegram_message) :=
  if negb bot_ref then Ok []
  else
    let window := inject_Z (report_interval_minutes settings * 60) in
    match store with
    | None => Ok []
    | Some z =>
        match get_recent_trades member_leb now z (Some window) with
        | [] => Ok []
        | trades =>
            bind (aggregate no_totals trades) (fun t =>
            Ok [ {| chat_id := telegram_channel_id settings;
                    text := report_lines settings now_utc t |} ])
        end
    end.

End Bot.

(** ** The poll variant: [lighter_bot/] *)

Module LighterBot.

(** *** [decimal.Decimal] under the default context

    A finite decimal is a signed coefficient and an exponent.  An
    addition computes the exact sum and rounds it to the 28 significant
    digits of the context, half to even.  (The exponent limits of the
    context, 999999, and the exponent and sign Python keeps for a zero
    sum are not part of the model.) *)

Record Decimal := { coef : Z; dexp : Z }.

Definition prec_bound : Z := 10 ^ 28.

(** The number a decimal stands for: [coef * 10 ^ dexp]. *)
Definition dec_value (d : Decimal) : Q :=
  (inject_Z (coef d) * Qpower 10 (dexp d))%Q.

(** How many low digits of [n >= 0] go for [n] to fit the precision. *)
Fixpoint excess_digits (fuel : nat) (n : Z) : Z :=
  match fuel with
  | O => 0
  | S fuel' => if n <? prec_bound then 0 else 1 + excess_digits fuel' (n / 10)
  end.

(** [_fix]: round the coefficient to the precision. *)
Definition dec_fix (c e : Z) : Decimal :=
  let n := Z.abs c in
  if n <? prec_bound then {| coef := c; dexp := e |}
  else
    let k := excess_digits (S (Z.to_nat (Z.log2 n))) n in
    let q := n / 10 ^ k in
    let r := n mod 10 ^ k in
    let half := 10 ^ k / 2 in
    let q := if (half <? r) || ((r =? half) && Z.odd q) then q + 1 else q in
    let '(q, k) := if q =? prec_bound then (q / 10, k + 1) else (q, k) in
    {| coef := Z.sgn c * q; dexp := e + k |}.

(** The exact sum, at the smaller exponent, before rounding. *)
Definition exact_coef (a b : Decimal) : Z :=
  let e := Z.min (dexp a) (dexp b) in
  coef a * 10 ^ (dexp a - e) + coef b * 10 ^ (dexp b - e).

Definition dec_add (a b : Decimal) : Decimal :=
  dec_fix (exact_coef a b) (Z.min (dexp a) (dexp b)).

(** [Decimal("0")] and [d > 0] *)
Definition dec_zero : Decimal := {| coef := 0; dexp := 0 |}.
Definition dec_pos (d : Decimal) : bool := 0 <? coef d.

(** *** domain/models.py *)

Inductive Direction := Buy | Sell.

Record Trade := {
  ts : Z;
  direction : Direction;
  usd_size : Decimal
}.

Record Subscription := {
  user_id : Z;
  pushover_user_key : string
}.

(** *** core/settings.py *)

Record Settings := {
  channel_id : string;
  notification_cooldown_minutes : Z
}.

(** [timedelta(minutes=m)], in microseconds *)
Definition minutes (m : Z) : Z := m * 60 * 1000000.

(** *** infrastructure/persistence/state_store.py

    The state file holds the watermark; [None] stands for a file that
    is missing, unreadable or without a [last_ts]. *)

Definition load_last_ts (file : option Z) : option Z := file.

(** [write_ok] tells whether [write_text] succeeds; its [OSError] is
    logged and the file keeps its content. *)
Definition save_last_ts (write_ok : bool) (file : option Z) (timestamp : Z) : option Z :=
  if write_ok then Some timestamp else file.

(** *** infrastructure/persistence/subscription_store.py

    The table [pushover_subscriptions]; [user_id] is its primary key. *)

Record row := {
  row_user_id : Z;
  row_pushover_user_key : string;
  last_notification_at : option Z
}.

Definition upsert_subscription (db : list row) (uid : Z) (key : string) : list row :=
  if existsb (fun r => row_user_id r =? uid) db then
    map (fun r => if row_user_id r =? uid
                  then {| row_user_id := row_user_id r; row_pushover_user_key := key;
                          last_notification_at := last_notification_at r |}
                  else r) db
  else db ++ [{| row_user_id := uid; row_pushover_user_key := key;
                 last_notification_at := None |}].

Definition delete_subscription (db : list row) (uid : Z) : list row * Z :=
  let db' := List.filter (fun r => negb (row_user_id r =? uid)) db in
  (db', Z.of_nat (length db) - Z.of_nat (length db')).

(** [WHERE last_notification_at IS NULL OR last_notification_at <= cutoff] *)
Definition eligible (cutoff : Z) (r : row) : bool :=
  match last_notification_at r with
  | None => true
  | Some at_ => at_ <=? cutoff
  end.

Definition list_eligible_subscriptions (now : Z) (db : list row) (cooldown : Z)
    : list Subscription :=
  let cutoff := now - cooldown in
  map (fun r => {| user_id := row_user_id r;
                   pushover_user_key := row_pushover_user_key r |})
    (List.filter (eligible cutoff) db).

Definition mark_notified (db : list row) (uid : Z) (at_ : Z) : list row :=
  map (fun r => if row_user_id r =? uid
                then {| row_user_id := row_user_id r;
                        row_pushover_user_key := row_pushover_user_key r;
                        last_notification_at := Some at_ |}
                else r) db.

(** *** application/trade_monitor_service.py *)

Inductive message :=
| SellAlert (trade : Trade)
| Summary (total_buy total_sell : Decimal).

(** What leaves the process: a message for the Telegram channel, or a
    call of [PushoverClient.send_sell_notification]. *)
Inductive event :=
| Telegram (chat : string) (m : message)
| Pushover (user_key : string) (trade : Trade).

Record World := {
  state_file : option Z;
  subscriptions : list row;
  outbox : list event;
  dispatches : nat
}.

(** The environment of the service: for the [k]-th call of
    [_send_pushover_sell_alert], the two readings of the clock (in
    [list_eligible_subscriptions], and before the loop) and, for each
    subscription, how [send_sell_notification] ends: it returns a
    [bool], or it raises. *)
Record env := {
  query_time : nat -> Z;
  stamp_time : nat -> Z;
  delivered : nat -> Subscription -> Py.result bool
}.

Definition log (ev : event) (w : World) : World :=
  {| state_file := state_file w; subscriptions := subscriptions w;
     outbox := outbox w ++ [ev]; dispatches := dispatches w |}.

(** [_safe_send]: a failure of the send is logged and swallowed. *)
Definition _safe_send (settings : Settings) (m : message) (w : World) : World :=
  log (Telegram (channel_id settings) m) w.

Definition _send_sell_alert (settings : Settings) (trade : Trade) (w : World) : World :=
  _safe_send settings (SellAlert trade) w.

Definition _send_summary (settings : Settings) (total_buy total_sell : Decimal)
    (w : World) : World :=
  _safe_send settings (Summary total_buy total_sell) w.

(** The loop of [_send_pushover_sell_alert] over the eligible
    subscriptions.  Nothing catches an exception of
    [send_sell_notification]: it ends the loop, and what was done
    before stays done.  The result is how the loop ends and the world
    it leaves. *)
Fixpoint notify_subscriptions (send : Subscription -> Py.result bool) (now : Z)
    (trade : Trade) (subs : list Subscription) (w : World) : Py.result unit * World :=
  match subs with
  | [] => (Py.Ok tt, w)
  | subscription :: rest =>
      let w := log (Pushover (pushover_user_key subscription) trade) w in
      match send subscription with
      | Py.Raise exn => (Py.Raise exn, w)
      | Py.Ok sent =>
          let w :=
            if sent then
              {| state_file := state_file w;
                 subscriptions := mark_notified (subscriptions w) (user_id subscription) now;
                 outbox := outbox w; dispatches := dispatches w |}
            else w in
          notify_subscriptions send now trade rest w
      end
  end.

Definition _send_pushover_sell_alert (settings : Settings) (e : env) (trade : Trade)
    (w : World) : Py.result unit * World :=
  let k := dispatches w in
  let w := {| state_file := state_file w; subscriptions := subscriptions w;
              outbox := outbox w; dispatches := S k |} in
  let cooldown := minutes (notification_cooldown_minutes settings) in
  let subs := list_eligible_subscriptions (query_time e k) (subscriptions w) cooldown in
  match subs with
  | [] => (Py.Ok tt, w)
  | _ => notify_subscriptions (delivered e k) (stamp_time e k) trade subs w
  end.

(** [sorted(trades, key=ts)] filtered by the watermark. *)
Definition fresh_trades (last_processed_ts : option Z) (trades : list Trade) : list Trade :=
  List.filter
    (fun trade => match last_processed_ts with
                  | None => true
                  | Some last => last <? ts trade
                  end)
    (sorted_by (fun a b => ts a <=? ts b) trades).

(** The loop over the fresh trades, with its two accumulators; an
    exception of a dispatch ends it. *)
Fixpoint process_trades (settings : Settings) (e : env) (trades : list Trade)
    (total_buy total_sell : Decimal) (w : World)
    : Py.result (Decimal * Decimal) * World :=
  match trades with
  | [] => (Py.Ok (total_buy, total_sell), w)
  | trade :: rest =>
      match direction trade with
      | Buy =>
          process_trades settings e rest (dec_add total_buy (usd_size trade)) total_sell w
      | Sell =>
          let total_sell := dec_add total_sell (usd_size trade) in
          let w := _send_sell_alert settings trade w in
          match _send_pushover_sell_alert settings e trade w with
          | (Py.Ok _, w) => process_trades settings e rest total_buy total_sell w
          | (Py.Raise exn, w) => (Py.Raise exn, w)
          end
      end
  end.

(** [max(trade.ts for trade in fresh_trades)] of a non-empty list *)
Definition latest_ts (first : Trade) (rest : list Trade) : Z :=
  fold_left (fun m trade => Z.max m (ts trade)) rest (ts first).

(** One cycle that holds the job lock.  [fetched] is what
    [fetch_trades] returns, [write_ok] whether the state file can be
    written.  A cycle that a dispatch ends by an exception sends no
    summary and does not save the watermark. *)
Definition run_once (settings : Settings) (e : env) (fetched : list Trade)
    (write_ok : bool) (w : World) : Py.result unit * World :=
  match fetched with
  | [] => (Py.Ok tt, w)
  | _ =>
      let last_processed_ts := load_last_ts (state_file w) in
      match fresh_trades last_processed_ts fetched with
      | [] => (Py.Ok tt, w)
      | first :: rest =>
          match process_trades settings e (first :: rest) dec_zero dec_zero w with
          | (Py.Raise exn, w) => (Py.Raise exn, w)
          | (Py.Ok (total_buy, total_sell), w) =>
              let w :=
                if dec_pos total_buy || dec_pos total_sell
                then _send_summary settings total_buy total_sell w
                else w in
              (Py.Ok tt,
               {| state_file := save_last_ts write_ok (state_file w) (latest_ts first rest);
                  subscriptions := subscriptions w;
                  outbox := outbox w;
                  dispatches := dispatches w |})
          end
      end
  end.

End LighterBot.


(** ** Notions used in the statements *)

(** [a] stands somewhere before [b] in [l]. *)
Definition before {A : Type} (a b : A) (l : list A) : Prop :=
exists l1 l2 l3, l = l1 ++ a :: l2 ++ b :: l3.

(** The test of the watermark filter. *)
Definition newer (last_processed_ts : option Z) (trade : LighterBot.Trade) : bool :=
match last_processed_ts with
| None => true
| Some last => last <? LighterBot.ts trade
end.

(** What it would mean for [fresh_trades] to order trades of equal
    timestamp by a secondary key of the trade: whenever one of two
    different trades with the same timestamp comes out before the other,
    its key is the smaller one. *)
Definition ties_ordered_by (key : LighterBot.Trade -> Z) : Prop :=
forall wm batch a b,
  LighterBot.ts a = LighterBot.ts b -> a <> b ->
  before a b (LighterBot.fresh_trades wm batch) -> key a < key b.


(** The trades for which a Sell alert went to the Telegram channel, in
    the order of the alerts. *)
Definition sell_alerts (evs : list LighterBot.event) : list LighterBot.Trade :=
flat_map (fun ev => match ev with
                    | LighterBot.Telegram _ (LighterBot.SellAlert trade) => [trade]
                    | _ => []
                    end) evs.

Definition is_sell_trade (trade : LighterBot.Trade) : bool :=
match LighterBot.direction trade with
| LighterBot.Sell => true
| LighterBot.Buy => false
end.

Definition is_buy_trade (trade : LighterBot.Trade) : bool :=
match LighterBot.direction trade with
| LighterBot.Buy => true
| LighterBot.Sell => false
end.


(** The sum of decimals as a number. *)
Definition exact_sum (ds : list LighterBot.Decimal) : Q :=
fold_right Qplus 0%Q (map LighterBot.dec_value ds).

(** No addition of the running sum [acc + d1 + d2 + ...] has to round:
    each exact sum has at most 28 digits. *)
Fixpoint sums_fit (acc : LighterBot.Decimal) (ds : list LighterBot.Decimal) : bool :=
match ds with
| [] => true
| d :: ds' =>
    (Z.abs (LighterBot.exact_coef acc d) <? LighterBot.prec_bound)
    && sums_fit (LighterBot.dec_add acc d) ds'
end.


(** The exact sum of the USD amounts of the trades of one side, each
    amount taken as the number its float stands for. *)
Definition exact_volume (side : string) (trades : list Bot.enriched) : Q :=
fold_right Qplus 0%Q
  (map (fun trade => default 0%Q (Py.float_value (Bot._usd trade)))
     (List.filter (fun trade => String.eqb (Bot._side trade) side) trades)).


(** The markets of the per-market lines of a report, in their order. *)
Definition breakdown_markets (text : list Bot.line) : list string :=
flat_map (fun l => match l with Bot.Market mkt _ => [mkt] | _ => [] end) text.

(** A trade record of the feed for the tracked account 714638, which
    buys when [buys] holds and sells otherwise. *)
Definition feed_trade (trade_id : Z) (market_id : Py.scalar) (buys : bool)
    (usd_amount : string) (timestamp : Z) : gmap string Py.scalar :=
<["trade_id" := Py.SInt trade_id]>
  (<["market_id" := market_id]>
     (<["usd_amount" := Py.SStr usd_amount]>
        (<["bid_account_id" := Py.SInt (if buys then 714638 else 54344)]>
           (<["ask_account_id" := Py.SInt (if buys then 54344 else 714638)]>
              (<["timestamp" := Py.SInt timestamp]> ∅))))).

(** The order of the texts of two members that agree on the keys that
    come before [_received_at] in the text, as the members of one
    record received at two times of as many digits do: by the time of
    receipt. *)
Definition by_receipt (a b : Bot.enriched) : bool :=
Qle_bool (Bot._received_at a) (Bot._received_at b).

Definition example_settings : Bot.Config :=
{| Bot.lighter_account_id := "714638"; Bot.telegram_channel_id := "@whales";
   Bot.report_interval_minutes := 5; Bot.sell_notify_cooldown_hours := 2 |}.

(** An environment in which a message arrives at time [now] and every
    request to Pushover is answered with status 200. *)
Definition example_env (now : Q) : Bot.env :=
{| Bot.time_recv := now; Bot.time_store := now; Bot.time_purge := now;
   Bot.time_notify := fun _ => now; Bot.time_stamp := fun _ _ => now;
   Bot.http_post := fun _ _ => Bot.Response 200 |}.

Definition empty_state : Bot.state := {| Bot.redis := []; Bot.users := [] |}.

(** The store after a feed message with two buys on market 7:
    9007199254740992 USD (2^53) and 1 USD. *)
Definition drift_store : Bot.zset :=
Bot.redis (fst (Bot.receive example_settings (example_env 30)
                  (Bot.TradesUpdate
                     [("7", [feed_trade 1 (Py.SInt 7) true "9007199254740992" 10000;
                             feed_trade 2 (Py.SInt 7) true "1" 20000])])
                  empty_state)).

(** The store after a feed message with a buy of 100 USD and sells of 50
    and 25 USD on market M1, at the times 100, 150 and 200. *)
Definition scenario_store : Bot.zset :=
Bot.redis (fst (Bot.receive example_settings (example_env 250)
                  (Bot.TradesUpdate
                     [("M1", [feed_trade 1 (Py.SStr "M1") true "100" 100000;
                              feed_trade 2 (Py.SStr "M1") false "50" 150000;
                              feed_trade 3 (Py.SStr "M1") false "25" 200000])])
                  empty_state)).


(** A sell of 500 USD on market 7 with trade id 1 and event time 640,
    as [enrich] gives it when the record arrives at time 641. *)
Definition example_sell_record : gmap string Py.scalar :=
feed_trade 1 (Py.SInt 7) false "500" 640000.

Definition example_sell : Bot.enriched :=
{| Bot.raw := example_sell_record;
   Bot._side := "sell";
   Bot._ts := 640;
   Bot._usd := Py.float_of_decimal false 500 0;
   Bot._market := "7";
   Bot._account_id := "714638";
   Bot._received_at := 641 |}.


(** [SELECT ... WHERE user_id = ?] on the table of the poll variant. *)
Definition select_row (db : list LighterBot.row) (uid : Z) : option LighterBot.row :=
List.find (fun r => LighterBot.row_user_id r =? uid) db.

(** A state of the push variant with one subscribed user who was never
    notified. *)
Definition one_user_state : Bot.state :=
{| Bot.redis := [];
   Bot.users := [ {| Bot.user_id := 1; Bot.pushover_key := "user-key-0001";
                     Bot.last_notification_at := None |} ] |}.


(** The response that counts as a confirmed delivery in [notify_sell]. *)
Definition confirmed (r : Bot.http_result) : bool :=
match r with
| Bot.Response status_code => status_code =? 200
| Bot.RequestError => false
end.

(** A row of [users] with its stamp set. *)
Definition stamped_user (u : Bot.user) (at_ : Q) : Bot.user :=
{| Bot.user_id := Bot.user_id u; Bot.pushover_key := Bot.pushover_key u;
   Bot.last_notification_at := Some at_ |}.

(** A row of [pushover_subscriptions] with its stamp set, and the
    [Subscription] read from a row. *)
Definition stamped_row (r : LighterBot.row) (at_ : Z) : LighterBot.row :=
{| LighterBot.row_user_id := LighterBot.row_user_id r;
   LighterBot.row_pushover_user_key := LighterBot.row_pushover_user_key r;
   LighterBot.last_notification_at := Some at_ |}.

Definition subscription_of (r : LighterBot.row) : LighterBot.Subscription :=
{| LighterBot.user_id := LighterBot.row_user_id r;
   LighterBot.pushover_user_key := LighterBot.row_pushover_user_key r |}.


(** Two subscribers of the push variant, never notified, and the answers
    of the Pushover API in the example of a partial failure: status 500
    for the first user, status 200 for the second. *)
Definition alice : Bot.user :=
{| Bot.user_id := 1; Bot.pushover_key := "user-key-alice";
   Bot.last_notification_at := None |}.

Definition bob : Bot.user :=
{| Bot.user_id := 2; Bot.pushover_key := "user-key-bob1";
   Bot.last_notification_at := None |}.

Definition fails_for_alice (u : Bot.user) : Bot.http_result :=
if Bot.user_id u =? 1 then Bot.Response 500 else Bot.Response 200.

(** The same two subscribers in the table of the poll variant, and an
    environment in which the delivery to the first one fails. *)
Definition alice_row : LighterBot.row :=
{| LighterBot.row_user_id := 1; LighterBot.row_pushover_user_key := "user-key-alice";
   LighterBot.last_notification_at := None |}.

Definition bob_row : LighterBot.row :=
{| LighterBot.row_user_id := 2; LighterBot.row_pushover_user_key := "user-key-bob1";
   LighterBot.last_notification_at := None |}.

Definition poll_settings : LighterBot.Settings :=
{| LighterBot.channel_id := "@whales"; LighterBot.notification_cooldown_minutes := 120 |}.

Definition poll_env_failing_alice : LighterBot.env :=
{| LighterBot.query_time := fun _ => 1000;
   LighterBot.stamp_time := fun _ => 1001;
   LighterBot.delivered := fun _ s => Py.Ok (negb (LighterBot.user_id s =? 1)) |}.

Definition poll_world : LighterBot.World :=
{| LighterBot.state_file := None;
   LighterBot.subscriptions := [alice_row; bob_row];
   LighterBot.outbox := [];
   LighterBot.dispatches := 0 |}.

Definition poll_sell : LighterBot.Trade :=
{| LighterBot.ts := 900; LighterBot.direction := LighterBot.Sell;
   LighterBot.usd_size := {| LighterBot.coef := 500; LighterBot.dexp := 0 |} |}.


(** The store after a feed message with a buy on market 9 and a sell on
    market 10. *)
Definition two_markets_store : Bot.zset :=
Bot.redis (fst (Bot.receive example_settings (example_env 250)
                  (Bot.TradesUpdate
                     [("9", [feed_trade 1 (Py.SInt 9) true "100" 100000]);
                      ("10", [feed_trade 2 (Py.SInt 10) false "50" 150000])])
                  empty_state)).

(** The store after a feed message with buys of 0.1 and 0.2 USD. *)
Definition tenths_store : Bot.zset :=
Bot.redis (fst (Bot.receive example_settings (example_env 30)
                  (Bot.TradesUpdate
                     [("7", [feed_trade 1 (Py.SInt 7) true "0.1" 10000;
                             feed_trade 2 (Py.SInt 7) true "0.2" 20000])])
                  empty_state)).


(** The subscriptions for which a loop calls [send_sell_notification]:
    those up to the first one for which the call raises, that one
    included. *)
Fixpoint reached (send : LighterBot.Subscription -> Py.result bool)
    (subs : list LighterBot.Subscription) : list LighterBot.Subscription :=
match subs with
| [] => []
| s :: rest => s :: (if Py.raised (send s) then [] else reached send rest)
end.

(** Whether a call of [send_sell_notification] returned [True]. *)
Definition returned_true (r : Py.result bool) : bool :=
match r with
| Py.Ok sent => sent
| Py.Raise _ => false
end.



(** A row after some dispatches: the same user and key, and the stamp it
    had or a reading of the clock of the environment. *)
Definition row_kept_or_stamped (e : LighterBot.env) (r r' : LighterBot.row) : Prop :=
subscription_of r' = subscription_of r
/\ (LighterBot.last_notification_at r' = LighterBot.last_notification_at r
    \/ exists k, LighterBot.last_notification_at r' = Some (LighterBot.stamp_time e k)).


(** [LighterWebSocketClient._receive_loop] over the messages that arrive
    while the client runs, each with what the environment answers while
    it is handled. *)
Fixpoint _receive_loop (settings : Bot.Config) (msgs : list (Bot.env * Bot.ws_message))
    (st : Bot.state) : Bot.state * list Bot.effects :=
match msgs with
| [] => (st, [])
| (e, raw_msg) :: rest =>
    let '(st', eff) := Bot.receive settings e raw_msg st in
    let '(st'', effs) := _receive_loop settings rest st' in
    (st'', eff :: effs)
end.


(** A row of [users] after a dispatch: the same user and key, and the
    stamp it had or the reading of the clock for that user. *)
Definition user_kept_or_stamped (stamp_at : Z -> Q) (u u' : Bot.user) : Prop :=
Bot.user_id u' = Bot.user_id u
/\ Bot.pushover_key u' = Bot.pushover_key u
/\ (Bot.last_notification_at u' = Bot.last_notification_at u
    \/ Bot.last_notification_at u' = Some (stamp_at (Bot.user_id u))).


(** Whether a trade of the window is on market [mkt], and is a buy or a
    sell for the report. *)
Definition on_market (mkt : string) (trade : Bot.enriched) : bool :=
String.eqb (Bot.market_of trade) mkt.

Definition report_buy (trade : Bot.enriched) : bool := String.eqb (Bot._side trade) "buy".
Definition report_sell (trade : Bot.enriched) : bool := String.eqb (Bot._side trade) "sell".

(** The amount the report adds for a trade. *)
Definition usd_or_zero (trade : Bot.enriched) : Py.float :=
match Bot.usd_of trade with
| Py.Ok usd => usd
| Py.Raise _ => Py.fzero
end.

(** The float sum of amounts, from 0.0, left to right. *)
Definition float_sum (trades : list Bot.enriched) : Py.float :=
fold_left Py.fadd (map usd_or_zero trades) Py.fzero.

(** The statistics of the trades of one market. *)
Definition stats_of (trades : list Bot.enriched) : Bot.stats :=
{| Bot.buy_count := Z.of_nat (length (List.filter report_buy trades));
   Bot.sell_count := Z.of_nat (length (List.filter report_sell trades));
   Bot.buy_vol := float_sum (List.filter report_buy trades);
   Bot.sell_vol := float_sum (List.filter report_sell trades) |}.


(** What the aggregation loop of the report holds after the trades
    [trades]: an entry for each market that has a trade, with the
    statistics of the trades of that market, and the two totals. *)
Definition aggregated (trades : list Bot.enriched) (t : Bot.totals) : Prop :=
(forall mkt,
   Bot.market_stats t !! mkt
   = if existsb (on_market mkt) trades
     then Some (stats_of (List.filter (on_market mkt) trades))
     else None)
/\ Bot.total_buy_volume t = float_sum (List.filter report_buy trades)
/\ Bot.total_sell_volume t = float_sum (List.filter report_sell trades).


(** The report on [two_markets_store] at time 300. *)
Definition two_markets_message : Bot.telegram_message :=
match Bot._post_trade_report by_receipt example_settings true (Some two_markets_store) 300
        "12:00 UTC" with
| Py.Ok [msg] => msg
| _ => {| Bot.chat_id := EmptyString; Bot.text := [] |}
end.


(** ** The HTTP clients of the poll variant: [infrastructure/http/]

    Both clients try a request at most [max_retries] times.  What the
    network answers is given for each attempt; the events are the
    requests made and the sleeps, in their order. *)

Module Http.

(** A value of a JSON object; arrays and objects are not told apart.
    Floats are as the parser gives them. *)
Inductive json_value :=
| JNull
| JBool (b : bool)
| JInt (n : Z)
| JFloat (f : Py.float)
| JStr (s : string)
| JCompound.

(** [v == 1] for [v = data.get("status")] *)
Definition eq_1 (v : option json_value) : bool :=
match v with
| Some (JInt n) => n =? 1
| Some (JBool b) => b
| Some (JFloat f) => SFeqb f (Py.float_of_decimal false 1 0)
| _ => false
end.

(** A response: its status code, its [Retry-After] header if it has
    one, and what its body is read as. *)
Record response (B : Type) := {
  status_code : Z;
  retry_after : option string;
  body : B
}.
Arguments status_code {B} _.
Arguments retry_after {B} _.
Arguments body {B} _.

(** What a request gives: an [httpx.TimeoutException], another
    [httpx.HTTPError], an exception that is no [httpx.HTTPError], or a
    response. *)
Inductive outcome (B : Type) :=
| TimeoutException
| HTTPError
| OtherException (exn : string)
| Response (r : response B).
Arguments TimeoutException {B}.
Arguments HTTPError {B}.
Arguments OtherException {B} _.
Arguments Response {B} _.

Inductive event :=
| Request (attempt : Z)
| Sleep (seconds : Z).

(** The settings and the library a client runs with: [max_retries],
    whether [raise_for_status] raises for a status code, and the
    outcome of the request of each attempt. *)
Record client (B : Type) := {
  max_retries : Z;
  raise_for_status : Z -> bool;
  request : Z -> outcome B
}.
Arguments max_retries {B} _.
Arguments raise_for_status {B} _.
Arguments request {B} _.

(** [range(a, b)] *)
Definition range (a b : Z) : list Z :=
map (fun i => a + Z.of_nat i) (seq 0 (Z.to_nat (b - a))).

(** [await asyncio.sleep(seconds)] for an integer: a delay that is not
    positive returns at once; a positive one is added to the clock of
    the loop, a float, and raises [OverflowError] when no float holds
    it. *)
Definition sleep (seconds : Z) : Py.result unit :=
if seconds <=? 0 then Py.Ok tt
else Py.bind (Py.float_of_int seconds) (fun _ => Py.Ok tt).

(** [await asyncio.sleep(wait_seconds)] and [continue] after the
    request of [attempt]: [next] is the rest of the loop.  An
    exception of the computation of [wait_seconds] or of the sleep
    leaves the loop. *)
Definition sleep_and_continue {A : Type} (attempt : Z) (wait_seconds : Py.result Z)
    (next : Py.result A * list event) : Py.result A * list event :=
match Py.bind wait_seconds (fun seconds =>
      Py.bind (sleep seconds) (fun _ => Py.Ok seconds)) with
| Py.Ok seconds => (fst next, Request attempt :: Sleep seconds :: snd next)
| Py.Raise exn => (Py.Raise exn, [Request attempt])
end.

(** *** pushover_client.py

    [response.json()] of the Pushover API: [json.JSONDecodeError],
    another exception (such as [UnicodeDecodeError] for a body that is
    not text), an object, or another JSON value. *)
Inductive json_body :=
| NotJson
| JsonRaises (exn : string)
| JsonObject (data : gmap string json_value)
| JsonOther.

(** The loop of [send_sell_notification] over the attempts. *)
Fixpoint send_attempts (c : client json_body) (attempts : list Z)
    : Py.result bool * list event :=
match attempts with
| [] => (Py.Ok false, [])
| attempt :: rest =>
    let next := send_attempts c rest in
    match request c attempt with
    | Response response =>
        if status_code response =? 429 then
          sleep_and_continue attempt
            (Py.int_of_string (default "2" (retry_after response))) next
        else if (500 <=? status_code response) && (status_code response <? 600) then
          sleep_and_continue attempt (Py.Ok (Z.min (2 ^ attempt) 10)) next
        else if raise_for_status c (status_code response) then
          (Py.Ok false, [Request attempt])
        else
          match body response with
          | NotJson => (Py.Ok false, [Request attempt])
          | JsonRaises exn => (Py.Raise exn, [Request attempt])
          | JsonObject data => (Py.Ok (eq_1 (data !! "status")), [Request attempt])
          | JsonOther => (Py.Raise "AttributeError", [Request attempt])
          end
    | TimeoutException =>
        sleep_and_continue attempt (Py.Ok (Z.min (2 ^ attempt) 10)) next
    | HTTPError => (Py.Ok false, [Request attempt])
    | OtherException exn => (Py.Raise exn, [Request attempt])
    end
end.

Definition send_sell_notification (c : client json_body) : Py.result bool * list event :=
send_attempts c (range 1 (max_retries c + 1)).

(** *** lightalytics_client.py

    The body of an answer of the API: [response.json()] raises
    [json.JSONDecodeError] or another exception, [TradesResponse] does
    not validate the value, or it gives the trades. *)
Inductive trades_body :=
| BadJson
| JsonFails (exn : string)
| BadSchema
| Trades (trades : list LighterBot.Trade).

(** The loop of [fetch_trades] over the attempts. *)
Fixpoint fetch_attempts (c : client trades_body) (attempts : list Z)
    : Py.result (list LighterBot.Trade) * list event :=
match attempts with
| [] => (Py.Ok [], [])
| attempt :: rest =>
    let next := fetch_attempts c rest in
    match request c attempt with
    | Response response =>
        if status_code response =? 429 then
          sleep_and_continue attempt
            (Py.int_of_string (default "2" (retry_after response))) next
        else if (500 <=? status_code response) && (status_code response <? 600) then
          sleep_and_continue attempt (Py.Ok (Z.min (2 ^ attempt) 10)) next
        else if raise_for_status c (status_code response) then
          (Py.Ok [], [Request attempt])
        else
          match body response with
          | BadJson => (Py.Ok [], [Request attempt])
          | JsonFails exn => (Py.Raise exn, [Request attempt])
          | BadSchema => (Py.Ok [], [Request attempt])
          | Trades trades => (Py.Ok trades, [Request attempt])
          end
    | TimeoutException =>
        sleep_and_continue attempt (Py.Ok (Z.min (2 ^ attempt) 10)) next
    | HTTPError => (Py.Ok [], [Request attempt])
    | OtherException exn => (Py.Raise exn, [Request attempt])
    end
end.

Definition fetch_trades (c : client trades_body)
    : Py.result (list LighterBot.Trade) * list event :=
fetch_attempts c (range 1 (max_retries c + 1)).

End Http.

(** The attempts of the requests among the events, and the sleeps. *)
Definition requests (evs : list Http.event) : list Z :=
flat_map (fun ev => match ev with Http.Request attempt => [attempt] | _ => [] end) evs.

Definition sleeps (evs : list Http.event) : list Z :=
flat_map (fun ev => match ev with Http.Sleep seconds => [seconds] | _ => [] end) evs.

(** An outcome after which the loop backs off and goes on: a timeout
    or a status from 500 to 599. *)
Definition backs_off {B : Type} (o : Http.outcome B) : Prop :=
match o with
| Http.TimeoutException => True
| Http.Response r => 500 <= Http.status_code r < 600
| Http.HTTPError => False
| Http.OtherException _ => False
end.

(** A response to which neither retry branch applies and for which
    [raise_for_status] does not raise. *)
Definition accepted {B : Type} (c : Http.client B) (r : Http.response B) : Prop :=
Http.status_code r <> 429
/\ ~ (500 <= Http.status_code r < 600)
/\ Http.raise_for_status c (Http.status_code r) = false.

(** The status codes for which [raise_for_status] raises when it
    raises for all but the codes from 200 to 299. *)
Definition not_success (status : Z) : bool :=
negb ((200 <=? status) && (status <? 300)).

(** A Pushover client for which every request times out, and one that
    is answered at once with status 1. *)
Definition timing_out : Http.client Http.json_body :=
{| Http.max_retries := 3; Http.raise_for_status := not_success;
   Http.request := fun _ => Http.TimeoutException |}.

Definition answered : Http.client Http.json_body :=
{| Http.max_retries := 3; Http.raise_for_status := not_success;
   Http.request := fun attempt =>
     if attempt =? 1 then Http.Response {| Http.status_code := 503; Http.retry_after := None;
                                           Http.body := Http.NotJson |}
     else Http.Response {| Http.status_code := 200; Http.retry_after := None;
                           Http.body := Http.JsonObject {[ "status" := Http.JInt 1 ]} |} |}.

(** A client that is told to wait until a date. *)
Definition rate_limited_until_date {B : Type} (b : B) : Http.client B :=
{| Http.max_retries := 3; Http.raise_for_status := not_success;
   Http.request := fun _ =>
     Http.Response {| Http.status_code := 429;
                      Http.retry_after := Some "Wed, 21 Oct 2026 07:28:00 GMT";
                      Http.body := b |} |}.

(** A client of the API that is answered with trades at the second
    attempt. *)
Definition answered_with (trades : list LighterBot.Trade) : Http.client Http.trades_body :=
{| Http.max_retries := 3; Http.raise_for_status := not_success;
   Http.request := fun attempt =>
     if attempt =? 1 then Http.TimeoutException
     else Http.Response {| Http.status_code := 200; Http.retry_after := None;
                           Http.body := Http.Trades trades |} |}.


(** The Pushover API in the example of a dispatch that is cut short:
    the request for the key of Alice is answered with status 429 and a
    date to wait for, every other request with status 1 at the second
    attempt. *)
Definition pushover_for (s : LighterBot.Subscription) : Http.client Http.json_body :=
if String.eqb (LighterBot.pushover_user_key s) "user-key-alice"
then rate_limited_until_date Http.NotJson
else answered.

Definition poll_env_retry_after_date : LighterBot.env :=
{| LighterBot.query_time := fun _ => 1000;
   LighterBot.stamp_time := fun _ => 1001;
   LighterBot.delivered := fun _ s => fst (Http.send_sell_notification (pushover_for s)) |}.

(** ** The reconnection loop of the push variant: [lighter_ws.py] *)

Module LighterWs.

(** [2.0], [60.0] and [2.0] *)
Definition _MIN_BACKOFF : Py.float := Py.float_of_decimal false 20 (-1).
Definition _MAX_BACKOFF : Py.float := Py.float_of_decimal false 600 (-1).
Definition _BACKOFF_FACTOR : Py.float := Py.float_of_decimal false 20 (-1).

Definition fmul : Py.float -> Py.float -> Py.float := SFmul Py.prec Py.emax.

(** [min(a, b)]: [b] when [b < a], and [a] otherwise. *)
Definition fmin (a b : Py.float) : Py.float := if SFltb b a then b else a.

(** How a call of [_connect_and_listen] ends while the client runs: it
    returns, or it raises an exception that [_run] logs. *)
Inductive connection :=
| Returned
| Failed.

(** The loop of [_run] over the connections made until the client is
    stopped, from the value [backoff] has; the result lists the sleeps. *)
Fixpoint _run_from (backoff : Py.float) (connections : list connection) : list Py.float :=
match connections with
| [] => []
| Returned :: rest => _run_from _MIN_BACKOFF rest
| Failed :: rest =>
    backoff :: _run_from (fmin (fmul backoff _BACKOFF_FACTOR) _MAX_BACKOFF) rest
end.

Definition _run (connections : list connection) : list Py.float :=
_run_from _MIN_BACKOFF connections.

End LighterWs.

(** The sleep before the reconnection after [k] failures in a row and
    one more: 2, 4, 8, 16, 32 and then 60 seconds. *)
Definition reconnect_delay (k : nat) : Py.float :=
Py.float_of_decimal false (Z.min (2 ^ (Z.of_nat k + 1)) 60) 0.

(** * Properties *)

(** ** The stable sort *)

Section SortedFacts.
Context {A : Type} (leb : A -> A -> bool).

Lemma insert_sorted_perm (x : A) (l : list A) :
  Permutation (insert_sorted leb x l) (x :: l).
Proof.
  induction l as [|y l IH]; simpl.
  - reflexivity.
  - destruct (leb x y).
    + reflexivity.
    + rewrite IH. apply perm_swap.
Qed.

Lemma sorted_by_perm (l : list A) : Permutation (sorted_by leb l) l.
Proof.
  induction l as [|x l IH]; simpl.
  - reflexivity.
  - rewrite insert_sorted_perm. now rewrite IH.
Qed.

Lemma sorted_by_In (x : A) (l : list A) : In x (sorted_by leb l) <-> In x l.
Proof.
  split; apply Permutation_in; [|symmetry]; apply sorted_by_perm.
Qed.

(** A predicate that holds only of elements no larger than each other
    (such as "the key is [k]") sees the input order. *)
Lemma insert_sorted_filter (p : A -> bool) (x : A) (l : list A) :
  (forall a b, p a = true -> p b = true -> leb a b = true) ->
  List.filter p (insert_sorted leb x l) = List.filter p (x :: l).
Proof.
  intros Hp. induction l as [|y l IH]; simpl.
  - reflexivity.
  - destruct (leb x y) eqn:Hxy; simpl.
    + reflexivity.
    + simpl in IH. rewrite IH.
      destruct (p x) eqn:Hx, (p y) eqn:Hy; try reflexivity.
      rewrite (Hp x y Hx Hy) in Hxy. discriminate.
Qed.

Lemma sorted_by_stable (p : A -> bool) (l : list A) :
  (forall a b, p a = true -> p b = true -> leb a b = true) ->
  List.filter p (sorted_by leb l) = List.filter p l.
Proof.
  intros Hp. induction l as [|x l IH]; simpl.
  - reflexivity.
  - rewrite insert_sorted_filter by exact Hp. simpl. now rewrite IH.
Qed.

Hypothesis leb_total : forall a b, leb a b = true \/ leb b a = true.
Hypothesis leb_trans : forall a b c, leb a b = true -> leb b c = true -> leb a c = true.

Lemma insert_sorted_sorted (x : A) (l : list A) :
  StronglySorted (fun a b => leb a b = true) l ->
  StronglySorted (fun a b => leb a b = true) (insert_sorted leb x l).
Proof.
  induction 1 as [|y l Hs IH Hy]; simpl.
  - repeat constructor.
  - destruct (leb x y) eqn:Hxy.
    + constructor; [now constructor|].
      constructor; [exact Hxy|].
      rewrite List.Forall_forall in *. intros z Hz. eauto.
    + constructor; [exact IH|].
      rewrite List.Forall_forall in *. intros z Hz.
      apply (Permutation_in _ (insert_sorted_perm x l)) in Hz.
      destruct Hz as [<-|Hz]; [|auto].
      destruct (leb_total x y) as [H|H]; [congruence|exact H].
Qed.

Lemma sorted_by_sorted (l : list A) :
  StronglySorted (fun a b => leb a b = true) (sorted_by leb l).
Proof.
  induction l as [|x l IH]; simpl.
  - constructor.
  - now apply insert_sorted_sorted.
Qed.
End SortedFacts.

Lemma filter_StronglySorted {A} (R : A -> A -> Prop) (p : A -> bool) (l : list A) :
StronglySorted R l -> StronglySorted R (List.filter p l).
Proof.
induction 1 as [|x l Hs IH Hx]; simpl.
- constructor.
- destruct (p x); [|exact IH].
  constructor; [exact IH|].
  rewrite List.Forall_forall in *. intros y Hy. apply List.filter_In in Hy. apply Hx, Hy.
Qed.

(** ** The watermark filter of the poll variant *)

Section Watermark.
Import LighterBot.

Lemma ts_leb_total (a b : Trade) : (ts a <=? ts b) = true \/ (ts b <=? ts a) = true.
Proof. rewrite !Z.leb_le. lia. Qed.

Lemma ts_leb_trans (a b c : Trade) :
  (ts a <=? ts b) = true -> (ts b <=? ts c) = true -> (ts a <=? ts c) = true.
Proof. rewrite !Z.leb_le. lia. Qed.

Lemma fresh_trades_filter wm batch :
  fresh_trades wm batch
  = List.filter (newer wm) (sorted_by (fun a b => ts a <=? ts b) batch).
Proof. reflexivity. Qed.

Lemma fresh_trades_In wm batch t :
  In t (fresh_trades wm batch) <-> In t batch /\ newer wm t = true.
Proof.
  rewrite fresh_trades_filter, List.filter_In, sorted_by_In. reflexivity.
Qed.

(** C2, as the code has it.  The admitted trades are the trades of the
    batch that are strictly newer than the watermark (all of them when
    there is none), each as often as the batch has it; they are in
    ascending order of timestamp; and trades of one timestamp keep the
    order they have in the batch (the sort is stable: no secondary key). *)
Theorem C2_fresh_trades_contract (wm : option Z) (batch : list Trade) :
  Permutation (fresh_trades wm batch) (List.filter (newer wm) batch)
  /\ (forall t, In t (fresh_trades wm batch) <-> In t batch /\ newer wm t = true)
  /\ StronglySorted (fun a b => ts a <= ts b) (fresh_trades wm batch)
  /\ (forall k, List.filter (fun t => ts t =? k) (fresh_trades wm batch)
                = List.filter (fun t => ts t =? k) (List.filter (newer wm) batch)).
Proof.
  split; [|split; [|split]].
  - rewrite fresh_trades_filter.
    induction (sorted_by_perm (fun a b => ts a <=? ts b) batch); simpl.
    + constructor.
    + destruct (newer wm x); [constructor|]; assumption.
    + destruct (newer wm x), (newer wm y); try reflexivity. apply perm_swap.
    + etransitivity; eassumption.
  - intros t. apply fresh_trades_In.
  - rewrite fresh_trades_filter. apply filter_StronglySorted.
    pose proof (sorted_by_sorted (fun a b => ts a <=? ts b)
                  ts_leb_total ts_leb_trans batch) as Hs.
    induction Hs as [|x l Hs IH Hx]; constructor; [exact IH|].
    eapply Forall_impl; [exact Hx|]. intros b. apply Z.leb_le.
  - intros k. rewrite fresh_trades_filter.
    transitivity
      (List.filter (newer wm)
         (List.filter (fun t => ts t =? k) (sorted_by (fun a b => ts a <=? ts b) batch))).
    + clear. induction (sorted_by _ batch) as [|x l IH]; simpl; [reflexivity|].
      destruct (newer wm x) eqn:Hn, (ts x =? k) eqn:Hk; simpl; rewrite ?Hn, ?Hk, IH;
        reflexivity.
    + rewrite sorted_by_stable.
      * clear. induction batch as [|x l IH]; simpl; [reflexivity|].
        destruct (newer wm x) eqn:Hn, (ts x =? k) eqn:Hk; simpl; rewrite ?Hn, ?Hk, IH;
          reflexivity.
      * intros a b Ha Hb. apply Z.eqb_eq in Ha, Hb. apply Z.leb_le. lia.
Qed.

(** C2, against the claim as written: no key of the trade orders the
    trades of equal timestamp.  Two different trades of timestamp 5 come
    out in the order of the batch, whichever it is. *)
Lemma C2_no_secondary_key : ~ exists key, ties_ordered_by key.
Proof.
  intros [key H].
  pose (a := {| ts := 5; direction := Buy; usd_size := {| coef := 1; dexp := 0 |} |}).
  pose (b := {| ts := 5; direction := Sell; usd_size := {| coef := 2; dexp := 0 |} |}).
  assert (Hab : key a < key b).
  { apply (H None [a; b]); [reflexivity|discriminate|].
    exists [], [], []. reflexivity. }
  assert (Hba : key b < key a).
  { apply (H None [b; a]); [reflexivity|discriminate|].
    exists [], [], []. reflexivity. }
  lia.
Qed.

(** A trade whose timestamp equals the watermark is not admitted, also
    when it was never seen before. *)
Example fresh_trades_drops_equal_timestamp :
  fresh_trades (Some 5)
    [ {| ts := 5; direction := Sell; usd_size := {| coef := 2; dexp := 0 |} |} ] = [].
Proof. reflexivity. Qed.

End Watermark.

(** ** One cycle of the poll variant, and the same batch again *)

Section Cycle.
Import LighterBot.

Lemma sell_alerts_app (l1 l2 : list event) :
  sell_alerts (l1 ++ l2) = sell_alerts l1 ++ sell_alerts l2.
Proof. apply flat_map_app. Qed.

Lemma notify_subscriptions_frame send now trade subs w :
  let r := notify_subscriptions send now trade subs w in
  state_file (snd r) = state_file w
  /\ dispatches (snd r) = dispatches w
  /\ outbox (snd r)
     = outbox w ++ map (fun s => Pushover (pushover_user_key s) trade) (reached send subs)
  /\ Py.raised (fst r) = existsb (fun s => Py.raised (send s)) subs.
Proof.
  revert w. induction subs as [|s subs IH]; intros w; cbn [notify_subscriptions reached existsb].
  - cbn. now rewrite app_nil_r.
  - destruct (send s) as [sent|exn]; cbn [Py.raised orb fst snd].
    + match goal with
      | |- context [notify_subscriptions _ _ _ subs ?w0] =>
          destruct (IH w0) as (H1 & H2 & H3 & H4)
      end.
      cbv zeta in *. rewrite H1, H2, H3, H4.
      destruct sent; cbn; rewrite <- app_assoc; auto.
    + cbn. auto.
Qed.

Lemma sell_alerts_pushover trade (l : list Subscription) :
  sell_alerts (map (fun s => Pushover (pushover_user_key s) trade) l) = [].
Proof. induction l; simpl; auto. Qed.

Lemma _send_pushover_sell_alert_frame settings e trade w :
  let r := _send_pushover_sell_alert settings e trade w in
  state_file (snd r) = state_file w
  /\ sell_alerts (outbox (snd r)) = sell_alerts (outbox w).
Proof.
  unfold _send_pushover_sell_alert. cbv zeta.
  destruct (list_eligible_subscriptions _ _ _) as [|s subs] eqn:Hsubs; [simpl; auto|].
  remember (s :: subs) as l eqn:Hl. clear Hl Hsubs.
  match goal with
  | |- context [notify_subscriptions ?f ?n ?t l ?w0] =>
      destruct (notify_subscriptions_frame f n t l w0) as (H1 & _ & H3 & _)
  end.
  cbv zeta in *. rewrite H1, H3. simpl. split; [reflexivity|].
  now rewrite sell_alerts_app, sell_alerts_pushover, app_nil_r.
Qed.

(** A dispatch returns when no call of [send_sell_notification]
    raises. *)
Lemma _send_pushover_sell_alert_returns settings e trade w :
  (forall k s, Py.raised (delivered e k s) = false) ->
  Py.raised (fst (_send_pushover_sell_alert settings e trade w)) = false.
Proof.
  intros Hsend. unfold _send_pushover_sell_alert. cbv zeta.
  destruct (list_eligible_subscriptions _ _ _) as [|s subs] eqn:Hsubs; [reflexivity|].
  remember (s :: subs) as l eqn:Hl. clear Hl Hsubs.
  match goal with
  | |- context [notify_subscriptions ?f ?n ?t l ?w0] =>
      destruct (notify_subscriptions_frame f n t l w0) as (_ & _ & _ & H4)
  end.
  cbv zeta in H4. rewrite H4. clear H4.
  induction l as [|x l IH]; simpl; [reflexivity|]. now rewrite Hsend.
Qed.

(** The Sell alerts of the loop over the fresh trades: those for the
    Sell trades up to the one whose dispatch raised, and all of them
    when the loop returns. *)
Lemma process_trades_frame settings e trades tb tsell w :
  let r := process_trades settings e trades tb tsell w in
  state_file (snd r) = state_file w
  /\ exists sent unsent,
       List.filter is_sell_trade trades = sent ++ unsent
       /\ sell_alerts (outbox (snd r)) = sell_alerts (outbox w) ++ sent
       /\ (Py.raised (fst r) = false -> unsent = []).
Proof.
  revert tb tsell w. induction trades as [|t trades IH]; intros tb tsell w;
    cbn [process_trades List.filter].
  - cbn. split; [reflexivity|]. exists [], []. rewrite ?app_nil_r. auto.
  - unfold is_sell_trade at 1. destruct (direction t).
    + apply IH.
    + destruct (_send_pushover_sell_alert_frame settings e t (_send_sell_alert settings t w))
        as (H3 & H4).
      cbv zeta in H3, H4.
      destruct (_send_pushover_sell_alert settings e t (_send_sell_alert settings t w))
        as [[u|exn] w1]; cbn [fst snd] in *.
      * destruct (IH tb (dec_add tsell (usd_size t)) w1) as (H1 & sent & unsent & Hs & H2 & Hr).
        cbv zeta in *. split; [now rewrite H1, H3|].
        exists (t :: sent), unsent. split; [simpl; now rewrite Hs|].
        split; [|exact Hr].
        rewrite H2, H4. simpl. rewrite sell_alerts_app. simpl. now rewrite <- app_assoc.
      * split; [exact H3|]. exists [t], (List.filter is_sell_trade trades).
        split; [reflexivity|]. split; [|discriminate].
        rewrite H4. simpl. now rewrite sell_alerts_app.
Qed.

Lemma process_trades_returns settings e trades tb tsell w :
  (forall k s, Py.raised (delivered e k s) = false) ->
  Py.raised (fst (process_trades settings e trades tb tsell w)) = false.
Proof.
  intros Hsend. revert tb tsell w.
  induction trades as [|t trades IH]; intros tb tsell w; cbn [process_trades]; [reflexivity|].
  destruct (direction t); [apply IH|].
  pose proof (_send_pushover_sell_alert_returns settings e t (_send_sell_alert settings t w)
                Hsend) as Hr.
  destruct (_send_pushover_sell_alert settings e t (_send_sell_alert settings t w))
    as [[u|exn] w1]; [apply IH|discriminate].
Qed.

Lemma fold_max_upper (l : list Trade) (m : Z) :
  m <= fold_left (fun m trade => Z.max m (ts trade)) l m
  /\ forall t, In t l -> ts t <= fold_left (fun m trade => Z.max m (ts trade)) l m.
Proof.
  revert m. induction l as [|x l IH]; intros m; simpl.
  - split; [lia|tauto].
  - destruct (IH (Z.max m (ts x))) as [H1 H2]. split; [lia|].
    intros t [<-|Hin]; [lia|auto].
Qed.

Lemma latest_ts_upper first rest t :
  In t (first :: rest) -> ts t <= latest_ts first rest.
Proof.
  unfold latest_ts. destruct (fold_max_upper rest (ts first)) as [H1 H2].
  intros [<-|Hin]; auto.
Qed.

Lemma filter_none {A} (p : A -> bool) (l : list A) :
  (forall x, In x l -> p x = false) -> List.filter p l = [].
Proof.
  induction l as [|x l IH]; simpl; intros H; [reflexivity|].
  rewrite (H x) by auto. apply IH. auto.
Qed.

(** After a cycle that wrote the state file, the same batch holds
    nothing newer than the watermark. *)
Lemma fresh_trades_after_cycle wm batch first rest :
  fresh_trades wm batch = first :: rest ->
  fresh_trades (Some (latest_ts first rest)) batch = [].
Proof.
  intros Hfresh. rewrite fresh_trades_filter. apply filter_none.
  intros t Ht. apply sorted_by_In in Ht. simpl. apply Z.ltb_ge.
  destruct (newer wm t) eqn:Hn.
  - apply latest_ts_upper. rewrite <- Hfresh. apply fresh_trades_In. auto.
  - assert (Hf : In first (fresh_trades wm batch)) by (rewrite Hfresh; left; reflexivity).
    apply fresh_trades_In in Hf. destruct Hf as [_ Hf].
    pose proof (latest_ts_upper first rest first (or_introl eq_refl)) as Hup.
    destruct wm as [last|]; simpl in *; [|discriminate].
    apply Z.ltb_ge in Hn. apply Z.ltb_lt in Hf. lia.
Qed.

Lemma run_once_returns settings e fetched write_ok w :
  (forall k s, Py.raised (delivered e k s) = false) ->
  Py.raised (fst (run_once settings e fetched write_ok w)) = false.
Proof.
  intros Hsend. unfold run_once, load_last_ts.
  destruct fetched as [|t0 fetched]; [reflexivity|].
  destruct (fresh_trades _ _) as [|first rest]; [reflexivity|].
  pose proof (process_trades_returns settings e (first :: rest) dec_zero dec_zero w Hsend)
    as Hr.
  destruct (process_trades _ _ _ _ _ _) as [[[tb tsell]|exn] w']; [reflexivity|discriminate].
Qed.

Lemma run_once_state settings e fetched w first rest :
  fresh_trades (state_file w) fetched = first :: rest ->
  Py.raised (fst (run_once settings e fetched true w)) = false ->
  state_file (snd (run_once settings e fetched true w)) = Some (latest_ts first rest).
Proof.
  intros Hfresh. unfold run_once, load_last_ts.
  destruct fetched as [|t0 fetched]; [discriminate|].
  rewrite Hfresh.
  destruct (process_trades _ _ _ _ _ _) as [[[tb tsell]|exn] w']; [reflexivity|discriminate].
Qed.

(** The Sell alerts of a cycle: those for the admitted Sell trades up
    to the one whose dispatch raised, and all of them when the cycle
    returns. *)
Lemma run_once_sell_alerts settings e fetched ok w :
  let r := run_once settings e fetched ok w in
  exists sent unsent,
    List.filter is_sell_trade (fresh_trades (state_file w) fetched) = sent ++ unsent
    /\ sell_alerts (outbox (snd r)) = sell_alerts (outbox w) ++ sent
    /\ (Py.raised (fst r) = false -> unsent = []).
Proof.
  unfold run_once, load_last_ts. cbv zeta.
  destruct fetched as [|t0 fetched];
    [exists [], []; simpl; rewrite ?app_nil_r; auto|].
  destruct (fresh_trades _ _) as [|first rest];
    [exists [], []; simpl; rewrite ?app_nil_r; auto|].
  destruct (process_trades_frame settings e (first :: rest) dec_zero dec_zero w)
    as (_ & sent & unsent & Hs & Hp & Hr).
  cbv zeta in *.
  destruct (process_trades _ _ _ _ _ _) as [[[tb tsell]|exn] w']; cbn [fst snd] in *.
  - exists sent, unsent. split; [exact Hs|]. split; [|exact Hr].
    destruct (dec_pos tb || dec_pos tsell); simpl; [|exact Hp].
    rewrite sell_alerts_app. simpl. rewrite app_nil_r. exact Hp.
  - exists sent, unsent. auto.
Qed.

(** C3, as the code has it.  When the first cycle wrote the state file
    (it returned, and the write succeeded), a second cycle on the same
    batch changes nothing: the watermark, the messages sent and the
    subscriptions stay as the first cycle left them.  The first cycle
    sends one Sell alert for each Sell record of the batch that is newer
    than the watermark, as often as the batch holds the record: records
    are not told apart by an identifier.  A cycle returns when no call
    of [send_sell_notification] raises. *)
Theorem C3_same_batch_again (settings : Settings) (e1 e2 : env) (batch : list Trade)
    (write_ok : bool) (w : World) :
  let r1 := run_once settings e1 batch true w in
  let r2 := run_once settings e2 batch write_ok (snd r1) in
  (Py.raised (fst r1) = false ->
   r2 = (Py.Ok tt, snd r1)
   /\ sell_alerts (outbox (snd r2))
      = sell_alerts (outbox w)
        ++ List.filter is_sell_trade (fresh_trades (state_file w) batch))
  /\ ((forall k s, Py.raised (delivered e1 k s) = false) -> Py.raised (fst r1) = false).
Proof.
  intros r1 r2. split; [|apply run_once_returns].
  intros Hret.
  assert (H21 : r2 = (Py.Ok tt, snd r1)).
  { subst r2. unfold run_once at 1. unfold load_last_ts.
    destruct batch as [|t0 batch]; [reflexivity|].
    destruct (fresh_trades (state_file w) (t0 :: batch)) as [|first rest] eqn:Hfresh.
    - assert (Hw1 : snd r1 = w).
      { subst r1. unfold run_once, load_last_ts. now rewrite Hfresh. }
      rewrite Hw1, Hfresh. reflexivity.
    - subst r1. rewrite (run_once_state _ _ _ _ _ _ Hfresh Hret).
      rewrite (fresh_trades_after_cycle _ _ _ _ Hfresh). reflexivity. }
  split; [exact H21|].
  rewrite H21. cbn [snd].
  destruct (run_once_sell_alerts settings e1 batch true w) as (sent & unsent & Hs & Ha & Hr).
  cbv zeta in *. fold r1 in Ha, Hr. rewrite (Hr Hret), app_nil_r in Hs.
  now rewrite Ha, Hs.
Qed.

(** C3, against the claim as written: a batch of two Sell records with
    the same timestamp and amount gives two Sell alerts, not one. *)
Lemma C3_two_alerts_for_identical_records :
  let trade := {| ts := 100; direction := Sell; usd_size := {| coef := 500; dexp := 0 |} |} in
  let settings := {| channel_id := "@channel"; notification_cooldown_minutes := 120 |} in
  let e := {| query_time := fun _ => 1000; stamp_time := fun _ => 1000;
              delivered := fun _ _ => Py.Ok true |} in
  let w := {| state_file := None; subscriptions := []; outbox := []; dispatches := 0 |} in
  sell_alerts (outbox (snd (run_once settings e [trade; trade] true w))) = [trade; trade]
  /\ length (sell_alerts (outbox (snd (run_once settings e [trade; trade] true w))))
     <> 1%nat.
Proof. split; [reflexivity|discriminate]. Qed.

(** *** The totals of a cycle *)

Lemma Qpower10_split (a e : Z) :
  e <= a -> (Qpower 10 a == inject_Z (10 ^ (a - e)) * Qpower 10 e)%Q.
Proof.
  intros H. rewrite Zpower_Qpower by lia.
  rewrite <- Qpower_plus by discriminate.
  replace (a - e + e) with a by lia. reflexivity.
Qed.

Lemma dec_add_exact (a b : Decimal) :
  Z.abs (exact_coef a b) < prec_bound ->
  (dec_value (dec_add a b) == dec_value a + dec_value b)%Q.
Proof.
  intros Hfit. unfold dec_add, dec_fix.
  apply Z.ltb_lt in Hfit. rewrite Hfit.
  unfold dec_value, exact_coef. simpl coef. simpl dexp.
  set (e := Z.min (dexp a) (dexp b)).
  rewrite (Qpower10_split (dexp a) e), (Qpower10_split (dexp b) e) by (subst e; lia).
  rewrite inject_Z_plus, !inject_Z_mult. ring.
Qed.

Lemma fold_dec_add_exact (ds : list Decimal) (acc : Decimal) :
  sums_fit acc ds = true ->
  (dec_value (fold_left dec_add ds acc) == dec_value acc + exact_sum ds)%Q.
Proof.
  revert acc. induction ds as [|d ds IH]; intros acc; simpl.
  - intros _. unfold exact_sum. simpl. ring.
  - intros H. apply andb_prop in H. destruct H as [Hfit Hrest].
    rewrite (IH _ Hrest), dec_add_exact by (now apply Z.ltb_lt).
    unfold exact_sum. simpl. ring.
Qed.

Lemma process_trades_totals settings e trades tb tsell w total_buy total_sell :
  fst (process_trades settings e trades tb tsell w) = Py.Ok (total_buy, total_sell) ->
  total_buy = fold_left dec_add (map usd_size (List.filter is_buy_trade trades)) tb
  /\ total_sell = fold_left dec_add (map usd_size (List.filter is_sell_trade trades)) tsell.
Proof.
  revert tb tsell w. induction trades as [|t trades IH]; intros tb tsell w;
    cbn [process_trades List.filter].
  - cbn. intros [= <- <-]. auto.
  - unfold is_buy_trade at 1, is_sell_trade at 1. destruct (direction t); cbn [map fold_left].
    + apply IH.
    + destruct (_send_pushover_sell_alert settings e t (_send_sell_alert settings t w))
        as [[u|exn] w1]; [apply IH|discriminate].
Qed.

Lemma run_once_outbox settings e batch write_ok w first rest :
  fresh_trades (state_file w) batch = first :: rest ->
  match process_trades settings e (first :: rest) dec_zero dec_zero w with
  | (Py.Ok (total_buy, total_sell), w') =>
      Py.raised (fst (run_once settings e batch write_ok w)) = false
      /\ outbox (snd (run_once settings e batch write_ok w))
         = outbox w'
           ++ (if dec_pos total_buy || dec_pos total_sell
               then [Telegram (channel_id settings) (Summary total_buy total_sell)]
               else [])
  | (Py.Raise exn, w') => run_once settings e batch write_ok w = (Py.Raise exn, w')
  end.
Proof.
  intros Hfresh. unfold run_once, load_last_ts.
  destruct batch as [|t0 batch]; [discriminate|].
  rewrite Hfresh.
  destruct (process_trades _ _ _ _ _ _) as [[[tb tsell]|exn] w']; [|reflexivity].
  split; [reflexivity|].
  destruct (dec_pos tb || dec_pos tsell); simpl; [reflexivity|now rewrite app_nil_r].
Qed.

(** C7, as the code has it, for the poll variant.  The totals of the
    summary are decimal sums over the admitted Buy and Sell trades; as
    long as no running sum needs more than the 28 digits of the decimal
    context, they are the exact sums of the USD sizes.  A cycle that a
    dispatch ends by an exception sends no summary; the loop returns
    when no call of [send_sell_notification] raises. *)
Theorem C7_decimal_totals_exact (settings : Settings) (e : env) (batch : list Trade)
    (write_ok : bool) (w : World) (first : Trade) (rest : list Trade) :
  fresh_trades (state_file w) batch = first :: rest ->
  sums_fit dec_zero (map usd_size (List.filter is_buy_trade (first :: rest))) = true ->
  sums_fit dec_zero (map usd_size (List.filter is_sell_trade (first :: rest))) = true ->
  (exists ending w',
     process_trades settings e (first :: rest) dec_zero dec_zero w = (ending, w')
     /\ match ending with
        | Py.Ok (total_buy, total_sell) =>
            Py.raised (fst (run_once settings e batch write_ok w)) = false
            /\ outbox (snd (run_once settings e batch write_ok w))
               = outbox w'
                 ++ (if dec_pos total_buy || dec_pos total_sell
                     then [Telegram (channel_id settings) (Summary total_buy total_sell)]
                     else [])
            /\ (dec_value total_buy
                == exact_sum (map usd_size (List.filter is_buy_trade (first :: rest))))%Q
            /\ (dec_value total_sell
                == exact_sum (map usd_size (List.filter is_sell_trade (first :: rest))))%Q
        | Py.Raise exn => run_once settings e batch write_ok w = (Py.Raise exn, w')
        end)
  /\ ((forall k s, Py.raised (delivered e k s) = false) ->
      Py.raised (fst (process_trades settings e (first :: rest) dec_zero dec_zero w))
      = false).
Proof.
  intros Hfresh Hbuy Hsell. split; [|apply process_trades_returns].
  pose proof (run_once_outbox settings e batch write_ok w first rest Hfresh) as Hout.
  pose proof (process_trades_totals settings e (first :: rest) dec_zero dec_zero w) as Htot.
  destruct (process_trades settings e (first :: rest) dec_zero dec_zero w)
    as [[[tb tsell]|exn] w'].
  - exists (Py.Ok (tb, tsell)), w'. split; [reflexivity|].
    destruct (Htot tb tsell eq_refl) as [Hb Hs]. destruct Hout as [Hret Hout].
    split; [exact Hret|]. split; [exact Hout|].
    assert (H0 : (dec_value dec_zero == 0)%Q) by reflexivity.
    split.
    + rewrite Hb, fold_dec_add_exact by exact Hbuy. rewrite H0. apply Qplus_0_l.
    + rewrite Hs, fold_dec_add_exact by exact Hsell. rewrite H0. apply Qplus_0_l.
  - exists (Py.Raise exn), w'. split; [reflexivity|exact Hout].
Qed.

(** The theorem at a batch of three trades: 100.50 bought, 50 and 25.25
    sold. *)
Lemma C7_decimal_totals_witness :
  let buy := {| ts := 10; direction := Buy; usd_size := {| coef := 10050; dexp := -2 |} |} in
  let sell1 := {| ts := 20; direction := Sell; usd_size := {| coef := 50; dexp := 0 |} |} in
  let sell2 := {| ts := 30; direction := Sell; usd_size := {| coef := 2525; dexp := -2 |} |} in
  let settings := {| channel_id := "@channel"; notification_cooldown_minutes := 120 |} in
  let e := {| query_time := fun _ => 1000; stamp_time := fun _ => 1000;
              delivered := fun _ _ => Py.Ok true |} in
  let w := {| state_file := None; subscriptions := []; outbox := []; dispatches := 0 |} in
  (exists ending w',
     process_trades settings e [buy; sell1; sell2] dec_zero dec_zero w = (ending, w')
     /\ match ending with
        | Py.Ok (total_buy, total_sell) =>
            Py.raised (fst (run_once settings e [sell2; buy; sell1] true w)) = false
            /\ outbox (snd (run_once settings e [sell2; buy; sell1] true w))
               = outbox w'
                 ++ (if dec_pos total_buy || dec_pos total_sell
                     then [Telegram (channel_id settings) (Summary total_buy total_sell)]
                     else [])
            /\ (dec_value total_buy
                == exact_sum (map usd_size (List.filter is_buy_trade [buy; sell1; sell2])))%Q
            /\ (dec_value total_sell
                == exact_sum (map usd_size (List.filter is_sell_trade [buy; sell1; sell2])))%Q
        | Py.Raise exn => run_once settings e [sell2; buy; sell1] true w = (Py.Raise exn, w')
        end)
  /\ ((forall k s, Py.raised (delivered e k s) = false) ->
      Py.raised (fst (process_trades settings e [buy; sell1; sell2] dec_zero dec_zero w))
      = false).
Proof.
  cbv zeta.
  apply (C7_decimal_totals_exact
           {| channel_id := "@channel"; notification_cooldown_minutes := 120 |}
           {| query_time := fun _ => 1000; stamp_time := fun _ => 1000;
              delivered := fun _ _ => Py.Ok true |}
           [ {| ts := 30; direction := Sell; usd_size := {| coef := 2525; dexp := -2 |} |};
             {| ts := 10; direction := Buy; usd_size := {| coef := 10050; dexp := -2 |} |};
             {| ts := 20; direction := Sell; usd_size := {| coef := 50; dexp := 0 |} |} ]
           true
           {| state_file := None; subscriptions := []; outbox := []; dispatches := 0 |});
    reflexivity.
Defined.

(** With 29 digits the decimal sum is rounded: the bound of the theorem
    is the precision of the context. *)
Example dec_add_rounds :
  dec_add {| coef := 10 ^ 28; dexp := 0 |} {| coef := 1; dexp := 0 |}
  = {| coef := 10 ^ 27; dexp := 1 |}.
Proof. reflexivity. Qed.

End Cycle.

(** ** The report of the push variant *)

Section Report.
Import Py Bot.

(** C7, against the claim as written: the report of the push variant
    adds floats.  For the two buys above it shows a total of
    9007199254740992, one dollar less than the sum of the two amounts. *)
Lemma C7_float_totals_drift :
  exists msg total q,
    _post_trade_report by_receipt example_settings true (Some drift_store) 100 "12:00 UTC"
    = Ok [msg]
    /\ In (TotalBuy total) (text msg)
    /\ float_value total = Some q
    /\ (q == 9007199254740992)%Q
    /\ (exact_volume "buy" (get_recent_trades by_receipt 100 drift_store (Some 300%Q))
        == 9007199254740993)%Q.
Proof.
  eexists _, _, _. split; [vm_compute; reflexivity|].
  split; [simpl; do 4 right; left; reflexivity|].
  split; [reflexivity|].
  split; vm_compute; reflexivity.
Qed.

Lemma string_compare_trans (a b c : string) :
  String.compare a b <> Gt -> String.compare b c <> Gt -> String.compare a c <> Gt.
Proof.
  revert b c. induction a as [|x a IH]; intros [|y b] [|z c]; simpl; try congruence.
  unfold Ascii.compare.
  destruct (N.compare_spec (N_of_ascii x) (N_of_ascii y)),
           (N.compare_spec (N_of_ascii y) (N_of_ascii z)),
           (N.compare_spec (N_of_ascii x) (N_of_ascii z));
    try congruence; try lia; apply IH.
Qed.

Lemma string_leb_trans (a b c : string) :
  String.leb a b = true -> String.leb b c = true -> String.leb a c = true.
Proof.
  unfold String.leb. intros Hab Hbc.
  pose proof (string_compare_trans a b c) as H.
  destruct (String.compare a b), (String.compare b c), (String.compare a c);
    try reflexivity; try discriminate; exfalso; apply H; congruence.
Qed.

Lemma map_StronglySorted {A B} (f : A -> B) (R : B -> B -> Prop) (l : list A) :
  StronglySorted (fun a b => R (f a) (f b)) l -> StronglySorted R (map f l).
Proof.
  induction 1 as [|x l Hs IH Hx]; simpl; constructor; [exact IH|].
  rewrite List.Forall_forall in *. intros y Hy. apply List.in_map_iff in Hy.
  destruct Hy as (a & <- & Ha). auto.
Qed.

Lemma sorted_items_sorted (m : gmap string stats) :
  StronglySorted (fun a b => String.leb a b = true) (map fst (sorted_items m)).
Proof.
  apply map_StronglySorted. unfold sorted_items.
  apply (sorted_by_sorted (fun a b : string * stats => String.leb (fst a) (fst b))).
  - intros a b. apply String.leb_total.
  - intros a b c. apply string_leb_trans.
Qed.

Lemma sorted_items_perm (m : gmap string stats) :
  Permutation (map fst (sorted_items m)) (map fst (map_to_list m)).
Proof. apply Permutation_map, sorted_by_perm. Qed.

Lemma sorted_items_NoDup (m : gmap string stats) :
  List.NoDup (map fst (sorted_items m)).
Proof.
  eapply Permutation_NoDup; [symmetry; apply sorted_items_perm|].
  apply NoDup_ListNoDup. apply (NoDup_fst_map_to_list m).
Qed.

Lemma breakdown_of_report settings now_utc t :
  breakdown_markets (report_lines settings now_utc t)
  = if (1 <? size (market_stats t))%nat then map fst (sorted_items (market_stats t)) else [].
Proof.
  unfold report_lines, breakdown_markets. rewrite flat_map_app. simpl.
  destruct (1 <? size (market_stats t))%nat; [|reflexivity].
  simpl. induction (sorted_items (market_stats t)) as [|kv l IH]; simpl; [reflexivity|].
  now rewrite IH.
Qed.

End Report.

(** ** The window of recent trades of the push variant *)

Section Window.
Import Py Bot.

Example example_sell_enriched :
  enrich "714638" 714638 641 "7" example_sell_record = Ok example_sell.
Proof. vm_compute. reflexivity. Qed.

Lemma assign_In (m : enriched) (s : Q) (z : zset) : In (m, s) (assign m s z).
Proof.
  induction z as [|[m' s'] z IH]; simpl; [auto|].
  destruct (decide (m' = m)) as [->|Hne]; simpl; auto.
Qed.

(** Re-inserting a member does not add an entry. *)
Lemma assign_twice (m : enriched) (s s' : Q) (z : zset) :
  assign m s' (assign m s z) = assign m s' z.
Proof.
  induction z as [|[m0 s0] z IH]; simpl.
  - destruct (decide (m = m)); [reflexivity|congruence].
  - destruct (decide (m0 = m)) as [->|Hne]; simpl.
    + destruct (decide (m = m)); [reflexivity|congruence].
    + destruct (decide (m0 = m)); [congruence|]. now rewrite IH.
Qed.

Lemma assign_members (m x : enriched) (s : Q) (z : zset) :
  In x (map fst (assign m s z)) -> x = m \/ In x (map fst z).
Proof.
  induction z as [|[m' s'] z IH]; simpl.
  - intros [<-|[]]. now left.
  - destruct (decide (m' = m)) as [->|Hne]; simpl; [tauto|].
    intros [<-|Hin]; [tauto|]. destruct (IH Hin); tauto.
Qed.

(** No member stands twice in the sorted set. *)
Lemma assign_NoDup (m : enriched) (s : Q) (z : zset) :
  List.NoDup (map fst z) -> List.NoDup (map fst (assign m s z)).
Proof.
  induction z as [|[m' s'] z IH]; simpl; intros Hnd.
  - repeat constructor. intros [].
  - inversion Hnd as [|? ? Hx Hl]; subst.
    destruct (decide (m' = m)) as [->|Hne]; simpl; [exact Hnd|].
    constructor; [|auto]. intros Hin. apply assign_members in Hin.
    destruct Hin as [->|Hin]; [congruence|contradiction].
Qed.

Lemma zadd_NoDup (mapping z : zset) :
  List.NoDup (map fst z) -> List.NoDup (map fst (zadd z mapping)).
Proof.
  unfold zadd. revert z. induction mapping as [|[m s] mapping IH]; intros z Hnd; simpl.
  - exact Hnd.
  - apply IH, assign_NoDup, Hnd.
Qed.

Lemma store_trades_NoDup now store trades :
  List.NoDup (map fst store) -> List.NoDup (map fst (store_trades now store trades)).
Proof.
  intros Hnd. unfold store_trades. destruct trades; [exact Hnd|]. now apply zadd_NoDup.
Qed.

Lemma filter_NoDup_fst {A B} (p : A * B -> bool) (l : list (A * B)) :
  List.NoDup (map fst l) -> List.NoDup (map fst (List.filter p l)).
Proof.
  induction l as [|x l IH]; simpl; intros Hnd; [constructor|].
  inversion Hnd as [|? ? Hx Hl]; subst.
  destruct (p x); simpl; [|auto].
  constructor; [|auto]. intros Hin. apply Hx.
  apply List.in_map_iff in Hin. destruct Hin as (y & Hy & Hin).
  apply List.filter_In in Hin. apply List.in_map_iff. exists y. tauto.
Qed.

Lemma purge_old_trades_NoDup now store :
  List.NoDup (map fst store) -> List.NoDup (map fst (fst (purge_old_trades now store))).
Proof. apply filter_NoDup_fst. Qed.

Lemma zrangebyscore_In member_leb (z : zset) (min_score : Q) (m : enriched) :
  In m (zrangebyscore member_leb z min_score)
  <-> exists s, In (m, s) z /\ (min_score <= s)%Q.
Proof.
  unfold zrangebyscore. rewrite List.in_map_iff. split.
  - intros ([m' s] & Hm & Hin). simpl in Hm. subst m'.
    apply sorted_by_In, List.filter_In in Hin. destruct Hin as [Hin Hle].
    exists s. split; [exact Hin|]. now apply Qle_bool_iff.
  - intros (s & Hin & Hle). exists (m, s). split; [reflexivity|].
    apply sorted_by_In, List.filter_In. split; [exact Hin|]. now apply Qle_bool_iff.
Qed.

Lemma NoDup_fst_unique {A B} (l : list (A * B)) (a : A) (b b' : B) :
  List.NoDup (map fst l) -> In (a, b) l -> In (a, b') l -> b = b'.
Proof.
  induction l as [|[x y] l IH]; simpl; intros Hnd H1 H2; [contradiction|].
  inversion Hnd as [|? ? Hx Hl]; subst.
  destruct H1 as [H1|H1], H2 as [H2|H2]; try congruence; auto.
  - exfalso. apply Hx. injection H1 as -> ->. apply List.in_map_iff. now exists (a, b').
  - exfalso. apply Hx. injection H2 as -> ->. apply List.in_map_iff. now exists (a, b).
Qed.

Lemma Qle_bool_false (x y : Q) : Qle_bool x y = false <-> (y < x)%Q.
Proof.
  split.
  - intros H. apply Qnot_le_lt. intros Hle. apply Qle_bool_iff in Hle. congruence.
  - intros H. destruct (Qle_bool x y) eqn:Hb; [|reflexivity].
    apply Qle_bool_iff in Hb. exfalso. apply (Qlt_not_le _ _ H Hb).
Qed.

Lemma purge_old_trades_In now store m s :
  In (m, s) (fst (purge_old_trades now store))
  <-> In (m, s) store /\ (now - TRADE_RETENTION_SECONDS < s)%Q.
Proof.
  unfold purge_old_trades, zremrangebyscore. simpl fst.
  rewrite List.filter_In. simpl snd.
  rewrite negb_true_iff, Qle_bool_false. reflexivity.
Qed.

Lemma filter_length_split {A} (p : A -> bool) (l : list A) :
  length l = (length (List.filter p l) + length (List.filter (fun x => negb (p x)) l))%nat.
Proof.
  induction l as [|x l IH]; simpl; [reflexivity|].
  destruct (p x); simpl; lia.
Qed.

(** C6, as the code has it.  A purge at time [now] removes the entries
    whose score is at most [now - 360] (the bound is inclusive) and
    keeps the others, and it returns the number of entries removed.  So
    an entry of score [t] is gone after a purge at [t + 360 + eps], and
    no later read returns its trade; after a purge at [t + 360 - eps] it
    is still there, and a read whose window reaches back to [t] returns
    its trade. *)
Theorem C6_purge_semantics (now : Q) (store : zset) :
  let cutoff := (now - TRADE_RETENTION_SECONDS)%Q in
  let kept := fst (purge_old_trades now store) in
  let removed := snd (purge_old_trades now store) in
  (forall m s, In (m, s) kept <-> In (m, s) store /\ (cutoff < s)%Q)
  /\ removed
     = Z.of_nat (length (List.filter (fun ms => Qle_bool (snd ms) cutoff) store))
  /\ (forall member_leb m t eps q window,
        (0 < eps)%Q -> In (m, t) store ->
        ((now == t + TRADE_RETENTION_SECONDS + eps)%Q ->
           ~ In (m, t) kept
           /\ (List.NoDup (map fst store) ->
               ~ In m (get_recent_trades member_leb q kept window)))
        /\ ((now == t + TRADE_RETENTION_SECONDS - eps)%Q ->
           In (m, t) kept
           /\ ((q - default TRADE_RETENTION_SECONDS window <= t)%Q ->
               In m (get_recent_trades member_leb q kept window)))).
Proof.
  intros cutoff kept removed. split; [|split].
  - intros m s. apply purge_old_trades_In.
  - subst removed kept. unfold purge_old_trades, zremrangebyscore. simpl snd. fold cutoff.
    rewrite (filter_length_split (fun ms : enriched * Q => Qle_bool (snd ms) cutoff) store)
      at 1.
    lia.
  - intros member_leb m t eps q window Heps Hin. split; intros Hnow.
    + assert (Hgone : ~ In (m, t) kept).
      { intros Hk. apply purge_old_trades_In in Hk. destruct Hk as [_ Hk].
        unfold TRADE_RETENTION_SECONDS in *. lra. }
      split; [exact Hgone|].
      intros Hnd Hread. apply zrangebyscore_In in Hread.
      destruct Hread as (s & Hs & _).
      assert (Hs' : In (m, s) store) by (apply purge_old_trades_In in Hs; tauto).
      rewrite (NoDup_fst_unique store m s t Hnd Hs' Hin) in Hs. contradiction.
    + assert (Hkept : In (m, t) kept).
      { apply purge_old_trades_In. split; [exact Hin|].
        unfold TRADE_RETENTION_SECONDS in *. lra. }
      split; [exact Hkept|].
      intros Hq. apply zrangebyscore_In. exists t. split; [exact Hkept|exact Hq].
Qed.

(** C6, against the claim as written: an entry whose score equals the
    cutoff is removed.  A purge at time 1000 has the cutoff 640. *)
Lemma C6_score_equal_to_cutoff_removed :
  purge_old_trades 1000 [(example_sell, 640%Q)] = ([], 1)
  /\ ~ In (example_sell, 640%Q) (fst (purge_old_trades 1000 [(example_sell, 640%Q)])).
Proof. split; [reflexivity|intros []]. Qed.

(** The theorem at the entry [(example_sell, 640)]: purges at the times
    1001 and 999. *)
Lemma C6_purge_witness :
  (~ In (example_sell, 640%Q) (fst (purge_old_trades 1001 [(example_sell, 640%Q)]))
   /\ ~ In example_sell
          (get_recent_trades by_receipt 1001
             (fst (purge_old_trades 1001 [(example_sell, 640%Q)])) None))
  /\ (In (example_sell, 640%Q) (fst (purge_old_trades 999 [(example_sell, 640%Q)]))
      /\ In example_sell
           (get_recent_trades by_receipt 999
              (fst (purge_old_trades 999 [(example_sell, 640%Q)])) None)).
Proof.
  split.
  - destruct (C6_purge_semantics 1001 [(example_sell, 640%Q)]) as (_ & _ & H).
    destruct (H by_receipt example_sell 640%Q 1%Q 1001%Q None) as [H1 _];
      [reflexivity|left; reflexivity|].
    destruct H1 as [Ha Hb]; [reflexivity|].
    split; [exact Ha|]. apply Hb. repeat constructor. intros [].
  - destruct (C6_purge_semantics 999 [(example_sell, 640%Q)]) as (_ & _ & H).
    destruct (H by_receipt example_sell 640%Q 1%Q 999%Q None) as [_ H2];
      [reflexivity|left; reflexivity|].
    destruct H2 as [Ha Hb]; [reflexivity|].
    split; [exact Ha|]. apply Hb. vm_compute. discriminate.
Defined.

(** C5: what the code does when the feed delivers one trade twice.  The
    record of trade 1 arrives in a message at time 641 and again in a
    message at time 642; the two enriched trades differ in
    [_received_at], so they are two members of the sorted set, and a
    read returns both. *)
Lemma C5_redelivered_trade_stored_twice :
  let msg := TradesUpdate [("7", [example_sell_record])] in
  let st1 := fst (receive example_settings (example_env 641) msg empty_state) in
  let st2 := fst (receive example_settings (example_env 642) msg st1) in
  map (fun trade => (get (raw trade) "trade_id", _ts trade, _received_at trade))
    (get_recent_trades by_receipt 700 (redis st2) None)
  = [(SInt 1, 640%Q, 641%Q); (SInt 1, 640%Q, 642%Q)].
Proof. vm_compute. reflexivity. Qed.

(** Within one message the same record gives one member. *)
Example same_message_one_entry :
  let msg := TradesUpdate [("7", [example_sell_record; example_sell_record])] in
  redis (fst (receive example_settings (example_env 641) msg empty_state))
  = [(example_sell, 640%Q)].
Proof. vm_compute. reflexivity. Qed.

End Window.

(** ** The normalizer of the push variant *)

Section Normalizer.
Import Py Bot.

(** Whether the numeric fields of a record make [enrich] raise. *)
Lemma enrich_raised account_id_str account_id_int now mk trade :
  raised (enrich account_id_str account_id_int now mk trade)
  = (truthy (get trade "timestamp") && raised (ms_to_seconds (get trade "timestamp")))
    || raised (to_float (or_else (get trade "usd_amount") (SInt 0))).
Proof.
  unfold enrich. cbv zeta.
  destruct (truthy (get trade "timestamp")); simpl.
  - destruct (ms_to_seconds (get trade "timestamp")); simpl; [|reflexivity].
    destruct (to_float _); reflexivity.
  - destruct (to_float _); reflexivity.
Qed.

Lemma enrich_inv account_id_str account_id_int now mk trade t :
  enrich account_id_str account_id_int now mk trade = Ok t ->
  exists ts_sec usd,
    (if truthy (get trade "timestamp") then ms_to_seconds (get trade "timestamp")
     else Ok (Qred now)) = Ok ts_sec
    /\ to_float (or_else (get trade "usd_amount") (SInt 0)) = Ok usd
    /\ _side t = _resolve_side trade account_id_int
    /\ _ts t = ts_sec
    /\ _usd t = usd.
Proof.
  unfold enrich. cbv zeta.
  set (r1 := if truthy (get trade "timestamp") then _ else _).
  set (r2 := to_float _).
  destruct r1 as [ts_sec|]; simpl; [|discriminate].
  destruct r2 as [usd|]; simpl; [|discriminate].
  intros [= <-]. exists ts_sec, usd. simpl. auto.
Qed.

Lemma mapM_raised {A B} (f : A -> result B) (l : list A) (x : A) :
  In x l -> raised (f x) = true -> raised (mapM f l) = true.
Proof.
  induction l as [|y l IH]; simpl; intros Hin Hx; [contradiction|].
  destruct Hin as [->|Hin].
  - destruct (f x); [discriminate|reflexivity].
  - destruct (f y); [|reflexivity]. simpl.
    specialize (IH Hin Hx). destruct (mapM f l); [discriminate|reflexivity].
Qed.

Lemma receive_drops_message settings e tbm st mk records trade :
  In (mk, records) tbm -> In trade records ->
  raised (enrich (lighter_account_id settings) 0 0 mk trade) = true ->
  receive settings e (TradesUpdate tbm) st = (st, {| ws_sent := []; pushes := [] |}).
Proof.
  intros Hm Hr Hraise. unfold receive, _handle_message.
  destruct (int_of_string (lighter_account_id settings)) as [account_id_int|]; [|reflexivity].
  simpl bind.
  assert (Hall : raised (enrich_all (lighter_account_id settings) account_id_int
                           (time_recv e) tbm) = true).
  { unfold enrich_all.
    match goal with
    | |- raised (bind ?r _) = true => assert (Hr' : raised r = true)
    end.
    - apply (mapM_raised _ tbm (mk, records) Hm). simpl.
      apply (mapM_raised _ records trade Hr).
      rewrite enrich_raised in *. exact Hraise.
    - match goal with
      | H : raised ?r = true |- raised (bind ?r _) = true => destruct r; [discriminate|reflexivity]
      end. }
  destruct (enrich_all _ _ _ _); [discriminate|reflexivity].
Qed.

(** C9, as the code has it.  The side is "buy" when the bid account is
    the tracked one, else "sell" when the ask account is, else
    "unknown".  A record whose [timestamp] and [usd_amount] are missing,
    null, zero or empty is normalized without an exception: the amount
    becomes 0.0 and the time of the trade the time of receipt.  A
    [timestamp] that is a non-empty string, and a non-empty [usd_amount]
    string that [float] does not read, raise; the exception leaves
    [_handle_message], so that nothing of the message is stored and no
    callback runs. *)
Theorem C9_normalizer (settings : Config) (e : env) (st : state)
    (account_id_str _market_key : string) (account_id_int : Z) (now : Q)
    (trade : gmap string scalar) :
  let normalized := enrich account_id_str account_id_int now _market_key trade in
  _resolve_side trade account_id_int
  = (if eq_int (get trade "bid_account_id") account_id_int then "buy"
     else if eq_int (get trade "ask_account_id") account_id_int then "sell"
     else "unknown")
  /\ (forall t, normalized = Ok t -> _side t = _resolve_side trade account_id_int)
  /\ (truthy (get trade "usd_amount") = false ->
      forall t, normalized = Ok t -> _usd t = fzero)
  /\ (truthy (get trade "timestamp") = false ->
      forall t, normalized = Ok t -> _ts t = Qred now)
  /\ (truthy (get trade "timestamp") = false ->
      truthy (get trade "usd_amount") = false ->
      exists t, normalized = Ok t)
  /\ (forall s, get trade "timestamp" = SStr s -> s <> "" -> raised normalized = true)
  /\ (forall s, get trade "usd_amount" = SStr s -> s <> "" ->
      raised (float_of_string s) = true -> raised normalized = true)
  /\ (forall trades_by_market records,
        In (_market_key, records) trades_by_market -> In trade records ->
        raised normalized = true ->
        receive settings e (TradesUpdate trades_by_market) st
        = (st, {| ws_sent := []; pushes := [] |})).
Proof.
  intros normalized. subst normalized.
  split; [reflexivity|].
  split.
  { intros t Ht. apply enrich_inv in Ht. destruct Ht as (? & ? & _ & _ & H & _). exact H. }
  split.
  { intros Husd t Ht. apply enrich_inv in Ht. destruct Ht as (? & usd & _ & H & _ & _ & ->).
    unfold or_else in H. rewrite Husd in H. injection H as <-. reflexivity. }
  split.
  { intros Hts t Ht. apply enrich_inv in Ht. destruct Ht as (ts_sec & ? & H & _ & _ & -> & _).
    rewrite Hts in H. injection H as <-. reflexivity. }
  split.
  { intros Hts Husd. unfold enrich, or_else. cbv zeta. rewrite Hts, Husd. simpl.
    eexists. reflexivity. }
  split.
  { intros s Hs Hne. rewrite enrich_raised, Hs. simpl.
    destruct (String.eqb_spec s ""); [contradiction|reflexivity]. }
  split.
  { intros s Hs Hne Hraise. rewrite enrich_raised, Hs. unfold or_else. simpl.
    destruct (String.eqb_spec s ""); [contradiction|]. simpl.
    rewrite Hraise. apply orb_true_r. }
  intros tbm records Hm Hr Hraise.
  apply (receive_drops_message settings e tbm st _market_key records trade Hm Hr).
  rewrite enrich_raised in *. exact Hraise.
Qed.

(** C9, against the claim as written: a record whose [usd_amount] is
    the text abc raises, and the sell that follows it in the message is
    neither stored nor announced; alone, that sell is stored and
    announced to the subscribed user. *)
Lemma C9_non_numeric_amount_raises :
  let bad := feed_trade 2 (SInt 7) false "abc" 640000 in
  enrich "714638" 714638 641 "7" bad = Raise "ValueError"
  /\ receive example_settings (example_env 641)
       (TradesUpdate [("7", [bad; example_sell_record])]) one_user_state
     = (one_user_state, {| ws_sent := []; pushes := [] |})
  /\ length (redis (fst (receive example_settings (example_env 641)
                           (TradesUpdate [("7", [example_sell_record])]) one_user_state)))
     = 1%nat
  /\ length (pushes (snd (receive example_settings (example_env 641)
                            (TradesUpdate [("7", [example_sell_record])]) one_user_state)))
     = 1%nat.
Proof. repeat split; vm_compute; reflexivity. Qed.

(** The theorem at two records: one without [timestamp] and
    [usd_amount], which is normalized with the amount 0.0 and the time
    of receipt, and one whose [usd_amount] is the text abc, which drops
    its message. *)
Lemma C9_normalizer_witness :
  (exists t,
     enrich "714638" 714638 641 "7" {[ "ask_account_id" := SInt 714638 ]} = Ok t
     /\ _side t = "sell" /\ _usd t = fzero /\ _ts t = 641%Q)
  /\ receive example_settings (example_env 641)
       (TradesUpdate [("7", [feed_trade 2 (SInt 7) false "abc" 640000;
                             example_sell_record])]) one_user_state
     = (one_user_state, {| ws_sent := []; pushes := [] |}).
Proof.
  split.
  - destruct (C9_normalizer example_settings (example_env 641) one_user_state
                "714638" "7" 714638 641 {[ "ask_account_id" := SInt 714638 ]})
      as (Hside & Hs & Husd & Hts & Hok & _).
    destruct Hok as [t Ht]; [reflexivity|reflexivity|].
    exists t. split; [exact Ht|].
    split; [rewrite (Hs t Ht); exact Hside|].
    split; [apply Husd; [reflexivity|exact Ht]|].
    apply Hts; [reflexivity|exact Ht].
  - destruct (C9_normalizer example_settings (example_env 641) one_user_state
                "714638" "7" 714638 641 (feed_trade 2 (SInt 7) false "abc" 640000))
      as (_ & _ & _ & _ & _ & _ & Hraise & Hdrop).
    apply (Hdrop _ [feed_trade 2 (SInt 7) false "abc" 640000; example_sell_record]).
    + left. reflexivity.
    + left. reflexivity.
    + apply (Hraise "abc"); [reflexivity|discriminate|reflexivity].
Defined.

End Normalizer.

(** ** Subscribers of the push variant *)

Section PushSubscribers.
Import Py Bot.

Lemma get_user_map (g : user -> user) (db : list user) (uid : Z) :
  (forall u, user_id (g u) = user_id u) ->
  get_user (map g db) uid = option_map g (get_user db uid).
Proof.
  intros Hg. unfold get_user. induction db as [|x db IH]; simpl; [reflexivity|].
  rewrite Hg. destruct (user_id x =? uid); [reflexivity|exact IH].
Qed.

Lemma get_user_In (db : list user) (u : user) :
  List.NoDup (map user_id db) -> In u db -> get_user db (user_id u) = Some u.
Proof.
  unfold get_user. induction db as [|x db IH]; simpl; intros Hnd Hin; [contradiction|].
  inversion Hnd as [|? ? Hx Hl]; subst.
  destruct Hin as [->|Hin]; [now rewrite Z.eqb_refl|].
  destruct (user_id x =? user_id u) eqn:Heq; [|auto].
  apply Z.eqb_eq in Heq. exfalso. apply Hx. rewrite Heq. now apply List.in_map.
Qed.

Lemma user_id_unique (db : list user) (u v : user) :
  List.NoDup (map user_id db) -> In u db -> In v db -> user_id u = user_id v -> u = v.
Proof.
  intros Hnd Hu Hv Heq.
  pose proof (get_user_In db u Hnd Hu) as H1.
  pose proof (get_user_In db v Hnd Hv) as H2.
  rewrite Heq in H1. congruence.
Qed.

Lemma notify_users_pushes cooldown post now stamp_at trade usd users db :
  fst (notify_users cooldown post now stamp_at trade usd users db)
  = map (fun u => {| push_user := u; push_usd := usd; push_trade := trade |})
      (List.filter (fun u => negb (in_cooldown cooldown now u)) users).
Proof.
  revert db. induction users as [|u users IH]; intros db; simpl; [reflexivity|].
  destruct (in_cooldown cooldown now u); simpl; [apply IH|].
  match goal with
  | |- context [notify_users _ _ _ _ _ _ users ?d] => specialize (IH d);
      destruct (notify_users cooldown post now stamp_at trade usd users d) as [sent db'']
  end.
  simpl in *. now rewrite IH.
Qed.

Lemma notify_users_table cooldown post now stamp_at trade usd users db :
  snd (notify_users cooldown post now stamp_at trade usd users db)
  = map (fun r =>
           if existsb (fun u => user_id u =? user_id r)
                (List.filter (fun u => negb (in_cooldown cooldown now u) && confirmed (post u))
                   users)
           then stamped_user r (stamp_at (user_id r)) else r) db.
Proof.
  revert db. induction users as [|u users IH]; intros db.
  - simpl. symmetry. apply map_id.
  - cbn [notify_users List.filter].
    destruct (in_cooldown cooldown now u); cbn [negb andb]; [apply IH|].
    match goal with
    | |- context [notify_users _ _ _ _ _ _ users ?d] =>
        specialize (IH d);
        destruct (notify_users cooldown post now stamp_at trade usd users d) as [sent db'']
    end.
    cbn [snd] in *. rewrite IH. clear IH.
    destruct (post u) as [status_code|]; cbn [confirmed]; [|reflexivity].
    destruct (status_code =? 200); [|reflexivity].
    unfold update_last_notification. rewrite map_map. apply map_ext. intros r.
    cbn [existsb]. rewrite (Z.eqb_sym (user_id u) (user_id r)).
    destruct (user_id r =? user_id u) eqn:Heq; cbn [orb]; [|reflexivity].
    apply Z.eqb_eq in Heq. unfold stamped_user. cbn [user_id pushover_key].
    rewrite Heq. destruct (existsb _ _); reflexivity.
Qed.

Lemma existsb_own (p : user -> bool) (db : list user) (r : user) :
  List.NoDup (map user_id db) -> In r db ->
  existsb (fun u => user_id u =? user_id r) (List.filter p db) = p r.
Proof.
  intros Hnd Hin. destruct (p r) eqn:Hp.
  - apply List.existsb_exists. exists r. split; [|apply Z.eqb_refl].
    apply List.filter_In. auto.
  - destruct (existsb _ _) eqn:Hex; [|reflexivity].
    apply List.existsb_exists in Hex. destruct Hex as (u & Hu & Heq).
    apply List.filter_In in Hu. destruct Hu as [Hu Hpu]. apply Z.eqb_eq in Heq.
    rewrite (user_id_unique db u r Hnd Hu Hin Heq) in Hpu. congruence.
Qed.

(** One dispatch over the table: a request goes to every user who is
    not in the cooldown, and a row is stamped exactly when its own
    request is answered with status 200. *)
Lemma notify_users_spec cooldown post now stamp_at trade usd (db : list user) :
  List.NoDup (map user_id db) ->
  map push_user (fst (notify_users cooldown post now stamp_at trade usd db db))
  = List.filter (fun u => negb (in_cooldown cooldown now u)) db
  /\ forall u, In u db ->
       get_user (snd (notify_users cooldown post now stamp_at trade usd db db)) (user_id u)
       = Some (if negb (in_cooldown cooldown now u) && confirmed (post u)
               then stamped_user u (stamp_at (user_id u)) else u).
Proof.
  intros Hnd. split.
  - rewrite notify_users_pushes, map_map. simpl. apply map_id.
  - intros u Hin. rewrite notify_users_table.
    rewrite get_user_map by (intros r; destruct (existsb _ _); reflexivity).
    rewrite (get_user_In db u Hnd Hin). simpl.
    now rewrite (existsb_own _ db u Hnd Hin).
Qed.

(** The cooldown test of [notify_sell], for a stamp that is not zero. *)
Lemma in_cooldown_iff cooldown now (u : user) (T : Q) :
  last_notification_at u = Some T -> ~ (T == 0)%Q ->
  (in_cooldown cooldown now u = true <-> (now < T + cooldown)%Q).
Proof.
  intros Hlast Hnz. unfold in_cooldown. rewrite Hlast.
  destruct (Qeq_bool T 0) eqn:Hz; [apply Qeq_bool_iff in Hz; contradiction|].
  simpl. rewrite negb_true_iff, Qle_bool_false. split; intros H; lra.
Qed.

End PushSubscribers.

(** ** Subscribers of the poll variant *)

Section PollSubscribers.
Import LighterBot.

Lemma select_row_map (g : row -> row) (db : list row) (uid : Z) :
  (forall r, row_user_id (g r) = row_user_id r) ->
  select_row (map g db) uid = option_map g (select_row db uid).
Proof.
  intros Hg. unfold select_row. induction db as [|x db IH]; simpl; [reflexivity|].
  rewrite Hg. destruct (row_user_id x =? uid); [reflexivity|exact IH].
Qed.

Lemma select_row_In (db : list row) (r : row) :
  List.NoDup (map row_user_id db) -> In r db -> select_row db (row_user_id r) = Some r.
Proof.
  unfold select_row. induction db as [|x db IH]; simpl; intros Hnd Hin; [contradiction|].
  inversion Hnd as [|? ? Hx Hl]; subst.
  destruct Hin as [->|Hin]; [now rewrite Z.eqb_refl|].
  destruct (row_user_id x =? row_user_id r) eqn:Heq; [|auto].
  apply Z.eqb_eq in Heq. exfalso. apply Hx. rewrite Heq. now apply List.in_map.
Qed.

Lemma row_user_id_unique (db : list row) (r r' : row) :
  List.NoDup (map row_user_id db) -> In r db -> In r' db ->
  row_user_id r = row_user_id r' -> r = r'.
Proof.
  intros Hnd Hr Hr' Heq.
  pose proof (select_row_In db r Hnd Hr) as H1.
  pose proof (select_row_In db r' Hnd Hr') as H2.
  rewrite Heq in H1. congruence.
Qed.

Lemma reached_In send (subs : list Subscription) (s : Subscription) :
  In s (reached send subs) -> In s subs.
Proof.
  induction subs as [|x subs IH]; simpl; [tauto|].
  intros [->|Hin]; [now left|]. right.
  destruct (Py.raised (send x)); [destruct Hin|auto].
Qed.

Lemma reached_all send (subs : list Subscription) :
  (forall s, In s subs -> Py.raised (send s) = false) -> reached send subs = subs.
Proof.
  induction subs as [|x subs IH]; simpl; intros H; [reflexivity|].
  rewrite (H x) by auto. f_equal. apply IH. auto.
Qed.

Lemma reached_prefix send (subs : list Subscription) :
  exists rest, subs = reached send subs ++ rest.
Proof.
  induction subs as [|x subs [rest IH]]; simpl; [exists []; reflexivity|].
  destruct (Py.raised (send x)); [exists subs; reflexivity|].
  exists rest. simpl. now rewrite <- IH.
Qed.

Lemma notify_subscriptions_table send now trade subs w :
  subscriptions (snd (notify_subscriptions send now trade subs w))
  = map (fun r =>
           if existsb (fun s => user_id s =? row_user_id r)
                (List.filter (fun s => returned_true (send s)) (reached send subs))
           then stamped_row r now else r) (subscriptions w).
Proof.
  revert w. induction subs as [|s subs IH]; intros w.
  - simpl. symmetry. apply map_id.
  - cbn [notify_subscriptions reached List.filter].
    destruct (send s) as [sent|exn] eqn:Hsend; cbn [Py.raised returned_true snd].
    + rewrite IH. clear IH.
      destruct sent; cbn [subscriptions log]; [|reflexivity].
      unfold mark_notified. rewrite map_map. apply map_ext. intros r.
      cbn [existsb]. rewrite (Z.eqb_sym (user_id s) (row_user_id r)).
      destruct (row_user_id r =? user_id s) eqn:Heq; cbn [orb]; [|reflexivity].
      unfold stamped_row. cbn [row_user_id row_pushover_user_key].
      destruct (existsb _ _); reflexivity.
    + cbn. symmetry. apply map_id.
Qed.

Lemma list_eligible_subscriptions_eq now db cooldown :
  list_eligible_subscriptions now db cooldown
  = map subscription_of (List.filter (eligible (now - cooldown)) db).
Proof. reflexivity. Qed.

(** Among the subscriptions of a table, the one with the user of a
    row is the subscription of that row. *)
Lemma existsb_own_row (f : Subscription -> bool) (l : list Subscription) (db : list row)
    (r : row) :
  List.NoDup (map row_user_id db) -> In r db ->
  (forall s, In s l -> exists r', In r' db /\ s = subscription_of r') ->
  existsb (fun s => user_id s =? row_user_id r) (List.filter f l) = true
  <-> In (subscription_of r) l /\ f (subscription_of r) = true.
Proof.
  intros Hnd Hin Hl. rewrite List.existsb_exists. split.
  - intros (s & Hs & Heq). apply List.filter_In in Hs. destruct Hs as [Hs Hf].
    destruct (Hl s Hs) as (r' & Hr' & ->). apply Z.eqb_eq in Heq. simpl in Heq.
    rewrite (row_user_id_unique db r' r Hnd Hr' Hin Heq) in Hs, Hf. auto.
  - intros [Hs Hf]. exists (subscription_of r). split; [|apply Z.eqb_refl].
    apply List.filter_In. auto.
Qed.

(** One dispatch of the poll variant.  [send_sell_notification] is
    called for the rows that are eligible at the time of the query, in
    their order, up to the first call that raises; a row is stamped
    exactly when its own call was made and returned [True]; the
    dispatch raises exactly when a call does. *)
Lemma _send_pushover_sell_alert_spec settings e trade (w : World) :
  let k := dispatches w in
  let cutoff := query_time e k - minutes (notification_cooldown_minutes settings) in
  let subs := map subscription_of (List.filter (eligible cutoff) (subscriptions w)) in
  let r' := _send_pushover_sell_alert settings e trade w in
  outbox (snd r')
  = outbox w
    ++ map (fun s => Pushover (pushover_user_key s) trade) (reached (delivered e k) subs)
  /\ Py.raised (fst r') = existsb (fun s => Py.raised (delivered e k s)) subs
  /\ dispatches (snd r') = S k
  /\ (List.NoDup (map row_user_id (subscriptions w)) ->
      forall r, In r (subscriptions w) ->
        (In (subscription_of r) (reached (delivered e k) subs)
         /\ delivered e k (subscription_of r) = Py.Ok true ->
         select_row (subscriptions (snd r')) (row_user_id r)
         = Some (stamped_row r (stamp_time e k)))
        /\ (~ (In (subscription_of r) (reached (delivered e k) subs)
               /\ delivered e k (subscription_of r) = Py.Ok true) ->
            select_row (subscriptions (snd r')) (row_user_id r) = Some r)).
Proof.
  intros k cutoff subs r'.
  assert (Hsubs : subscriptions (snd r')
                  = map (fun r =>
                           if existsb (fun s => user_id s =? row_user_id r)
                                (List.filter (fun s => returned_true (delivered e k s))
                                   (reached (delivered e k) subs))
                           then stamped_row r (stamp_time e k) else r) (subscriptions w)
                  /\ outbox (snd r')
                     = outbox w
                       ++ map (fun s => Pushover (pushover_user_key s) trade)
                            (reached (delivered e k) subs)
                  /\ Py.raised (fst r') = existsb (fun s => Py.raised (delivered e k s)) subs
                  /\ dispatches (snd r') = S k).
  { subst r'. unfold _send_pushover_sell_alert. cbv zeta. cbn [subscriptions].
    rewrite list_eligible_subscriptions_eq. fold k. fold cutoff. fold subs.
    destruct subs as [|s0 rest] eqn:Hs.
    - simpl. split; [symmetry; apply map_id|]. split; [now rewrite app_nil_r|auto].
    - rewrite <- Hs. rewrite notify_subscriptions_table. cbn [subscriptions].
      split; [reflexivity|].
      match goal with
      | |- context [notify_subscriptions ?f ?n ?t ?l ?w0] =>
          destruct (notify_subscriptions_frame f n t l w0) as (_ & H2 & H3 & H4)
      end.
      cbv zeta in *. rewrite H2, H3, H4. cbn [outbox dispatches]. auto. }
  destruct Hsubs as (Htable & Hout & Hraise & Hk).
  split; [exact Hout|]. split; [exact Hraise|]. split; [exact Hk|].
  intros Hnd r Hin. rewrite Htable.
  rewrite select_row_map
    by (intros r0; destruct (existsb _ (List.filter _ _)); reflexivity).
  rewrite (select_row_In _ r Hnd Hin). simpl.
  assert (Hown : existsb (fun s => user_id s =? row_user_id r)
                   (List.filter (fun s => returned_true (delivered e k s))
                      (reached (delivered e k) subs)) = true
                 <-> In (subscription_of r) (reached (delivered e k) subs)
                     /\ returned_true (delivered e k (subscription_of r)) = true).
  { apply (existsb_own_row (fun s => returned_true (delivered e k s))
             (reached (delivered e k) subs) (subscriptions w) r Hnd Hin).
    intros s Hs. apply reached_In in Hs. unfold subs in Hs.
    apply List.in_map_iff in Hs. destruct Hs as (r0 & <- & Hr0).
    apply List.filter_In in Hr0. exists r0. tauto. }
  assert (Hret : returned_true (delivered e k (subscription_of r)) = true
                 <-> delivered e k (subscription_of r) = Py.Ok true).
  { destruct (delivered e k (subscription_of r)) as [[|]|]; simpl;
      split; congruence. }
  rewrite Hret in Hown.
  destruct (existsb _ (List.filter _ _)); split; intros H; try reflexivity.
  - exfalso. apply H. now apply Hown.
  - apply Hown in H. discriminate.
Qed.

End PollSubscribers.

(** ** Registration, cooldown and dispatch in both variants *)

(** INSERT ... ON CONFLICT(user_id) DO UPDATE SET key = excluded.key, on
    a table of any row type, read back by primary key. *)
Section Upsert.
Context {R : Type} (id : R -> Z) (set_key : R -> R) (new : R) (uid : Z).
Hypothesis id_set_key : forall r, id (set_key r) = id r.
Hypothesis id_new : id new = uid.

Lemma find_updated (db : list R) (uid' : Z) :
  List.find (fun r => id r =? uid') (map (fun r => if id r =? uid then set_key r else r) db)
  = if uid' =? uid
    then option_map set_key (List.find (fun r => id r =? uid) db)
    else List.find (fun r => id r =? uid') db.
Proof.
  induction db as [|x db IH]; simpl.
  - destruct (uid' =? uid); reflexivity.
  - destruct (id x =? uid) eqn:Hx.
    + rewrite id_set_key. apply Z.eqb_eq in Hx.
      destruct (uid' =? uid) eqn:Hu.
      * apply Z.eqb_eq in Hu. subst uid'. rewrite (proj2 (Z.eqb_eq _ _) Hx). reflexivity.
      * pose proof (proj1 (Z.eqb_neq _ _) Hu) as Hne.
        rewrite (proj2 (Z.eqb_neq (id x) uid')) by lia.
        exact IH.
    + rewrite IH. apply Z.eqb_neq in Hx.
      destruct (uid' =? uid) eqn:Hu.
      * apply Z.eqb_eq in Hu. subst uid'. now rewrite (proj2 (Z.eqb_neq _ _) Hx).
      * reflexivity.
Qed.

Lemma find_appended (db : list R) (uid' : Z) :
  existsb (fun r => id r =? uid) db = false ->
  List.find (fun r => id r =? uid') (db ++ [new])
  = if uid' =? uid then Some new else List.find (fun r => id r =? uid') db.
Proof.
  induction db as [|x db IH]; simpl.
  - intros _. rewrite id_new, (Z.eqb_sym uid uid'). destruct (uid' =? uid); reflexivity.
  - intros H. apply orb_false_elim in H. destruct H as [Hx Hdb]. rewrite (IH Hdb).
    destruct (id x =? uid') eqn:Hx'; [|reflexivity].
    apply Z.eqb_eq in Hx'. apply Z.eqb_neq in Hx.
    now rewrite (proj2 (Z.eqb_neq uid' uid)) by lia.
Qed.

Lemma find_upserted (db : list R) (uid' : Z) :
  List.find (fun r => id r =? uid')
    (if existsb (fun r => id r =? uid) db
     then map (fun r => if id r =? uid then set_key r else r) db
     else db ++ [new])
  = if uid' =? uid
    then Some (match List.find (fun r => id r =? uid) db with
               | Some r => set_key r
               | None => new
               end)
    else List.find (fun r => id r =? uid') db.
Proof.
  destruct (existsb (fun r => id r =? uid) db) eqn:Hex.
  - rewrite find_updated. destruct (uid' =? uid); [|reflexivity].
    apply List.existsb_exists in Hex. destruct Hex as (x & Hin & Hx).
    destruct (List.find (fun r => id r =? uid) db) eqn:Hf; [reflexivity|].
    exfalso. pose proof (List.find_none _ _ Hf x Hin) as Hn. simpl in Hn. congruence.
  - rewrite (find_appended db uid' Hex). destruct (uid' =? uid); [|reflexivity].
    destruct (List.find (fun r => id r =? uid) db) eqn:Hf; [|reflexivity].
    exfalso. apply List.find_some in Hf. destruct Hf as [Hin Hx].
    assert (Ht : existsb (fun r => id r =? uid) db = true).
    { apply List.existsb_exists. eauto. }
    congruence.
Qed.
End Upsert.

(** C10.  In both variants, the upsert of [(uid, key)] gives the row of
    [uid] the new key and leaves its [last_notification_at] as it was;
    when [uid] had no row, the new row has no stamp; the row of any
    other user reads as before. *)
Theorem C10_upsert_keeps_last_notification (uid uid' : Z) (key : string) :
  (forall db : list Bot.user,
     Bot.get_user (Bot.upsert_user db uid key) uid'
     = if uid' =? uid
       then Some {| Bot.user_id := uid; Bot.pushover_key := key;
                    Bot.last_notification_at :=
                      match Bot.get_user db uid with
                      | Some u => Bot.last_notification_at u
                      | None => None
                      end |}
       else Bot.get_user db uid')
  /\ (forall db : list LighterBot.row,
       select_row (LighterBot.upsert_subscription db uid key) uid'
       = if uid' =? uid
         then Some {| LighterBot.row_user_id := uid;
                      LighterBot.row_pushover_user_key := key;
                      LighterBot.last_notification_at :=
                        match select_row db uid with
                        | Some r => LighterBot.last_notification_at r
                        | None => None
                        end |}
         else select_row db uid').
Proof.
  split; intros db.
  - unfold Bot.upsert_user, Bot.get_user.
    rewrite (find_upserted Bot.user_id
               (fun u => {| Bot.user_id := Bot.user_id u; Bot.pushover_key := key;
                            Bot.last_notification_at := Bot.last_notification_at u |})
               {| Bot.user_id := uid; Bot.pushover_key := key;
                  Bot.last_notification_at := None |} uid)
      by reflexivity.
    destruct (uid' =? uid); [|reflexivity].
    destruct (List.find _ db) as [u|] eqn:Hf; [|reflexivity].
    apply List.find_some in Hf. destruct Hf as [_ Hu]. apply Z.eqb_eq in Hu.
    now rewrite Hu.
  - unfold LighterBot.upsert_subscription, select_row.
    rewrite (find_upserted LighterBot.row_user_id
               (fun r => {| LighterBot.row_user_id := LighterBot.row_user_id r;
                            LighterBot.row_pushover_user_key := key;
                            LighterBot.last_notification_at :=
                              LighterBot.last_notification_at r |})
               {| LighterBot.row_user_id := uid; LighterBot.row_pushover_user_key := key;
                  LighterBot.last_notification_at := None |} uid)
      by reflexivity.
    destruct (uid' =? uid); [|reflexivity].
    destruct (List.find _ db) as [r|] eqn:Hf; [|reflexivity].
    apply List.find_some in Hf. destruct Hf as [_ Hr]. apply Z.eqb_eq in Hr.
    now rewrite Hr.
Qed.

(** A subscriber in the middle of a cooldown registers again with
    another key: the stamp stays. *)
Example upsert_during_cooldown :
  Bot.upsert_user
    [ {| Bot.user_id := 7; Bot.pushover_key := "old-user-key";
         Bot.last_notification_at := Some 1000%Q |} ] 7 "new-user-key"
  = [ {| Bot.user_id := 7; Bot.pushover_key := "new-user-key";
         Bot.last_notification_at := Some 1000%Q |} ].
Proof. reflexivity. Qed.

Lemma notify_sell_spec settings post now stamp_at (db : list Bot.user) trade sent db' :
  List.NoDup (map Bot.user_id db) ->
  Bot.notify_sell settings post now stamp_at db trade = Py.Ok (sent, db') ->
  map Bot.push_user sent
  = List.filter (fun u => negb (Bot.in_cooldown (Bot._COOLDOWN_SECONDS settings) now u)) db
  /\ forall u, In u db ->
       Bot.get_user db' (Bot.user_id u)
       = Some (if negb (Bot.in_cooldown (Bot._COOLDOWN_SECONDS settings) now u)
                  && confirmed (post u)
               then stamped_user u (stamp_at (Bot.user_id u)) else u).
Proof.
  intros Hnd. unfold Bot.notify_sell, Bot.get_all_users.
  destruct db as [|u0 db0] eqn:Hdb.
  - intros [= <- <-]. split; [reflexivity|]. intros u [].
  - rewrite <- Hdb in *. destruct (Bot.body_usd trade) as [usd|]; simpl; [|discriminate].
    intros [= Hr].
    pose proof (notify_users_spec (Bot._COOLDOWN_SECONDS settings) post now stamp_at
                  trade usd db Hnd) as Hspec.
    rewrite Hr in Hspec. exact Hspec.
Qed.

(** *** Partial failure in one dispatch *)

(** X27.  In one dispatch of a Sell event of the push variant a request
    is made for every user who is not in a cooldown, whatever the
    requests for the others give, and a row carries the new stamp
    exactly when the request for its user was answered with status 200.
    In one dispatch of the poll variant [send_sell_notification] is
    called for the eligible rows in their order up to the first call
    that raises; a call that returns [False] stops nothing, and a row
    carries the new stamp exactly when its own call was made and
    returned [True]. *)
Theorem partial_failure_isolation :
  (forall settings post now stamp_at (db : list Bot.user) trade sent db',
     List.NoDup (map Bot.user_id db) ->
     Bot.notify_sell settings post now stamp_at db trade = Py.Ok (sent, db') ->
     map Bot.push_user sent
     = List.filter (fun u => negb (Bot.in_cooldown (Bot._COOLDOWN_SECONDS settings) now u)) db
     /\ forall u, In u db ->
          Bot.get_user db' (Bot.user_id u)
          = Some (if negb (Bot.in_cooldown (Bot._COOLDOWN_SECONDS settings) now u)
                     && confirmed (post u)
                  then stamped_user u (stamp_at (Bot.user_id u)) else u))
  /\ (forall settings e trade (w : LighterBot.World),
       let k := LighterBot.dispatches w in
       let cutoff :=
         LighterBot.query_time e k
         - LighterBot.minutes (LighterBot.notification_cooldown_minutes settings) in
       let subs :=
         map subscription_of
           (List.filter (LighterBot.eligible cutoff) (LighterBot.subscriptions w)) in
       let called := reached (LighterBot.delivered e k) subs in
       let r' := LighterBot._send_pushover_sell_alert settings e trade w in
       LighterBot.outbox (snd r')
       = LighterBot.outbox w
         ++ map (fun s => LighterBot.Pushover (LighterBot.pushover_user_key s) trade) called
       /\ ((forall s, In s subs -> Py.raised (LighterBot.delivered e k s) = false) ->
           called = subs /\ Py.raised (fst r') = false)
       /\ (List.NoDup (map LighterBot.row_user_id (LighterBot.subscriptions w)) ->
           forall r, In r (LighterBot.subscriptions w) ->
             (In (subscription_of r) called
              /\ LighterBot.delivered e k (subscription_of r) = Py.Ok true ->
              select_row (LighterBot.subscriptions (snd r')) (LighterBot.row_user_id r)
              = Some (stamped_row r (LighterBot.stamp_time e k)))
             /\ (~ (In (subscription_of r) called
                    /\ LighterBot.delivered e k (subscription_of r) = Py.Ok true) ->
                 select_row (LighterBot.subscriptions (snd r')) (LighterBot.row_user_id r)
                 = Some r))).
Proof.
  split.
  - apply notify_sell_spec.
  - intros settings e trade w k cutoff subs called r'.
    destruct (_send_pushover_sell_alert_spec settings e trade w) as (H1 & H2 & _ & H4).
    cbv zeta in *. fold k cutoff subs called r' in H1, H2, H4.
    split; [exact H1|]. split; [|exact H4].
    intros Hret. split; [now apply reached_all|].
    rewrite H2. destruct (existsb _ subs) eqn:Hex; [|reflexivity].
    apply List.existsb_exists in Hex. destruct Hex as (s0 & Hs0 & Hr).
    rewrite (Hret s0 Hs0) in Hr. discriminate.
Qed.

(** The theorem at a dispatch to two subscribers where the delivery to
    the first one fails without an exception: both are attempted, the
    first row is unchanged, the second is stamped. *)
Lemma partial_failure_isolation_witness :
  (exists sent db',
     Bot.notify_sell example_settings fails_for_alice 641 (fun _ => 642%Q) [alice; bob]
       example_sell = Py.Ok (sent, db')
     /\ map Bot.push_user sent = [alice; bob]
     /\ Bot.get_user db' 1 = Some alice
     /\ Bot.get_user db' 2 = Some (stamped_user bob 642))
  /\ (LighterBot.outbox
        (snd (LighterBot._send_pushover_sell_alert poll_settings poll_env_failing_alice
                poll_sell poll_world))
      = [ LighterBot.Pushover "user-key-alice" poll_sell;
          LighterBot.Pushover "user-key-bob1" poll_sell ]
      /\ select_row
           (LighterBot.subscriptions
              (snd (LighterBot._send_pushover_sell_alert poll_settings poll_env_failing_alice
                      poll_sell poll_world))) 1 = Some alice_row
      /\ select_row
           (LighterBot.subscriptions
              (snd (LighterBot._send_pushover_sell_alert poll_settings poll_env_failing_alice
                      poll_sell poll_world))) 2 = Some (stamped_row bob_row 1001)).
Proof.
  destruct partial_failure_isolation as [Hpush Hpoll].
  assert (Hnd : List.NoDup (map Bot.user_id [alice; bob])).
  { repeat constructor; simpl; intuition discriminate. }
  assert (Hnd' : List.NoDup (map LighterBot.row_user_id [alice_row; bob_row])).
  { repeat constructor; simpl; intuition discriminate. }
  split.
  - eexists _, _. split; [vm_compute; reflexivity|].
    match goal with
    | |- map Bot.push_user ?sent = _ /\ Bot.get_user ?db' _ = _ /\ _ =>
        destruct (Hpush example_settings fails_for_alice 641%Q (fun _ => 642%Q)
                    [alice; bob] example_sell sent db' Hnd) as [H1 H2];
          [vm_compute; reflexivity|]
    end.
    split; [exact H1|]. split.
    + apply (H2 alice). left. reflexivity.
    + apply (H2 bob). right. left. reflexivity.
  - destruct (Hpoll poll_settings poll_env_failing_alice poll_sell poll_world)
      as (H1 & _ & H3).
    split; [exact H1|]. split.
    + apply (H3 Hnd' alice_row); [left; reflexivity|]. intros [_ H]. discriminate H.
    + apply (H3 Hnd' bob_row); [right; left; reflexivity|].
      split; [right; left; reflexivity|reflexivity].
Defined.

(** C4: what the poll variant does when a call of
    [send_sell_notification] raises.  Alice and Bob are eligible.  The
    request for Alice is answered with status 429 and a [Retry-After]
    header that holds a date: [int] raises [ValueError], which neither
    [send_sell_notification] nor [_send_pushover_sell_alert] catches.
    The dispatch ends there: no call is made for Bob, whose delivery
    would have been confirmed, and the row of Bob is not stamped. *)
Lemma C4_raising_delivery_stops_dispatch :
  let r := LighterBot._send_pushover_sell_alert poll_settings poll_env_retry_after_date
             poll_sell poll_world in
  Http.send_sell_notification (pushover_for (subscription_of alice_row))
  = (Py.Raise "ValueError", [Http.Request 1])
  /\ fst (Http.send_sell_notification (pushover_for (subscription_of bob_row))) = Py.Ok true
  /\ LighterBot.list_eligible_subscriptions 1000 (LighterBot.subscriptions poll_world)
       (LighterBot.minutes 120)
     = [subscription_of alice_row; subscription_of bob_row]
  /\ fst r = Py.Raise "ValueError"
  /\ LighterBot.outbox (snd r) = [LighterBot.Pushover "user-key-alice" poll_sell]
  /\ LighterBot.subscriptions (snd r) = [alice_row; bob_row].
Proof. vm_compute. repeat split; reflexivity. Qed.

(** *** The cooldown *)

(** X28.  Push variant: when [notify_sell] returns, a user with a stamp
    [T] other than zero got no request while [now < T + cooldown], and
    got one from [T + cooldown] on; a user without a stamp got one. *)
Theorem cooldown_enforced_push settings post now stamp_at (db : list Bot.user) trade sent db'
    (u : Bot.user) :
  Bot.notify_sell settings post now stamp_at db trade = Py.Ok (sent, db') ->
  In u db ->
  (forall T, Bot.last_notification_at u = Some T -> ~ (T == 0)%Q ->
     ((now < T + Bot._COOLDOWN_SECONDS settings)%Q -> ~ In u (map Bot.push_user sent))
     /\ ((T + Bot._COOLDOWN_SECONDS settings <= now)%Q -> In u (map Bot.push_user sent)))
  /\ (Bot.last_notification_at u = None -> In u (map Bot.push_user sent)).
Proof.
  intros Hrun Hin.
  assert (Hsent : map Bot.push_user sent
                  = List.filter
                      (fun u => negb (Bot.in_cooldown (Bot._COOLDOWN_SECONDS settings) now u))
                      db).
  { unfold Bot.notify_sell, Bot.get_all_users in Hrun.
    destruct db as [|u0 db0] eqn:Hdb; [contradiction|]. rewrite <- Hdb in *.
    destruct (Bot.body_usd trade) as [usd|]; simpl in Hrun; [|discriminate].
    injection Hrun as Hrun.
    pose proof (notify_users_pushes (Bot._COOLDOWN_SECONDS settings) post now stamp_at
                  trade usd db db) as Hp.
    rewrite Hrun in Hp. simpl in Hp. rewrite Hp, map_map. simpl. apply map_id. }
  rewrite Hsent. split.
  - intros T HT Hnz.
    pose proof (in_cooldown_iff (Bot._COOLDOWN_SECONDS settings) now u T HT Hnz) as Hc.
    split.
    + intros Hlt Hf. apply List.filter_In in Hf. destruct Hf as [_ Hf].
      apply Hc in Hlt. rewrite Hlt in Hf. discriminate.
    + intros Hle. apply List.filter_In. split; [exact Hin|].
      apply negb_true_iff, not_true_is_false. intros Hb. apply Hc in Hb. lra.
  - intros Hnone. apply List.filter_In. split; [exact Hin|].
    unfold Bot.in_cooldown. now rewrite Hnone.
Qed.

(** The theorem at a user stamped at the time 642, for a sell handled
    at the time 700. *)
Lemma cooldown_enforced_push_witness :
  (forall T, Bot.last_notification_at (stamped_user bob 642) = Some T -> ~ (T == 0)%Q ->
     ((700 < T + Bot._COOLDOWN_SECONDS example_settings)%Q ->
      ~ In (stamped_user bob 642) (map Bot.push_user []))
     /\ ((T + Bot._COOLDOWN_SECONDS example_settings <= 700)%Q ->
         In (stamped_user bob 642) (map Bot.push_user [])))
  /\ (Bot.last_notification_at (stamped_user bob 642) = None ->
      In (stamped_user bob 642) (map Bot.push_user [])).
Proof.
  apply (cooldown_enforced_push example_settings (fun _ => Bot.Response 200) 700
           (fun _ => 701%Q) [stamped_user bob 642] example_sell []
           [stamped_user bob 642] (stamped_user bob 642)).
  - vm_compute. reflexivity.
  - left. reflexivity.
Defined.

(** X29.  Poll variant: [send_sell_notification] is called for rows
    that are eligible at the time [now] of the query only, so for no
    row with a stamp [T] while [now < T + cooldown]; a row without a
    stamp, or with [T <= now - cooldown], is eligible, and every
    eligible row is called for when the dispatch returns. *)
Theorem cooldown_enforced_poll settings e trade (w : LighterBot.World) (r : LighterBot.row) :
  let k := LighterBot.dispatches w in
  let now := LighterBot.query_time e k in
  let cooldown := LighterBot.minutes (LighterBot.notification_cooldown_minutes settings) in
  let subs :=
    map subscription_of
      (List.filter (LighterBot.eligible (now - cooldown)) (LighterBot.subscriptions w)) in
  let called := reached (LighterBot.delivered e k) subs in
  let r' := LighterBot._send_pushover_sell_alert settings e trade w in
  List.NoDup (map LighterBot.row_user_id (LighterBot.subscriptions w)) ->
  In r (LighterBot.subscriptions w) ->
  LighterBot.outbox (snd r')
  = LighterBot.outbox w
    ++ map (fun s => LighterBot.Pushover (LighterBot.pushover_user_key s) trade) called
  /\ (forall T, LighterBot.last_notification_at r = Some T ->
        (now < T + cooldown -> ~ In (subscription_of r) called)
        /\ (T <= now - cooldown -> In (subscription_of r) subs))
  /\ (LighterBot.last_notification_at r = None -> In (subscription_of r) subs)
  /\ (Py.raised (fst r') = false -> called = subs).
Proof.
  intros k now cooldown subs called r' Hnd Hin.
  destruct (_send_pushover_sell_alert_spec settings e trade w) as (H1 & H2 & _).
  cbv zeta in *. fold k now cooldown subs called r' in H1, H2.
  split; [exact H1|].
  assert (Hel : forall r0, In r0 (LighterBot.subscriptions w) ->
                  (In (subscription_of r0) subs <-> LighterBot.eligible (now - cooldown) r0 = true)).
  { intros r0 Hr0. unfold subs. rewrite List.in_map_iff. split.
    - intros (r1 & Heq & Hr1). apply List.filter_In in Hr1. destruct Hr1 as [Hr1 He].
      assert (Hid : LighterBot.row_user_id r1 = LighterBot.row_user_id r0).
      { apply (f_equal LighterBot.user_id) in Heq. exact Heq. }
      now rewrite <- (row_user_id_unique _ r1 r0 Hnd Hr1 Hr0 Hid).
    - intros He. exists r0. split; [reflexivity|]. apply List.filter_In. auto. }
  split; [|split].
  - intros T HT. split.
    + intros Hlt Hc. apply reached_In, (Hel r Hin) in Hc.
      unfold LighterBot.eligible in Hc. rewrite HT in Hc. apply Z.leb_le in Hc. lia.
    + intros Hle. apply (Hel r Hin). unfold LighterBot.eligible. rewrite HT.
      apply Z.leb_le. lia.
  - intros Hnone. apply (Hel r Hin). unfold LighterBot.eligible. now rewrite Hnone.
  - intros Hret. apply reached_all. intros s Hs. rewrite H2 in Hret.
    destruct (Py.raised (LighterBot.delivered e k s)) eqn:Hr; [|reflexivity].
    assert (Hex : existsb (fun s => Py.raised (LighterBot.delivered e k s)) subs = true)
      by (apply List.existsb_exists; eauto).
    congruence.
Qed.

(** The theorem at the dispatch to Alice and Bob, for the row of Bob. *)
Lemma cooldown_enforced_poll_witness :
  let subs :=
    map subscription_of
      (List.filter (LighterBot.eligible (1000 - LighterBot.minutes 120)) [alice_row; bob_row]) in
  let called := reached (LighterBot.delivered poll_env_failing_alice 0) subs in
  let r' := LighterBot._send_pushover_sell_alert poll_settings poll_env_failing_alice
              poll_sell poll_world in
  LighterBot.outbox (snd r')
  = [] ++ map (fun s => LighterBot.Pushover (LighterBot.pushover_user_key s) poll_sell) called
  /\ (forall T, LighterBot.last_notification_at bob_row = Some T ->
        (1000 < T + LighterBot.minutes 120 -> ~ In (subscription_of bob_row) called)
        /\ (T <= 1000 - LighterBot.minutes 120 -> In (subscription_of bob_row) subs))
  /\ (LighterBot.last_notification_at bob_row = None -> In (subscription_of bob_row) subs)
  /\ (Py.raised (fst r') = false -> called = subs).
Proof.
  apply (cooldown_enforced_poll poll_settings poll_env_failing_alice poll_sell poll_world
           bob_row).
  - repeat constructor; simpl; intuition discriminate.
  - right. left. reflexivity.
Defined.

(** C1: what the poll variant does for an eligible subscriber when the
    call of [send_sell_notification] for an earlier one raises.  The
    row of Bob has no stamp, so it is eligible for the Sell event; the
    request for Alice, whose row comes first, is answered with status
    429 and a date to wait for, the call raises [ValueError], and the
    dispatch ends: no delivery to Bob is attempted. *)
Lemma C1_eligible_subscriber_not_attempted :
  let r := LighterBot._send_pushover_sell_alert poll_settings poll_env_retry_after_date
             poll_sell poll_world in
  LighterBot.last_notification_at bob_row = None
  /\ In (subscription_of bob_row)
        (LighterBot.list_eligible_subscriptions 1000 (LighterBot.subscriptions poll_world)
           (LighterBot.minutes 120))
  /\ fst r = Py.Raise "ValueError"
  /\ ~ In (LighterBot.Pushover "user-key-bob1" poll_sell) (LighterBot.outbox (snd r)).
Proof.
  vm_compute. split; [reflexivity|]. split; [right; left; reflexivity|].
  split; [reflexivity|]. intros [H|[]]. discriminate H.
Qed.

(** * Further properties of the code *)

(** ** The cycle of the poll variant *)

Section CycleMore.
Import LighterBot.






End CycleMore.

(** ** Dispatches of the poll variant *)

Section DispatchMore.
Import LighterBot.

Lemma row_kept_or_stamped_refl e (db : list row) :
  Forall2 (row_kept_or_stamped e) db db.
Proof. induction db; constructor; [split; auto|assumption]. Qed.

Lemma row_kept_or_stamped_trans e (db1 db2 db3 : list row) :
  Forall2 (row_kept_or_stamped e) db1 db2 ->
  Forall2 (row_kept_or_stamped e) db2 db3 ->
  Forall2 (row_kept_or_stamped e) db1 db3.
Proof.
  intros H12. revert db3. induction H12 as [|r1 r2 l1 l2 [Hs Hl] _ IH]; intros db3 H23.
  - inversion H23. constructor.
  - inversion H23 as [|? r3 ? l3 [Hs' Hl'] Hrest]; subst. constructor; [|auto].
    split; [congruence|].
    destruct Hl' as [Hl'|[k Hk]]; [|right; eauto].
    rewrite Hl'. exact Hl.
Qed.

Lemma _send_pushover_sell_alert_rows settings e trade w :
  Forall2 (row_kept_or_stamped e) (subscriptions w)
    (subscriptions (snd (_send_pushover_sell_alert settings e trade w))).
Proof.
  unfold _send_pushover_sell_alert. cbv zeta.
  destruct (list_eligible_subscriptions _ _ _) as [|s subs];
    [apply row_kept_or_stamped_refl|].
  remember (s :: subs) as l eqn:Hl. clear Hl.
  rewrite notify_subscriptions_table. cbn [subscriptions].
  induction (subscriptions w) as [|r db IH]; simpl; constructor; [|exact IH].
  destruct (existsb _ _); split; auto. right. eexists. reflexivity.
Qed.

Lemma process_trades_rows settings e trades tb tsell w :
  Forall2 (row_kept_or_stamped e) (subscriptions w)
    (subscriptions (snd (process_trades settings e trades tb tsell w))).
Proof.
  revert tb tsell w. induction trades as [|t trades IH]; intros tb tsell w;
    cbn [process_trades].
  - apply row_kept_or_stamped_refl.
  - destruct (direction t); [apply IH|].
    pose proof (_send_pushover_sell_alert_rows settings e t (_send_sell_alert settings t w))
      as Hd.
    destruct (_send_pushover_sell_alert settings e t (_send_sell_alert settings t w))
      as [[u|exn] w1]; cbn [snd] in *; [|exact Hd].
    eapply row_kept_or_stamped_trans; [exact Hd|apply IH].
Qed.

(** X3.  A cycle leaves the table of subscriptions with the same users
    and the same keys, in the same order; the stamp of a row is the one
    it had or a reading of the clock taken for a dispatch.  No row is
    added or removed, and no stamp is cleared. *)
Theorem run_once_keeps_subscribers (settings : Settings) (e : env) (batch : list Trade)
    (write_ok : bool) (w : World) :
  Forall2 (row_kept_or_stamped e) (subscriptions w)
    (subscriptions (snd (run_once settings e batch write_ok w))).
Proof.
  unfold run_once, load_last_ts.
  destruct batch as [|t0 batch]; [apply row_kept_or_stamped_refl|].
  destruct (fresh_trades _ _) as [|first rest]; [apply row_kept_or_stamped_refl|].
  pose proof (process_trades_rows settings e (first :: rest) dec_zero dec_zero w) as Hp.
  destruct (process_trades _ _ _ _ _ _) as [[[tb tsell]|exn] w']; [|exact Hp].
  simpl in Hp. destruct (dec_pos tb || dec_pos tsell); exact Hp.
Qed.

Lemma rows_same_ids e (db db' : list row) :
  Forall2 (row_kept_or_stamped e) db db' -> map row_user_id db' = map row_user_id db.
Proof.
  induction 1 as [|r r' l l' [Hs _] _ IH]; simpl; [reflexivity|].
  rewrite IH. f_equal. unfold subscription_of in Hs. congruence.
Qed.

(** X4.  The cooldown across two dispatches.  When a dispatch called
    [send_sell_notification] for a subscriber and the call returned
    [True], the next dispatch attempts no delivery to that subscriber
    as long as its query is made before the stamp plus the cooldown. *)
Theorem cooldown_between_dispatches (settings : Settings) (e : env) (t1 t2 : Trade)
    (w : World) (r : row) :
  let k := dispatches w in
  let cooldown := minutes (notification_cooldown_minutes settings) in
  let subs :=
    map subscription_of
      (List.filter (eligible (query_time e k - cooldown)) (subscriptions w)) in
  let w1 := snd (_send_pushover_sell_alert settings e t1 w) in
  let w2 := snd (_send_pushover_sell_alert settings e t2 w1) in
  let attempted :=
    List.filter (eligible (query_time e (S k) - cooldown)) (subscriptions w1) in
  List.NoDup (map row_user_id (subscriptions w)) ->
  In r (subscriptions w) ->
  In (subscription_of r) (reached (delivered e k) subs) ->
  delivered e k (subscription_of r) = Py.Ok true ->
  query_time e (S k) < stamp_time e k + cooldown ->
  outbox w2
  = outbox w1
    ++ map (fun s => Pushover (pushover_user_key s) t2)
         (reached (delivered e (S k)) (map subscription_of attempted))
  /\ forall r', In r' attempted -> row_user_id r' <> row_user_id r.
Proof.
  intros k cooldown subs w1 w2 attempted Hnd Hin Hcalled Hdel Hlt.
  destruct (_send_pushover_sell_alert_spec settings e t1 w) as (_ & _ & Hk1 & Hrow).
  destruct (_send_pushover_sell_alert_spec settings e t2 w1) as (Hout & _).
  cbv zeta in *. fold k cooldown subs w1 in Hrow, Hk1. fold w2 in Hout.
  rewrite Hk1 in Hout. fold cooldown attempted in Hout.
  split; [exact Hout|].
  intros r' Hr' Hid. subst attempted. apply List.filter_In in Hr'. destruct Hr' as [Hr' Hel'].
  destruct (Hrow Hnd r Hin) as [Hstamped _]. specialize (Hstamped (conj Hcalled Hdel)).
  assert (Hnd1 : List.NoDup (map row_user_id (subscriptions w1))).
  { rewrite (rows_same_ids e (subscriptions w) (subscriptions w1));
      [exact Hnd|apply _send_pushover_sell_alert_rows]. }
  pose proof (select_row_In _ r' Hnd1 Hr') as Hsel. rewrite Hid, Hstamped in Hsel.
  injection Hsel as <-. unfold eligible, stamped_row in Hel'. simpl in Hel'.
  apply Z.leb_le in Hel'. lia.
Qed.

(** The theorem at the table of two subscribers: the first dispatch
    delivers to the second one only; of the next dispatch, one
    microsecond later, only the first subscriber is attempted. *)
Lemma cooldown_between_dispatches_witness :
  let w1 := snd (_send_pushover_sell_alert poll_settings poll_env_failing_alice poll_sell
                   poll_world) in
  let w2 := snd (_send_pushover_sell_alert poll_settings poll_env_failing_alice poll_sell
                   w1) in
  let attempted := List.filter (eligible (1000 - minutes 120)) (subscriptions w1) in
  outbox w2
  = outbox w1
    ++ map (fun s => Pushover (pushover_user_key s) poll_sell)
         (reached (delivered poll_env_failing_alice 1) (map subscription_of attempted))
  /\ forall r', In r' attempted -> row_user_id r' <> 2.
Proof.
  apply (cooldown_between_dispatches poll_settings poll_env_failing_alice poll_sell
           poll_sell poll_world bob_row).
  - repeat constructor; simpl; intuition discriminate.
  - right. left. reflexivity.
  - right. left. reflexivity.
  - reflexivity.
  - reflexivity.
Defined.

End DispatchMore.

(** ** The sorted set of the push variant *)

Section WindowMore.
Import Py Bot.

Lemma assign_members_iff (m x : enriched) (s : Q) (z : zset) :
  In x (map fst (assign m s z)) <-> x = m \/ In x (map fst z).
Proof.
  split; [apply assign_members|].
  induction z as [|[m' s'] z IH]; simpl.
  - intros [->|[]]. now left.
  - destruct (decide (m' = m)) as [->|Hne]; simpl; [intuition congruence|].
    intros [->|[<-|Hin]]; auto.
Qed.

Lemma fold_assign_members (x : enriched) (l z : zset) :
  In x (map fst (fold_left (fun z ms => assign (fst ms) (snd ms) z) l z))
  <-> In x (map fst z) \/ In x (map fst l).
Proof.
  revert z. induction l as [|[m s] l IH]; intros z; simpl; [tauto|].
  rewrite IH, assign_members_iff. simpl. intuition congruence.
Qed.

Lemma mapping_members now (x : enriched) (trades : list enriched) (mapping : zset) :
  In x (map fst (fold_left (fun mapping trade =>
                              assign (member_of trade) (score_of now trade) mapping)
                   trades mapping))
  <-> In x (map fst mapping) \/ In x (map member_of trades).
Proof.
  revert mapping. induction trades as [|t trades IH]; intros mapping; simpl; [tauto|].
  rewrite IH, assign_members_iff. intuition congruence.
Qed.

(** X5.  After [store_trades] the members of the sorted set are the
    members it had and the members for the trades of the batch: nothing
    is dropped by a write, and every trade of the batch is there. *)
Theorem store_trades_members (now : Q) (store : zset) (trades : list enriched)
    (m : enriched) :
  In m (map fst (store_trades now store trades))
  <-> In m (map fst store) \/ In m (map member_of trades).
Proof.
  unfold store_trades. destruct trades as [|t trades].
  - split; [auto|intros [H|[]]; exact H].
  - unfold zadd. rewrite fold_assign_members, mapping_members.
    split; [intros [H|[[]|H]]; auto|intros [H|H]; auto].
Qed.

Lemma receive_NoDup settings e msg st :
  List.NoDup (map fst (redis st)) ->
  List.NoDup (map fst (redis (fst (receive settings e msg st)))).
Proof.
  intros Hnd. unfold receive, _handle_message.
  destruct msg as [| | |tbm]; try exact Hnd.
  destruct (int_of_string _) as [account_id_int|]; [|exact Hnd]. simpl bind.
  destruct (enrich_all _ _ _ _) as [all_trades|]; [|exact Hnd]. simpl bind.
  destruct (fire_sell_callbacks _ _ _ _ _) as [sent db]. simpl.
  destruct all_trades as [|t all_trades]; [exact Hnd|].
  apply purge_old_trades_NoDup, store_trades_NoDup, Hnd.
Qed.

(** X6.  Whatever messages arrive, a sorted set that started empty never
    holds a member twice. *)
Theorem _receive_loop_members_unique (settings : Config) (msgs : list (env * ws_message))
    (db : list user) :
  List.NoDup
    (map fst (redis (fst (_receive_loop settings msgs {| redis := []; users := db |})))).
Proof.
  assert (H : forall st, List.NoDup (map fst (redis st)) ->
                         List.NoDup (map fst (redis (fst (_receive_loop settings msgs st))))).
  { induction msgs as [|[e msg] msgs IH]; intros st Hnd; simpl; [exact Hnd|].
    pose proof (receive_NoDup settings e msg st Hnd) as H1.
    destruct (receive settings e msg st) as [st' eff]. simpl in H1.
    specialize (IH st' H1). destruct (_receive_loop settings msgs st') as [st'' effs].
    exact IH. }
  apply H. constructor.
Qed.

Lemma Qle_bool_total (a b : Q) : Qle_bool a b = true \/ Qle_bool b a = true.
Proof.
  rewrite !Qle_bool_iff. destruct (Qlt_le_dec a b) as [H|H]; [left; lra|right; exact H].
Qed.

Lemma Qle_bool_trans (a b c : Q) :
  Qle_bool a b = true -> Qle_bool b c = true -> Qle_bool a c = true.
Proof. rewrite !Qle_bool_iff. apply Qle_trans. Qed.

Lemma entry_leb_iff member_leb (a b : enriched * Q) :
  entry_leb member_leb a b = true
  <-> (snd a < snd b)%Q \/ ((snd a == snd b)%Q /\ member_leb (fst a) (fst b) = true).
Proof.
  unfold entry_leb. destruct (Qeq_bool (snd a) (snd b)) eqn:Heq.
  - apply Qeq_bool_iff in Heq. split; [auto|]. intros [H|[_ H]]; [lra|exact H].
  - apply Qeq_bool_neq in Heq. rewrite Qle_bool_iff. split.
    + intros H. left. lra.
    + intros [H|[H _]]; [lra|contradiction].
Qed.

Section EntryOrder.
Variable member_leb : enriched -> enriched -> bool.
Hypothesis member_leb_total : forall a b, member_leb a b = true \/ member_leb b a = true.
Hypothesis member_leb_trans :
  forall a b c, member_leb a b = true -> member_leb b c = true -> member_leb a c = true.

Lemma entry_leb_total (a b : enriched * Q) :
  entry_leb member_leb a b = true \/ entry_leb member_leb b a = true.
Proof.
  rewrite !entry_leb_iff.
  destruct (Q_dec (snd a) (snd b)) as [[H|H]|H]; [left; left; exact H|right; left; exact H|].
  destruct (member_leb_total (fst a) (fst b)) as [Hm|Hm].
  - left. right. auto.
  - right. right. split; [symmetry; exact H|exact Hm].
Qed.

Lemma entry_leb_trans (a b c : enriched * Q) :
  entry_leb member_leb a b = true -> entry_leb member_leb b c = true ->
  entry_leb member_leb a c = true.
Proof.
  rewrite !entry_leb_iff.
  intros [H1|[H1 M1]] [H2|[H2 M2]]; try (left; lra).
  right. split; [lra|]. eapply member_leb_trans; eassumption.
Qed.

End EntryOrder.

(** X7.  [get_recent_trades] returns the trades of the entries whose
    score is at least [now - window_seconds], in ascending order of
    score; entries of equal score come in the order of their members.
    Redis orders members by the bytes of their texts; [member_leb]
    stands for that order, of which only that it is total and
    transitive is used. *)
Theorem get_recent_trades_ascending (member_leb : enriched -> enriched -> bool) (now : Q)
    (store : zset) (window_seconds : option Q) :
  (forall a b, member_leb a b = true \/ member_leb b a = true) ->
  (forall a b c, member_leb a b = true -> member_leb b c = true -> member_leb a c = true) ->
  let min_score := (now - default TRADE_RETENTION_SECONDS window_seconds)%Q in
  exists entries,
    get_recent_trades member_leb now store window_seconds = map fst entries
    /\ Permutation entries (List.filter (fun ms => Qle_bool min_score (snd ms)) store)
    /\ StronglySorted
         (fun a b => (snd a < snd b)%Q
                     \/ ((snd a == snd b)%Q /\ member_leb (fst a) (fst b) = true))
         entries
    /\ (forall m s, In (m, s) entries <-> In (m, s) store /\ (min_score <= s)%Q).
Proof.
  intros Htotal Htrans min_score.
  exists (sorted_by (entry_leb member_leb)
            (List.filter (fun ms => Qle_bool min_score (snd ms)) store)).
  split; [reflexivity|]. split; [apply sorted_by_perm|]. split.
  - pose proof (sorted_by_sorted (entry_leb member_leb)
                  (entry_leb_total member_leb Htotal)
                  (entry_leb_trans member_leb Htrans)
                  (List.filter (fun ms => Qle_bool min_score (snd ms)) store)) as Hs.
    induction Hs as [|x l Hs IH Hx]; constructor; [exact IH|].
    eapply Forall_impl; [exact Hx|]. intros b. apply entry_leb_iff.
  - intros m s. rewrite sorted_by_In, List.filter_In. simpl.
    rewrite Qle_bool_iff. reflexivity.
Qed.

(** The theorem at the store that holds one trade received at the times
    641 and 642: the two entries have the score 640 and come in the
    order of receipt. *)
Lemma get_recent_trades_ascending_witness :
  let st1 := fst (receive example_settings (example_env 641)
                    (TradesUpdate [("7", [example_sell_record])]) empty_state) in
  let st2 := fst (receive example_settings (example_env 642)
                    (TradesUpdate [("7", [example_sell_record])]) st1) in
  exists entries,
    get_recent_trades by_receipt 700 (redis st2) None = map fst entries
    /\ Permutation entries
         (List.filter (fun ms => Qle_bool (700 - TRADE_RETENTION_SECONDS) (snd ms)) (redis st2))
    /\ StronglySorted
         (fun a b => (snd a < snd b)%Q
                     \/ ((snd a == snd b)%Q /\ by_receipt (fst a) (fst b) = true))
         entries
    /\ (forall m s, In (m, s) entries
                    <-> In (m, s) (redis st2) /\ (700 - TRADE_RETENTION_SECONDS <= s)%Q).
Proof.
  intros st1 st2.
  apply (get_recent_trades_ascending by_receipt 700 (redis st2) None).
  - intros a b. unfold by_receipt. apply Qle_bool_total.
  - intros a b c. unfold by_receipt. apply Qle_bool_trans.
Defined.

Lemma filter_filter_implied {A} (p q : A -> bool) (l : list A) :
  (forall x, q x = true -> p x = true) ->
  List.filter q (List.filter p l) = List.filter q l.
Proof.
  intros H. induction l as [|x l IH]; simpl; [reflexivity|].
  destruct (p x) eqn:Hp; simpl; rewrite IH; [reflexivity|].
  destruct (q x) eqn:Hq; [|reflexivity]. rewrite (H x Hq) in Hp. discriminate.
Qed.

(** X8.  Purges compose: a purge after an earlier purge leaves what a
    single purge at the later time leaves, and the two counts add up to
    the count of the single purge. *)
Theorem purge_old_trades_twice (now1 now2 : Q) (store : zset) :
  (now1 <= now2)%Q ->
  let first := purge_old_trades now1 store in
  let second := purge_old_trades now2 (fst first) in
  fst second = fst (purge_old_trades now2 store)
  /\ snd first + snd second = snd (purge_old_trades now2 store).
Proof.
  intros Hle first second.
  assert (Hkept : fst second = fst (purge_old_trades now2 store)).
  { subst first second. unfold purge_old_trades, zremrangebyscore. cbn [fst].
    apply filter_filter_implied. intros [m s]. cbn [snd].
    rewrite !negb_true_iff, !Qle_bool_false. unfold TRADE_RETENTION_SECONDS. lra. }
  split; [exact Hkept|].
  subst first second. unfold purge_old_trades, zremrangebyscore in *. cbn [fst snd] in *.
  rewrite Hkept. lia.
Qed.

Lemma purge_old_trades_twice_witness :
  fst (purge_old_trades 1001 (fst (purge_old_trades 999 [(example_sell, 640%Q)])))
  = fst (purge_old_trades 1001 [(example_sell, 640%Q)])
  /\ snd (purge_old_trades 999 [(example_sell, 640%Q)])
     + snd (purge_old_trades 1001 (fst (purge_old_trades 999 [(example_sell, 640%Q)])))
     = snd (purge_old_trades 1001 [(example_sell, 640%Q)]).
Proof.
  apply (purge_old_trades_twice 999 1001 [(example_sell, 640%Q)]).
  vm_compute. discriminate.
Defined.

(** X9.  A purge does not take anything from a later read whose window
    is shorter than the retention of 360 seconds: the read returns what
    it would return without the purge. *)
Theorem purge_keeps_shorter_windows (member_leb : enriched -> enriched -> bool)
    (purged_at now window_seconds : Q) (store : zset) :
  (purged_at <= now)%Q ->
  (window_seconds < TRADE_RETENTION_SECONDS)%Q ->
  get_recent_trades member_leb now (fst (purge_old_trades purged_at store))
    (Some window_seconds)
  = get_recent_trades member_leb now store (Some window_seconds).
Proof.
  intros Hle Hw. unfold get_recent_trades, zrangebyscore, purge_old_trades,
    zremrangebyscore. cbn [fst default].
  rewrite filter_filter_implied; [reflexivity|].
  intros [m s]. cbn [snd]. rewrite negb_true_iff, Qle_bool_false, Qle_bool_iff.
  unfold TRADE_RETENTION_SECONDS, id in *. lra.
Qed.

Lemma purge_keeps_shorter_windows_witness :
  get_recent_trades by_receipt 940 (fst (purge_old_trades 939 [(example_sell, 640%Q)]))
    (Some 300%Q)
  = get_recent_trades by_receipt 940 [(example_sell, 640%Q)] (Some 300%Q).
Proof.
  apply (purge_keeps_shorter_windows by_receipt 939 940 300 [(example_sell, 640%Q)]);
    vm_compute; [discriminate|reflexivity].
Defined.

End WindowMore.

(** ** Dispatches of the push variant *)

Section PushMore.
Import Py Bot.

Lemma notify_sell_inv settings post now stamp_at (db : list user) trade sent db' :
  notify_sell settings post now stamp_at db trade = Ok (sent, db') ->
  (db = [] /\ sent = [] /\ db' = [])
  \/ exists usd,
       body_usd trade = Ok usd
       /\ (sent, db')
          = notify_users (_COOLDOWN_SECONDS settings) post now stamp_at trade usd db db.
Proof.
  unfold notify_sell, get_all_users. destruct db as [|u0 db0] eqn:Hdb.
  - intros [= <- <-]. now left.
  - rewrite <- Hdb. destruct (body_usd trade) as [usd|]; simpl; [|discriminate].
    intros [= H]. right. exists usd. split; [reflexivity|]. rewrite H.
    destruct (notify_users _ _ _ _ _ _ _ _); reflexivity.
Qed.

Lemma notify_sell_frame settings post now stamp_at (db : list user) trade sent db' :
  notify_sell settings post now stamp_at db trade = Ok (sent, db') ->
  Forall2 (user_kept_or_stamped stamp_at) db db'.
Proof.
  intros Hrun.
  apply notify_sell_inv in Hrun. destruct Hrun as [(-> & _ & ->)|(usd & _ & Hrun)];
    [constructor|].
  pose proof (notify_users_table (_COOLDOWN_SECONDS settings) post now stamp_at trade usd
                db db) as Ht.
  rewrite <- Hrun in Ht. simpl in Ht. rewrite Ht. clear Ht Hrun.
  generalize (List.filter
                (fun u => negb (in_cooldown (_COOLDOWN_SECONDS settings) now u)
                          && confirmed (post u)) db) as ok.
  intros ok. induction db as [|u db IH]; simpl; constructor; [|exact IH].
  destruct (existsb _ ok); unfold user_kept_or_stamped; simpl; auto.
Qed.

(** X10.  A dispatch leaves the table of users with the same users and
    keys, in the same order; a stamp is kept or replaced by the reading
    of the clock for that user.  No row is added or removed, and no
    stamp is cleared. *)
Theorem notify_sell_keeps_users (settings : Config) (post : user -> http_result) (now : Q)
    (stamp_at : Z -> Q) (db : list user) (trade : enriched) :
  match notify_sell settings post now stamp_at db trade with
  | Ok (sent, db') => Forall2 (user_kept_or_stamped stamp_at) db db'
  | Raise _ => True
  end.
Proof.
  destruct (notify_sell settings post now stamp_at db trade) as [[sent db']|] eqn:Hrun;
    [|exact I].
  exact (notify_sell_frame _ _ _ _ _ _ _ _ Hrun).
Qed.

Lemma users_same_ids stamp_at (db db' : list user) :
  Forall2 (user_kept_or_stamped stamp_at) db db' -> map user_id db' = map user_id db.
Proof.
  induction 1 as [|u u' l l' (Hid & _) _ IH]; simpl; [reflexivity|]. now rewrite IH, Hid.
Qed.

(** X11.  The cooldown across two dispatches.  When a dispatch was
    confirmed for a user and stamped the row with a time other than
    zero, a later dispatch sends no request for that user as long as it
    is made before the stamp plus the cooldown. *)
Theorem cooldown_between_notify_sells (settings : Config) (post1 post2 : user -> http_result)
    (now1 now2 : Q) (stamp1 stamp2 : Z -> Q) (db db1 db2 : list user)
    (trade1 trade2 : enriched) (sent1 sent2 : list push) (u : user) :
  List.NoDup (map user_id db) ->
  In u db ->
  in_cooldown (_COOLDOWN_SECONDS settings) now1 u = false ->
  confirmed (post1 u) = true ->
  ~ (stamp1 (user_id u) == 0)%Q ->
  (now2 < stamp1 (user_id u) + _COOLDOWN_SECONDS settings)%Q ->
  notify_sell settings post1 now1 stamp1 db trade1 = Ok (sent1, db1) ->
  notify_sell settings post2 now2 stamp2 db1 trade2 = Ok (sent2, db2) ->
  In u (map push_user sent1)
  /\ forall p, In p sent2 -> user_id (push_user p) <> user_id u.
Proof.
  intros Hnd Hin Hcool Hconf Hnz Hlt Hrun1 Hrun2.
  pose proof (notify_sell_frame _ _ _ _ _ _ _ _ Hrun1) as Hframe.
  assert (Hnd1 : List.NoDup (map user_id db1)).
  { rewrite (users_same_ids stamp1 db db1 Hframe). exact Hnd. }
  destruct (notify_sell_spec settings post1 now1 stamp1 db trade1 sent1 db1 Hnd Hrun1)
    as [Hsent1 Hrow].
  destruct (notify_sell_spec settings post2 now2 stamp2 db1 trade2 sent2 db2 Hnd1 Hrun2)
    as [Hsent2 _].
  split.
  - rewrite Hsent1. apply List.filter_In. split; [exact Hin|]. now rewrite Hcool.
  - intros p Hp Hid.
    assert (Hpu : In (push_user p) (map push_user sent2)) by now apply List.in_map.
    rewrite Hsent2 in Hpu. apply List.filter_In in Hpu. destruct Hpu as [Hpu Hel].
    specialize (Hrow u Hin). rewrite Hcool, Hconf in Hrow. simpl in Hrow.
    pose proof (get_user_In db1 (push_user p) Hnd1 Hpu) as Hsel.
    rewrite Hid, Hrow in Hsel. injection Hsel as Heq.
    assert (Hc : in_cooldown (_COOLDOWN_SECONDS settings) now2 (push_user p) = true).
    { rewrite <- Heq.
      apply (in_cooldown_iff _ now2 (stamped_user u (stamp1 (user_id u)))
               (stamp1 (user_id u))); [reflexivity|exact Hnz|exact Hlt]. }
    rewrite Hc in Hel. discriminate.
Qed.

(** The theorem at two dispatches to one user, at the times 641 and 700
    with a stamp of 642. *)
Lemma cooldown_between_notify_sells_witness :
  In bob (map push_user
            [ {| push_user := bob; push_usd := float_of_decimal false 500 0;
                 push_trade := example_sell |} ])
  /\ forall p, In p [] -> user_id (push_user p) <> user_id bob.
Proof.
  apply (cooldown_between_notify_sells example_settings
           (fun _ => Response 200) (fun _ => Response 200) 641 700
           (fun _ => 642%Q) (fun _ => 701%Q) [bob] [stamped_user bob 642]
           [stamped_user bob 642] example_sell example_sell
           [ {| push_user := bob; push_usd := float_of_decimal false 500 0;
                push_trade := example_sell |} ] [] bob).
  - repeat constructor. intros [].
  - left. reflexivity.
  - reflexivity.
  - reflexivity.
  - vm_compute. discriminate.
  - reflexivity.
  - vm_compute. reflexivity.
  - vm_compute. reflexivity.
Defined.

End PushMore.

(** ** Normalized trades downstream *)

Section Downstream.
Import Py Bot.

Lemma get_raw_of_enriched (trade : gmap string scalar) (k : string) :
  ~ In k helper_keys -> foldr delete trade helper_keys !! k = trade !! k.
Proof.
  intros Hk. unfold helper_keys in *. simpl in *.
  rewrite !lookup_delete_ne by (intros E; apply Hk; rewrite <- E; tauto).
  reflexivity.
Qed.

Lemma enrich_fields account_id_str account_id_int now mk trade t :
  enrich account_id_str account_id_int now mk trade = Ok t ->
  raw t = foldr delete trade helper_keys
  /\ _side t = _resolve_side trade account_id_int
  /\ to_float (or_else (get trade "usd_amount") (SInt 0)) = Ok (_usd t).
Proof.
  unfold enrich. cbv zeta.
  set (r1 := if truthy (get trade "timestamp") then _ else _).
  set (r2 := to_float _).
  destruct r1 as [ts_sec|]; simpl; [|discriminate].
  destruct r2 as [usd|]; simpl; [|discriminate].
  intros [= <-]. simpl. auto.
Qed.

(** X12.  A trade whose record has no usable [usd_amount] is normalized
    with the amount 0.0; for such a trade [notify_sell] falls back on
    the record, and when the field is missing, null or empty the
    conversion of the message body raises before any request is made:
    with users in the table, nobody is notified of that sell. *)
Theorem notify_sell_without_amount (settings : Config) (post : user -> http_result)
    (now : Q) (stamp_at : Z -> Q) (db : list user)
    (account_id_str mk : string) (account_id_int : Z) (received : Q)
    (record : gmap string scalar) (trade : enriched) :
  enrich account_id_str account_id_int received mk record = Ok trade ->
  truthy (get record "usd_amount") = false ->
  db <> [] ->
  raised (notify_sell settings post now stamp_at db trade)
  = match record !! "usd_amount" with
    | Some (SInt _) | Some (SBool _) => false
    | _ => true
    end.
Proof.
  intros Hen Hfalsy Hdb. apply enrich_fields in Hen. destruct Hen as (Hraw & _ & Husd).
  unfold or_else in Husd. rewrite Hfalsy in Husd. injection Husd as Husd.
  unfold notify_sell, get_all_users. destruct db as [|u0 db0]; [congruence|].
  unfold body_usd. rewrite <- Husd. simpl float_truthy. cbv iota.
  unfold get_default. rewrite Hraw, get_raw_of_enriched
    by (unfold helper_keys; simpl; intuition discriminate).
  unfold get in Hfalsy.
  destruct (record !! "usd_amount") as [[|b|n|s]|]; simpl in *.
  - reflexivity.
  - rewrite Hfalsy. reflexivity.
  - apply negb_false_iff, Z.eqb_eq in Hfalsy. subst n. reflexivity.
  - apply negb_false_iff, String.eqb_eq in Hfalsy. subst s. reflexivity.
  - reflexivity.
Qed.

Lemma notify_sell_without_amount_witness :
  raised (notify_sell example_settings (fun _ => Response 200) 641 (fun _ => 642%Q) [bob]
            {| raw := {[ "ask_account_id" := SInt 714638 ]};
               _side := "sell"; _ts := 641; _usd := fzero; _market := "7";
               _account_id := "714638"; _received_at := 641 |})
  = true.
Proof.
  refine (eq_trans
            (notify_sell_without_amount example_settings (fun _ => Response 200) 641
               (fun _ => 642%Q) [bob] "714638" "7" 714638 641
               {[ "ask_account_id" := SInt 714638 ]} _ _ _ _) _).
  - vm_compute. reflexivity.
  - reflexivity.
  - discriminate.
  - reflexivity.
Defined.

Lemma mapM_Ok_In {A B} (f : A -> result B) (l : list A) (ys : list B) (y : B) :
  mapM f l = Ok ys -> In y ys -> exists x, In x l /\ f x = Ok y.
Proof.
  revert ys. induction l as [|x l IH]; intros ys; simpl.
  - intros [= <-] [].
  - destruct (f x) as [y0|] eqn:Hx; simpl; [|discriminate].
    destruct (mapM f l) as [ys0|]; simpl; [|discriminate].
    intros [= <-] [<-|Hin]; [eauto|].
    destruct (IH ys0 eq_refl Hin) as (x' & Hx' & Hf). eauto.
Qed.

Lemma enrich_all_In account_id_str account_id_int now tbm all_trades t :
  enrich_all account_id_str account_id_int now tbm = Ok all_trades ->
  In t all_trades ->
  exists mk records record,
    In (mk, records) tbm /\ In record records
    /\ enrich account_id_str account_id_int now mk record = Ok t.
Proof.
  unfold enrich_all. destruct (mapM _ tbm) as [ls|] eqn:Hm; simpl; [|discriminate].
  intros [= <-] Hin. apply List.in_concat in Hin. destruct Hin as (l & Hl & Ht).
  destruct (mapM_Ok_In _ _ _ _ Hm Hl) as ([mk records] & Hkv & Hrec). simpl in Hrec.
  destruct (mapM_Ok_In _ _ _ _ Hrec Ht) as (record & Hr & Hen).
  exists mk, records, record. auto.
Qed.

Lemma notify_sell_push_trade settings post now stamp_at db trade sent db' p :
  notify_sell settings post now stamp_at db trade = Ok (sent, db') ->
  In p sent -> push_trade p = trade /\ In (push_user p) db.
Proof.
  intros Hrun Hp. apply notify_sell_inv in Hrun.
  destruct Hrun as [(_ & -> & _)|(usd & _ & Hrun)]; [destruct Hp|].
  pose proof (notify_users_pushes (_COOLDOWN_SECONDS settings) post now stamp_at trade usd
                db db) as Hs.
  rewrite <- Hrun in Hs. simpl in Hs. rewrite Hs in Hp.
  apply List.in_map_iff in Hp. destruct Hp as (u & <- & Hu).
  apply List.filter_In in Hu. simpl. tauto.
Qed.

Lemma fire_sell_callbacks_In settings e k sell_trades db p :
  In p (fst (fire_sell_callbacks settings e k sell_trades db)) ->
  In (push_trade p) sell_trades.
Proof.
  revert k db. induction sell_trades as [|t rest IH]; intros k db; simpl; [tauto|].
  destruct (notify_sell settings (http_post e k) (time_notify e k) (time_stamp e k) db t)
    as [[sent db']|] eqn:Hrun.
  - specialize (IH (S k) db').
    destruct (fire_sell_callbacks settings e (S k) rest db') as [sent' db''].
    simpl in *. intros Hin. apply List.in_app_or in Hin. destruct Hin as [Hin|Hin].
    + left. symmetry. eapply notify_sell_push_trade; eassumption.
    + right. auto.
  - specialize (IH (S k) db).
    destruct (fire_sell_callbacks settings e (S k) rest db) as [sent' db''].
    simpl in *. auto.
Qed.

(** X13.  Every request to Pushover made while a message is handled is
    for a trade normalized from a record of that message, and the side
    of that trade is sell: the tracked account is the asking account of
    the record and is not its bidding account.  Buys, trades of unknown
    side and trades of the account with itself never notify anyone. *)
Theorem receive_notifies_sells_only (settings : Config) (e : env) (msg : ws_message)
    (st : state) (p : push) :
  In p (pushes (snd (receive settings e msg st))) ->
  _side (push_trade p) = "sell"
  /\ exists trades_by_market mk records record account_id_int,
       msg = TradesUpdate trades_by_market
       /\ In (mk, records) trades_by_market /\ In record records
       /\ int_of_string (lighter_account_id settings) = Ok account_id_int
       /\ enrich (lighter_account_id settings) account_id_int (time_recv e) mk record
          = Ok (push_trade p)
       /\ eq_int (get record "ask_account_id") account_id_int = true
       /\ eq_int (get record "bid_account_id") account_id_int = false.
Proof.
  unfold receive, _handle_message. destruct msg as [| | |tbm]; simpl; try tauto.
  destruct (int_of_string _) as [account_id_int|]; simpl; [|tauto].
  destruct (enrich_all _ _ _ _) as [all_trades|] eqn:Hall; simpl; [|tauto].
  pose proof (fun p => fire_sell_callbacks_In settings e 0%nat
                         (List.filter is_sell all_trades) (users st) p) as Hcb.
  destruct (fire_sell_callbacks _ _ _ _ _) as [sent db]. simpl in *.
  intros Hp. apply Hcb, List.filter_In in Hp. destruct Hp as [Hin Hsell].
  apply String.eqb_eq in Hsell. split; [exact Hsell|].
  destruct (enrich_all_In _ _ _ _ _ _ Hall Hin) as (mk & records & record & H1 & H2 & H3).
  exists tbm, mk, records, record, account_id_int.
  do 5 (split; [auto; fail|]).
  destruct (enrich_fields _ _ _ _ _ _ H3) as (_ & Hside & _).
  rewrite Hsell in Hside. unfold _resolve_side in Hside.
  destruct (eq_int (get record "bid_account_id") account_id_int); [discriminate|].
  destruct (eq_int (get record "ask_account_id") account_id_int); [auto|discriminate].
Qed.

Lemma receive_notifies_sells_only_witness :
  _side example_sell = "sell"
  /\ exists trades_by_market mk records record account_id_int,
       TradesUpdate [("7", [example_sell_record])] = TradesUpdate trades_by_market
       /\ In (mk, records) trades_by_market /\ In record records
       /\ int_of_string "714638" = Ok account_id_int
       /\ enrich "714638" account_id_int 641 mk record = Ok example_sell
       /\ eq_int (get record "ask_account_id") account_id_int = true
       /\ eq_int (get record "bid_account_id") account_id_int = false.
Proof.
  apply (receive_notifies_sells_only example_settings (example_env 641)
           (TradesUpdate [("7", [example_sell_record])]) one_user_state
           {| push_user := {| user_id := 1; pushover_key := "user-key-0001";
                              last_notification_at := None |};
              push_usd := float_of_decimal false 500 0;
              push_trade := example_sell |}).
  vm_compute. left. reflexivity.
Defined.

End Downstream.

(** ** The report *)

Section ReportMore.
Import Py Bot.

Lemma bind_Ok_r {A} (r : result A) : bind r (fun x => Ok x) = r.
Proof. destruct r; reflexivity. Qed.

Lemma aggregate_app acc l1 l2 :
  aggregate acc (l1 ++ l2) = bind (aggregate acc l1) (fun acc' => aggregate acc' l2).
Proof.
  revert acc. induction l1 as [|x l1 IH]; intros acc; simpl; [reflexivity|].
  destruct (aggregate_step acc x) as [acc'|]; simpl; [apply IH|reflexivity].
Qed.

Lemma filter_existsb_false {A} (f : A -> bool) (l : list A) :
  existsb f l = false -> List.filter f l = [].
Proof.
  induction l as [|x l IH]; simpl; [reflexivity|].
  destruct (f x); simpl; [discriminate|exact IH].
Qed.

Lemma float_sum_snoc l x : float_sum (l ++ [x]) = fadd (float_sum l) (usd_or_zero x).
Proof. unfold float_sum. rewrite map_app, fold_left_app. reflexivity. Qed.

Lemma stats_of_snoc l x :
  stats_of (l ++ [x])
  = if report_buy x then
      {| buy_count := buy_count (stats_of l) + 1; sell_count := sell_count (stats_of l);
         buy_vol := fadd (buy_vol (stats_of l)) (usd_or_zero x);
         sell_vol := sell_vol (stats_of l) |}
    else if report_sell x then
      {| buy_count := buy_count (stats_of l); sell_count := sell_count (stats_of l) + 1;
         buy_vol := buy_vol (stats_of l);
         sell_vol := fadd (sell_vol (stats_of l)) (usd_or_zero x) |}
    else stats_of l.
Proof.
  unfold stats_of. rewrite !List.filter_app. simpl List.filter.
  assert (Hx : report_buy x = true -> report_sell x = false).
  { unfold report_buy, report_sell. intros H. apply String.eqb_eq in H.
    rewrite H. reflexivity. }
  destruct (report_buy x) eqn:Hb.
  - rewrite (Hx eq_refl), !app_nil_r, float_sum_snoc. simpl.
    f_equal. rewrite List.length_app. simpl. lia.
  - destruct (report_sell x) eqn:Hs.
    + rewrite !app_nil_r, float_sum_snoc. simpl.
      f_equal. rewrite List.length_app. simpl. lia.
    + rewrite !app_nil_r. reflexivity.
Qed.

Lemma aggregate_step_inv l t0 x t :
  aggregated l t0 -> aggregate_step t0 x = Ok t ->
  aggregated (l ++ [x]) t /\ usd_of x = Ok (usd_or_zero x).
Proof.
  intros (Hm & Hb & Hs). unfold aggregate_step. cbv zeta.
  destruct (usd_of x) as [usd|] eqn:Husd; simpl; [|discriminate].
  assert (Hu : usd_or_zero x = usd) by (unfold usd_or_zero; now rewrite Husd).
  assert (Hst : default zero_stats (market_stats t0 !! market_of x)
                = stats_of (List.filter (on_market (market_of x)) l)).
  { rewrite Hm. destruct (existsb _ l) eqn:He; [reflexivity|].
    rewrite (filter_existsb_false _ _ He). reflexivity. }
  rewrite Hst. intros Ht. split; [|rewrite Hu; reflexivity].
  assert (Hmkt : forall st' mkt,
             st' = stats_of (List.filter (on_market (market_of x)) (l ++ [x])) ->
             <[market_of x := st']> (market_stats t0) !! mkt
             = if existsb (on_market mkt) (l ++ [x])
               then Some (stats_of (List.filter (on_market mkt) (l ++ [x])))
               else None).
  { intros st' mkt ->. rewrite existsb_app, !List.filter_app.
    simpl existsb. simpl List.filter. rewrite orb_false_r.
    change (on_market (market_of x) x) with (String.eqb (market_of x) (market_of x)).
    change (on_market mkt x) with (String.eqb (market_of x) mkt).
    rewrite String.eqb_refl.
    destruct (String.eqb (market_of x) mkt) eqn:E.
    - apply String.eqb_eq in E. subst mkt. rewrite lookup_insert_eq, orb_true_r.
      reflexivity.
    - apply String.eqb_neq in E. rewrite lookup_insert_ne by exact E.
      rewrite orb_false_r, app_nil_r. apply Hm. }
  assert (Hown : List.filter (on_market (market_of x)) (l ++ [x])
                 = List.filter (on_market (market_of x)) l ++ [x]).
  { rewrite List.filter_app. simpl List.filter.
    change (on_market (market_of x) x) with (String.eqb (market_of x) (market_of x)).
    rewrite String.eqb_refl. reflexivity. }
  rewrite Hown, stats_of_snoc in Hmkt. unfold report_buy, report_sell in Hmkt.
  unfold aggregated. rewrite !List.filter_app. simpl List.filter.
  unfold report_buy at 2. unfold report_sell at 2.
  destruct (String.eqb (_side x) "buy") eqn:Eb.
  - injection Ht as <-. simpl. split; [|split].
    + intros mkt. apply Hmkt. rewrite Hu. reflexivity.
    + rewrite float_sum_snoc, Hb, Hu. reflexivity.
    + apply String.eqb_eq in Eb. rewrite Eb. simpl. rewrite app_nil_r. exact Hs.
  - destruct (String.eqb (_side x) "sell") eqn:Es.
    + injection Ht as <-. simpl. split; [|split].
      * intros mkt. apply Hmkt. rewrite Hu. reflexivity.
      * rewrite app_nil_r. exact Hb.
      * rewrite float_sum_snoc, Hs, Hu. reflexivity.
    + injection Ht as <-. simpl. split; [|split].
      * intros mkt. apply Hmkt. reflexivity.
      * rewrite app_nil_r. exact Hb.
      * rewrite app_nil_r. exact Hs.
Qed.

Lemma aggregate_inv trades t :
  aggregate no_totals trades = Ok t ->
  aggregated trades t /\ forall trade, In trade trades -> usd_of trade = Ok (usd_or_zero trade).
Proof.
  revert t. induction trades as [|x l IH] using rev_ind; intros t.
  - simpl. intros [= <-]. split; [|intros ? []].
    split; [intros mkt; apply lookup_empty|split; reflexivity].
  - rewrite aggregate_app. destruct (aggregate no_totals l) as [t0|]; simpl; [|discriminate].
    rewrite bind_Ok_r. intros Hstep. destruct (IH t0 eq_refl) as [Hagg Husd].
    destruct (aggregate_step_inv l t0 x t Hagg Hstep) as [Hagg' Hx].
    split; [exact Hagg'|]. intros trade Hin. apply List.in_app_or in Hin.
    destruct Hin as [Hin|[<-|[]]]; auto.
Qed.

(** X14.  When the aggregation loop of the report ends, [market_stats]
    has an entry exactly for the markets that have a trade in the
    window; the entry of a market counts its buys and its sells and
    holds the float sums of their amounts in the order of the window,
    and the two totals are the float sums over all buys and over all
    sells.  Trades of any other side count in no number, yet their
    market has an entry. *)
Theorem aggregate_per_market (trades : list enriched) (t : totals) :
  aggregate no_totals trades = Ok t ->
  (forall mkt,
     market_stats t !! mkt
     = if existsb (on_market mkt) trades
       then Some (stats_of (List.filter (on_market mkt) trades))
       else None)
  /\ total_buy_volume t = float_sum (List.filter report_buy trades)
  /\ total_sell_volume t = float_sum (List.filter report_sell trades)
  /\ forall trade, In trade trades -> usd_of trade = Ok (usd_or_zero trade).
Proof.
  intros Hagg. apply aggregate_inv in Hagg. destruct Hagg as [(H1 & H2 & H3) H4]. auto.
Qed.

Lemma aggregate_per_market_witness :
  (forall mkt,
     market_stats
       {| market_stats := {[ "7" := {| buy_count := 0; sell_count := 1; buy_vol := fzero;
                                      sell_vol := float_of_decimal false 500 0 |} ]};
          total_buy_volume := fzero;
          total_sell_volume := float_of_decimal false 500 0 |} !! mkt
     = if existsb (on_market mkt) [example_sell]
       then Some (stats_of (List.filter (on_market mkt) [example_sell]))
       else None)
  /\ fzero = float_sum (List.filter report_buy [example_sell])
  /\ float_of_decimal false 500 0 = float_sum (List.filter report_sell [example_sell])
  /\ forall trade, In trade [example_sell] -> usd_of trade = Ok (usd_or_zero trade).
Proof.
  apply (aggregate_per_market [example_sell]). vm_compute. reflexivity.
Defined.

End ReportMore.

(** ** The lines of the report and the trades behind them *)

Section ReportLines.
Import Py Bot.

Lemma size_gt_1 {A} (m : gmap string A) (k : string) (v : A) :
  m !! k = Some v ->
  (1 < size m)%nat <-> exists k', k' <> k /\ is_Some (m !! k').
Proof.
  intros Hk.
  assert (Hne : size m <> 0%nat) by (apply map_size_ne_0_lookup; eauto).
  pose proof (map_size_delete_Some k m (mk_is_Some _ _ Hk)) as Hd.
  assert (Hiff : (1 < size m)%nat <-> size (delete k m) <> 0%nat) by lia.
  rewrite Hiff, map_size_ne_0_lookup. split.
  - intros (k' & [x Hx]). apply lookup_delete_Some in Hx. destruct Hx as [Hkk Hx].
    exists k'. split; [congruence|eauto].
  - intros (k' & Hk' & [x Hx]). exists k', x. apply lookup_delete_Some. auto.
Qed.

Lemma sorted_items_In (m : gmap string stats) (mkt : string) (s : stats) :
  In (mkt, s) (sorted_items m) <-> m !! mkt = Some s.
Proof.
  unfold sorted_items. rewrite sorted_by_In, <- list_elem_of_In, elem_of_map_to_list.
  reflexivity.
Qed.

Lemma Market_in_report settings now_utc t mkt s :
  In (Market mkt s) (report_lines settings now_utc t)
  <-> (1 < size (market_stats t))%nat /\ market_stats t !! mkt = Some s.
Proof.
  unfold report_lines. rewrite List.in_app_iff. simpl.
  destruct (1 <? size (market_stats t))%nat eqn:Hsize.
  - apply Nat.ltb_lt in Hsize. simpl. rewrite List.in_map_iff. split.
    + intros [H|[H|[H|H]]]; try (intuition discriminate).
      destruct H as ([k v] & [= -> ->] & Hin). apply sorted_items_In in Hin. auto.
    + intros [_ Hm]. right. right. right. exists (mkt, s). split; [reflexivity|].
      now apply sorted_items_In.
  - apply Nat.ltb_ge in Hsize. simpl. split; [intuition discriminate|]. intros [H _]. lia.
Qed.

Lemma aggregated_lookup trades t mkt :
  aggregated trades t ->
  forall s, market_stats t !! mkt = Some s
            <-> s = stats_of (List.filter (on_market mkt) trades)
                /\ exists a, In a trades /\ market_of a = mkt.
Proof.
  intros (Hm & _) s. rewrite Hm.
  destruct (existsb (on_market mkt) trades) eqn:He.
  - apply List.existsb_exists in He. destruct He as (a & Ha & Hon).
    apply String.eqb_eq in Hon. split.
    + intros [= <-]. eauto.
    + intros [-> _]. reflexivity.
  - split; [discriminate|]. intros (_ & a & Ha & Hon).
    assert (existsb (on_market mkt) trades = true); [|congruence].
    apply List.existsb_exists. exists a. split; [exact Ha|]. now apply String.eqb_eq.
Qed.

(** X15.  In a report that is sent, a market has a line exactly when a
    trade of the window is on that market and a trade of the window is
    on another market; the line then shows the statistics of the trades
    of that market. *)
Theorem report_market_lines (member_leb : enriched -> enriched -> bool) (settings : Config)
    (store : zset) (now : Q) (now_utc : string) (msg : telegram_message) (mkt : string)
    (s : stats) :
  _post_trade_report member_leb settings true (Some store) now now_utc = Ok [msg] ->
  let trades :=
    get_recent_trades member_leb now store
      (Some (inject_Z (report_interval_minutes settings * 60))) in
  In (Market mkt s) (text msg)
  <-> s = stats_of (List.filter (on_market mkt) trades)
      /\ (exists a, In a trades /\ market_of a = mkt)
      /\ (exists b, In b trades /\ market_of b <> mkt).
Proof.
  unfold _post_trade_report. simpl negb. cbv iota. cbv zeta.
  set (trades := get_recent_trades member_leb now store _).
  destruct trades as [|t0 rest] eqn:Htr; [discriminate|]. rewrite <- Htr. clear Htr.
  destruct (aggregate no_totals trades) as [t|] eqn:Hagg; simpl; [|discriminate].
  intros [= <-]. simpl text. apply aggregate_inv in Hagg. destruct Hagg as [Hagg _].
  rewrite Market_in_report. split.
  - intros [Hsize Hm]. pose proof Hm as Hm'.
    apply (aggregated_lookup trades t mkt Hagg) in Hm'. destruct Hm' as [Hs Ha].
    split; [exact Hs|]. split; [exact Ha|].
    apply (size_gt_1 _ _ _ Hm) in Hsize. destruct Hsize as (k' & Hk' & [s' Hs']).
    apply (aggregated_lookup trades t k' Hagg) in Hs'. destruct Hs' as (_ & b & Hb & Hmb).
    exists b. split; [exact Hb|]. congruence.
  - intros (Hs & Ha & b & Hb & Hmb).
    assert (Hm : market_stats t !! mkt = Some s)
      by (apply (aggregated_lookup trades t mkt Hagg); auto).
    split; [|exact Hm]. apply (size_gt_1 _ _ _ Hm). exists (market_of b).
    split; [exact Hmb|]. exists (stats_of (List.filter (on_market (market_of b)) trades)).
    apply (aggregated_lookup trades t (market_of b) Hagg). eauto.
Qed.

Lemma report_market_lines_witness :
  In (Market "9" {| buy_count := 1; sell_count := 0;
                    buy_vol := float_of_decimal false 100 0; sell_vol := fzero |})
     (text two_markets_message)
  <-> {| buy_count := 1; sell_count := 0;
         buy_vol := float_of_decimal false 100 0; sell_vol := fzero |}
      = stats_of (List.filter (on_market "9")
                    (get_recent_trades by_receipt 300 two_markets_store
                       (Some (inject_Z (5 * 60)))))
      /\ (exists a, In a (get_recent_trades by_receipt 300 two_markets_store
                            (Some (inject_Z (5 * 60))))
                    /\ market_of a = "9")
      /\ (exists b, In b (get_recent_trades by_receipt 300 two_markets_store
                            (Some (inject_Z (5 * 60))))
                    /\ market_of b <> "9").
Proof.
  apply (report_market_lines by_receipt example_settings two_markets_store 300 "12:00 UTC"
           two_markets_message "9").
  vm_compute. reflexivity.
Defined.

Lemma aggregate_returns trades :
  (forall trade, In trade trades -> exists usd, usd_of trade = Ok usd) ->
  forall acc, exists t, aggregate acc trades = Ok t.
Proof.
  induction trades as [|x l IH]; intros Hall acc; simpl; [eauto|].
  destruct (Hall x (or_introl eq_refl)) as [usd Husd].
  assert (Hstep : exists acc', aggregate_step acc x = Ok acc').
  { unfold aggregate_step. cbv zeta. rewrite Husd. simpl.
    destruct (String.eqb (_side x) "buy"); [eauto|].
    destruct (String.eqb (_side x) "sell"); eauto. }
  destruct Hstep as [acc' ->]. simpl. apply IH. intros trade Hin. apply Hall. now right.
Qed.

Lemma enrich_usd_of account_id_str account_id_int now mk record t :
  enrich account_id_str account_id_int now mk record = Ok t ->
  usd_of (member_of t) = Ok (_usd t) /\ _usd (member_of t) = _usd t.
Proof.
  intros Hen. apply enrich_fields in Hen. destruct Hen as (Hraw & _ & Husd).
  assert (Hget : forall r : gmap string scalar,
             r = raw t \/ r = delete "_member_id" (raw t) ->
             get r "usd_amount" = get record "usd_amount").
  { intros r [->| ->]; unfold get; [|rewrite lookup_delete_ne by discriminate];
      rewrite Hraw, get_raw_of_enriched by (unfold helper_keys; simpl; intuition discriminate);
      reflexivity. }
  unfold member_of, usd_of. destruct (truthy (get (raw t) "trade_id")); simpl;
    (split; [|reflexivity]); destruct (float_truthy (_usd t)); try reflexivity;
    rewrite Hget by auto; exact Husd.
Qed.

Lemma store_trades_In now store trades m :
  In m (map fst (store_trades now store trades)) ->
  In m (map fst store) \/ In m (map member_of trades).
Proof.
  unfold store_trades. destruct trades as [|t trades]; [auto|].
  unfold zadd. rewrite fold_assign_members, mapping_members.
  intros [H|[[]|H]]; auto.
Qed.

Lemma receive_usd_known settings e msg st :
  (forall m, In m (map fst (redis st)) -> usd_of m = Ok (_usd m)) ->
  forall m, In m (map fst (redis (fst (receive settings e msg st)))) ->
            usd_of m = Ok (_usd m).
Proof.
  intros Hst. unfold receive, _handle_message.
  destruct msg as [| | |tbm]; try exact Hst.
  destruct (int_of_string _) as [account_id_int|]; [|exact Hst]. simpl bind.
  destruct (enrich_all _ _ _ _) as [all_trades|] eqn:Hall; [|exact Hst]. simpl bind.
  destruct (fire_sell_callbacks _ _ _ _ _) as [sent db]. simpl.
  destruct all_trades as [|t0 rest] eqn:Hl; [exact Hst|]. rewrite <- Hl in *. clear Hl.
  intros m Hin. apply List.in_map_iff in Hin. destruct Hin as ([m' s] & Hm & Hin).
  simpl in Hm. subst m'. apply purge_old_trades_In in Hin. destruct Hin as [Hin _].
  apply (List.in_map fst) in Hin. simpl in Hin. apply store_trades_In in Hin.
  destruct Hin as [Hin|Hin]; [auto|].
  apply List.in_map_iff in Hin. destruct Hin as (t & <- & Ht).
  destruct (enrich_all_In _ _ _ _ _ _ Hall Ht) as (mk & records & record & _ & _ & Hen).
  apply enrich_usd_of in Hen. destruct Hen as [-> ->]. reflexivity.
Qed.

(** X16.  Whatever messages the socket delivers, for every trade of a
    sorted set that started empty the report reads the amount the
    normalizer computed, and a tick of the report does not raise: a
    record that cannot be converted never reaches the store. *)
Theorem _post_trade_report_on_received (member_leb : enriched -> enriched -> bool)
    (settings : Config) (msgs : list (env * ws_message)) (db : list user) (bot_ref : bool)
    (now : Q) (now_utc : string) :
  let store := redis (fst (_receive_loop settings msgs {| redis := []; users := db |})) in
  (forall m, In m (map fst store) -> usd_of m = Ok (_usd m))
  /\ raised (_post_trade_report member_leb settings bot_ref (Some store) now now_utc)
     = false.
Proof.
  assert (H : forall st, (forall m, In m (map fst (redis st)) -> usd_of m = Ok (_usd m)) ->
                         forall m, In m (map fst (redis (fst (_receive_loop settings msgs st)))) ->
                                   usd_of m = Ok (_usd m)).
  { induction msgs as [|[e msg] msgs IH]; intros st Hst; simpl; [exact Hst|].
    pose proof (receive_usd_known settings e msg st Hst) as H1.
    destruct (receive settings e msg st) as [st' eff]. simpl in H1.
    specialize (IH st' H1). destruct (_receive_loop settings msgs st') as [st'' effs].
    exact IH. }
  specialize (H {| redis := []; users := db |} (fun m (Hin : In m []) => match Hin with end)).
  cbv zeta. split; [exact H|].
  unfold _post_trade_report. destruct (negb bot_ref); [reflexivity|].
  set (trades := get_recent_trades member_leb now _ _).
  assert (Hall : forall trade, In trade trades -> exists usd, usd_of trade = Ok usd).
  { intros trade Hin. unfold trades, get_recent_trades in Hin.
    apply zrangebyscore_In in Hin. destruct Hin as (s & Hin & _).
    apply (List.in_map fst) in Hin. eauto. }
  destruct (aggregate_returns trades Hall no_totals) as [t Ht].
  destruct trades as [|t0 rest]; [reflexivity|]. rewrite Ht. reflexivity.
Qed.

End ReportLines.

(** ** The report, as claimed *)

Section ReportClaim.
Import Py Bot.

Lemma aggregate_raises trades :
  (exists trade, In trade trades /\ raised (usd_of trade) = true) ->
  forall acc, raised (aggregate acc trades) = true.
Proof.
  induction trades as [|x l IH]; intros (trade & Hin & Hr) acc; [destruct Hin|].
  simpl. unfold aggregate_step. cbv zeta.
  destruct (usd_of x) as [usd|] eqn:Hx; [|reflexivity]. simpl.
  assert (Hl : exists trade, In trade l /\ raised (usd_of trade) = true).
  { destruct Hin as [<-|Hin]; [rewrite Hx in Hr; discriminate|eauto]. }
  destruct (String.eqb (_side x) "buy"); [apply IH, Hl|].
  destruct (String.eqb (_side x) "sell"); apply IH, Hl.
Qed.

Lemma sorted_items_lines trades t :
  aggregated trades t ->
  map (fun kv => Market (fst kv) (snd kv)) (sorted_items (market_stats t))
  = map (fun mkt => Market mkt (stats_of (List.filter (on_market mkt) trades)))
      (map fst (sorted_items (market_stats t))).
Proof.
  intros Hagg. rewrite map_map. apply List.map_ext_in. intros [mkt s] Hin.
  apply sorted_items_In in Hin. apply (aggregated_lookup trades t mkt Hagg) in Hin.
  destruct Hin as [-> _]. reflexivity.
Qed.

Lemma sorted_items_length (m : gmap string stats) : length (sorted_items m) = size m.
Proof.
  unfold sorted_items. rewrite (Permutation_length (sorted_by_perm _ _)).
  apply length_map_to_list.
Qed.

(** C8, as the code has it.  With the bot set and Redis readable, a tick
    sends nothing when the window holds no trade.  Otherwise it raises
    when the amount of a trade of the window does not convert, and else
    sends exactly one message, to the channel: the title, the account,
    the window, the float sums of the amounts of the buys and of the
    sells of the window, and a per-market breakdown only when the window
    has trades of more than one market; the breakdown has one line for
    each market of the window, with the statistics of its trades, in
    ascending order of the market identifiers compared as strings. *)
Theorem C8_report_emission (member_leb : enriched -> enriched -> bool) (settings : Config)
    (store : zset) (now : Q) (now_utc : string) :
  let window := inject_Z (report_interval_minutes settings * 60) in
  let trades := get_recent_trades member_leb now store (Some window) in
  let report := _post_trade_report member_leb settings true (Some store) now now_utc in
  (trades = [] -> report = Ok [])
  /\ (trades <> [] ->
      (exists trade, In trade trades /\ raised (usd_of trade) = true) ->
      raised report = true)
  /\ (trades <> [] ->
      (forall trade, In trade trades -> raised (usd_of trade) = false) ->
      exists markets,
        report
        = Ok [ {| chat_id := telegram_channel_id settings;
                  text :=
                    [ Title now_utc;
                      Account (lighter_account_id settings);
                      Window (report_interval_minutes settings);
                      Blank;
                      TotalBuy (float_sum (List.filter report_buy trades));
                      TotalSell (float_sum (List.filter report_sell trades)) ]
                    ++ (if (1 <? length markets)%nat
                        then [Blank; BreakdownHeader]
                             ++ map (fun mkt =>
                                       Market mkt
                                         (stats_of (List.filter (on_market mkt) trades)))
                                  markets
                        else []) |} ]
        /\ (forall mkt, In mkt markets
                        <-> exists trade, In trade trades /\ market_of trade = mkt)
        /\ StronglySorted (fun a b => String.leb a b = true) markets
        /\ List.NoDup markets).
Proof.
  intros window trades report. unfold report, _post_trade_report. simpl negb. cbv iota.
  fold window. fold trades. split; [|split].
  - intros ->. reflexivity.
  - intros Hne Hbad. destruct trades as [|t0 rest] eqn:Htr; [congruence|].
    pose proof (aggregate_raises (t0 :: rest) Hbad no_totals) as Hr.
    destruct (aggregate no_totals (t0 :: rest)); [discriminate|reflexivity].
  - intros Hne Hgood.
    assert (Hall : forall trade, In trade trades -> exists usd, usd_of trade = Ok usd).
    { intros trade Hin. specialize (Hgood trade Hin).
      destruct (usd_of trade) as [usd|]; [eauto|discriminate]. }
    destruct (aggregate_returns trades Hall no_totals) as [t Ht].
    destruct (aggregate_inv trades t Ht) as [Hagg _].
    destruct trades as [|t0 rest] eqn:Htr; [congruence|]. rewrite <- Htr in *.
    rewrite Ht. simpl bind.
    exists (map fst (sorted_items (market_stats t))).
    split; [|split; [|split]].
    + unfold report_lines. destruct Hagg as (Hm & Hb & Hs). rewrite Hb, Hs.
      rewrite List.length_map, sorted_items_length.
      rewrite (sorted_items_lines trades t (conj Hm (conj Hb Hs))). reflexivity.
    + intros mkt. rewrite List.in_map_iff. split.
      * intros ([k s] & <- & Hin). apply sorted_items_In in Hin.
        apply (aggregated_lookup trades t k Hagg) in Hin. tauto.
      * intros Hex. exists (mkt, stats_of (List.filter (on_market mkt) trades)).
        split; [reflexivity|]. apply sorted_items_In.
        apply (aggregated_lookup trades t mkt Hagg). auto.
    + apply sorted_items_sorted.
    + apply sorted_items_NoDup.
Qed.

(** The theorem at the window of the scenario: a buy of 100 USD and
    sells of 50 and 25 USD on the one market M1.  The report has the
    totals 100 and 75 and no line for M1. *)
Lemma C8_scenario_witness :
  exists msg,
    _post_trade_report by_receipt example_settings true (Some scenario_store) 300 "12:00 UTC"
    = Ok [msg]
    /\ chat_id msg = "@whales"
    /\ In (TotalBuy (S754_finite false 7036874417766400 (-46))) (text msg)
    /\ In (TotalSell (S754_finite false 5277655813324800 (-46))) (text msg)
    /\ breakdown_markets (text msg) = [].
Proof.
  destruct (C8_report_emission by_receipt example_settings scenario_store 300 "12:00 UTC")
    as (_ & _ & H).
  destruct H as (markets & Hrep & Hmk & _ & Hnd).
  - vm_compute. discriminate.
  - intros trade Hin. vm_compute in Hin.
    repeat (destruct Hin as [<-|Hin]; [vm_compute; reflexivity|]). destruct Hin.
  - assert (Hone : forall mkt, In mkt markets -> mkt = "M1").
    { intros mkt Hin. apply Hmk in Hin. destruct Hin as (trade & Hin & <-).
      vm_compute in Hin.
      repeat (destruct Hin as [<-|Hin]; [vm_compute; reflexivity|]). destruct Hin. }
    assert (Hlen : (1 <? length markets)%nat = false).
    { apply Nat.ltb_ge. destruct markets as [|a [|b l]]; simpl; try lia.
      exfalso. inversion Hnd as [|? ? Hna _]. apply Hna.
      rewrite (Hone a), (Hone b) by (simpl; auto). now left. }
    rewrite Hlen in Hrep. eexists. split; [exact Hrep|]. simpl chat_id. simpl text.
    split; [reflexivity|].
    split; [do 4 right; left; vm_compute; reflexivity|].
    split; [do 5 right; left; vm_compute; reflexivity|].
    reflexivity.
Defined.

(** Market identifiers are compared as strings: market 10 comes before
    market 9. *)
Example two_markets_report :
  _post_trade_report by_receipt example_settings true (Some two_markets_store) 300 "12:00 UTC"
  = Ok [ {| chat_id := "@whales";
            text := [ Title "12:00 UTC"; Account "714638"; Window 5; Blank;
                      TotalBuy (S754_finite false 7036874417766400 (-46));
                      TotalSell (S754_finite false 7036874417766400 (-47));
                      Blank; BreakdownHeader;
                      Market "10" {| buy_count := 0; sell_count := 1;
                                     buy_vol := S754_zero false;
                                     sell_vol := S754_finite false 7036874417766400 (-47) |};
                      Market "9" {| buy_count := 1; sell_count := 0;
                                    buy_vol := S754_finite false 7036874417766400 (-46);
                                    sell_vol := S754_zero false |} ] |} ].
Proof. vm_compute. reflexivity. Qed.

(** Buys of 0.1 and 0.2 USD are reported as 0.30000000000000004, which
    is not the float of 0.3. *)
Example tenths_report :
  exists msg,
    _post_trade_report by_receipt example_settings true (Some tenths_store) 100 "12:00 UTC"
    = Ok [msg]
    /\ In (TotalBuy (S754_finite false 5404319552844596 (-54))) (text msg)
    /\ float_of_string "0.3" = Ok (S754_finite false 5404319552844595 (-54)).
Proof.
  eexists. split; [vm_compute; reflexivity|].
  split; [simpl; tauto|vm_compute; reflexivity].
Qed.

(** C8, against the claim as written: for the window of the scenario the
    report is sent, and it has no per-market line for M1. *)
Lemma C8_single_market_no_breakdown :
  exists msg,
    _post_trade_report by_receipt example_settings true (Some scenario_store) 300 "12:00 UTC"
    = Ok [msg]
    /\ ~ exists s, In (Market "M1" s) (text msg).
Proof.
  eexists. split; [vm_compute; reflexivity|].
  intros [s Hin]. simpl in Hin.
  repeat (destruct Hin as [Hin|Hin]; [discriminate|]). exact Hin.
Qed.

End ReportClaim.

(** ** Subscribing again *)

Section Resubscribe.

Lemma existsb_filter_negb {A} (f : A -> bool) (l : list A) :
  existsb f (List.filter (fun x => negb (f x)) l) = false.
Proof.
  induction l as [|x l IH]; simpl; [reflexivity|].
  destruct (f x) eqn:Hx; simpl; [exact IH|]. now rewrite Hx.
Qed.

(** X17.  A user who unsubscribes and subscribes again has a row without
    a stamp, whatever stamp the old row had: [notify_sell] sends the
    next sell to the new key without regard to the cooldown. *)
Theorem resubscribed_user_is_notified (settings : Bot.Config)
    (post : Bot.user -> Bot.http_result) (now : Q) (stamp_at : Z -> Q)
    (db : list Bot.user) (uid : Z) (key : string) (trade : Bot.enriched) (usd : Py.float) :
  Bot.body_usd trade = Py.Ok usd ->
  let db1 := Bot.upsert_user (fst (Bot.delete_user db uid)) uid key in
  Bot.get_user db1 uid
  = Some {| Bot.user_id := uid; Bot.pushover_key := key; Bot.last_notification_at := None |}
  /\ exists sent db2,
       Bot.notify_sell settings post now stamp_at db1 trade = Py.Ok (sent, db2)
       /\ In {| Bot.push_user := {| Bot.user_id := uid; Bot.pushover_key := key;
                                    Bot.last_notification_at := None |};
                Bot.push_usd := usd; Bot.push_trade := trade |} sent.
Proof.
  intros Husd db1.
  set (new := {| Bot.user_id := uid; Bot.pushover_key := key;
                 Bot.last_notification_at := None |}).
  set (kept := List.filter (fun u => negb (Bot.user_id u =? uid)) db).
  assert (Hdb1 : db1 = kept ++ [new]).
  { unfold db1, Bot.upsert_user, Bot.delete_user. cbv zeta. simpl fst. fold kept.
    unfold kept at 1. rewrite (existsb_filter_negb (fun u => Bot.user_id u =? uid) db).
    reflexivity. }
  assert (Hkept : List.find (fun u => Bot.user_id u =? uid) kept = None).
  { destruct (List.find _ kept) as [u|] eqn:Hf; [|reflexivity].
    apply List.find_some in Hf. destruct Hf as [Hin Hu].
    apply List.filter_In in Hin. destruct Hin as [_ Hn]. rewrite Hu in Hn. discriminate. }
  split.
  - rewrite Hdb1. unfold Bot.get_user.
    assert (Hfind : forall l, List.find (fun u => Bot.user_id u =? uid) l = None ->
                              List.find (fun u => Bot.user_id u =? uid) (l ++ [new]) = Some new).
    { induction l as [|x l IH]; simpl.
      - intros _. now rewrite Z.eqb_refl.
      - destruct (Bot.user_id x =? uid); [discriminate|exact IH]. }
    apply Hfind, Hkept.
  - clearbody db1 kept. subst db1.
    exists (fst (Bot.notify_users (Bot._COOLDOWN_SECONDS settings) post now stamp_at trade usd
                   (kept ++ [new]) (kept ++ [new]))),
           (snd (Bot.notify_users (Bot._COOLDOWN_SECONDS settings) post now stamp_at trade usd
                   (kept ++ [new]) (kept ++ [new]))).
    split.
    + unfold Bot.notify_sell, Bot.get_all_users. rewrite Husd.
      destruct (kept ++ [new]) as [|u0 rest] eqn:E.
      * destruct kept; simpl in E; discriminate E.
      * cbn [Py.bind]. now rewrite <- surjective_pairing.
    + rewrite notify_users_pushes. apply List.in_map_iff. exists new. split; [reflexivity|].
      apply List.filter_In. split; [|reflexivity].
      apply List.in_or_app. right. now left.
Qed.

Lemma resubscribed_user_is_notified_witness :
  Bot.get_user
    (Bot.upsert_user
       (fst (Bot.delete_user [stamped_user bob 600] (Bot.user_id bob))) (Bot.user_id bob)
       "user-key-0002")
    (Bot.user_id bob)
  = Some {| Bot.user_id := Bot.user_id bob; Bot.pushover_key := "user-key-0002";
            Bot.last_notification_at := None |}
  /\ exists sent db2,
       Bot.notify_sell example_settings (fun _ => Bot.Response 200) 641 (fun _ => 642%Q)
         (Bot.upsert_user
            (fst (Bot.delete_user [stamped_user bob 600] (Bot.user_id bob))) (Bot.user_id bob)
            "user-key-0002")
         example_sell
       = Py.Ok (sent, db2)
       /\ In {| Bot.push_user := {| Bot.user_id := Bot.user_id bob;
                                    Bot.pushover_key := "user-key-0002";
                                    Bot.last_notification_at := None |};
                Bot.push_usd := Py.float_of_decimal false 500 0;
                Bot.push_trade := example_sell |} sent.
Proof.
  apply (resubscribed_user_is_notified example_settings (fun _ => Bot.Response 200) 641
           (fun _ => 642%Q) [stamped_user bob 600] (Bot.user_id bob) "user-key-0002"
           example_sell (Py.float_of_decimal false 500 0)).
  vm_compute. reflexivity.
Defined.

Lemma reached_app send (l l' : list LighterBot.Subscription) :
  (forall s, In s l -> Py.raised (send s) = false) ->
  reached send (l ++ l') = l ++ reached send l'.
Proof.
  induction l as [|x l IH]; simpl; intros H; [reflexivity|].
  rewrite (H x) by auto. f_equal. apply IH. auto.
Qed.

(** X18.  The same in the poll variant: after [delete_subscription] and
    [upsert_subscription] the row of the user has the new key and no
    stamp, and it is the last row of the table.  The next dispatch calls
    Pushover for the new key, whatever the clock reads, when no call of
    [send_sell_notification] for another eligible subscriber raises. *)
Theorem resubscribed_row_is_eligible (settings : LighterBot.Settings) (e : LighterBot.env)
    (trade : LighterBot.Trade) (w : LighterBot.World) (uid : Z) (key : string) :
  let k := LighterBot.dispatches w in
  let cutoff :=
    LighterBot.query_time e k
    - LighterBot.minutes (LighterBot.notification_cooldown_minutes settings) in
  let db1 :=
    LighterBot.upsert_subscription
      (fst (LighterBot.delete_subscription (LighterBot.subscriptions w) uid)) uid key in
  let w1 := {| LighterBot.state_file := LighterBot.state_file w;
               LighterBot.subscriptions := db1;
               LighterBot.outbox := LighterBot.outbox w;
               LighterBot.dispatches := k |} in
  (forall r, In r (LighterBot.subscriptions w) -> LighterBot.row_user_id r <> uid ->
             LighterBot.eligible cutoff r = true ->
             Py.raised (LighterBot.delivered e k (subscription_of r)) = false) ->
  select_row db1 uid
  = Some {| LighterBot.row_user_id := uid; LighterBot.row_pushover_user_key := key;
            LighterBot.last_notification_at := None |}
  /\ In (LighterBot.Pushover key trade)
        (LighterBot.outbox (snd (LighterBot._send_pushover_sell_alert settings e trade w1))).
Proof.
  intros k cutoff db1 w1 Hothers.
  set (new := {| LighterBot.row_user_id := uid; LighterBot.row_pushover_user_key := key;
                 LighterBot.last_notification_at := None |}).
  set (kept := List.filter (fun r => negb (LighterBot.row_user_id r =? uid))
                 (LighterBot.subscriptions w)).
  assert (Hdb1 : db1 = kept ++ [new]).
  { unfold db1, LighterBot.upsert_subscription, LighterBot.delete_subscription.
    cbv zeta. simpl fst. fold kept. unfold kept at 1.
    rewrite (existsb_filter_negb (fun r => LighterBot.row_user_id r =? uid)).
    reflexivity. }
  split.
  - rewrite Hdb1. unfold select_row.
    assert (Hkept : List.find (fun r => LighterBot.row_user_id r =? uid) kept = None).
    { destruct (List.find _ kept) as [r|] eqn:Hf; [|reflexivity].
      apply List.find_some in Hf. destruct Hf as [Hin Hr].
      apply List.filter_In in Hin. destruct Hin as [_ Hn]. rewrite Hr in Hn. discriminate. }
    revert Hkept. generalize kept. intros l. induction l as [|x l IH]; simpl.
    + intros _. now rewrite Z.eqb_refl.
    + destruct (LighterBot.row_user_id x =? uid); [discriminate|exact IH].
  - destruct (_send_pushover_sell_alert_spec settings e trade w1) as [Hout _].
    cbv zeta in Hout. rewrite Hout. apply List.in_or_app. right.
    apply List.in_map_iff. exists (subscription_of new). split; [reflexivity|].
    cbn [LighterBot.subscriptions LighterBot.dispatches w1]. fold k cutoff.
    rewrite Hdb1, List.filter_app, List.map_app, reached_app.
    + apply List.in_or_app. right. simpl. now left.
    + intros s Hs. apply List.in_map_iff in Hs. destruct Hs as (r & <- & Hr).
      apply List.filter_In in Hr. destruct Hr as [Hr Hel].
      apply List.filter_In in Hr. destruct Hr as [Hr Hid].
      apply Hothers; [exact Hr| |exact Hel].
      intros E. apply Z.eqb_eq in E. rewrite E in Hid. discriminate.
Qed.

(** The theorem for the second subscriber of the table of two, stamped
    and subscribing again with another key. *)
Lemma resubscribed_row_is_eligible_witness :
  let db1 :=
    LighterBot.upsert_subscription
      (fst (LighterBot.delete_subscription
              [alice_row; stamped_row bob_row 990] 2)) 2 "user-key-0002" in
  let w1 := {| LighterBot.state_file := None;
               LighterBot.subscriptions := db1;
               LighterBot.outbox := [];
               LighterBot.dispatches := 0 |} in
  select_row db1 2
  = Some {| LighterBot.row_user_id := 2; LighterBot.row_pushover_user_key := "user-key-0002";
            LighterBot.last_notification_at := None |}
  /\ In (LighterBot.Pushover "user-key-0002" poll_sell)
        (LighterBot.outbox
           (snd (LighterBot._send_pushover_sell_alert poll_settings poll_env_failing_alice
                   poll_sell w1))).
Proof.
  apply (resubscribed_row_is_eligible poll_settings poll_env_failing_alice poll_sell
           {| LighterBot.state_file := None;
              LighterBot.subscriptions := [alice_row; stamped_row bob_row 990];
              LighterBot.outbox := [];
              LighterBot.dispatches := 0 |} 2 "user-key-0002").
  intros r _ _ _. reflexivity.
Defined.

End Resubscribe.

(** ** The retry loops of the HTTP clients *)

Section ClientsMore.
Import Py Http.

Lemma In_range (a b x : Z) : In x (range a b) <-> a <= x < b.
Proof.
  unfold range. rewrite List.in_map_iff. split.
  - intros (i & <- & Hi). apply List.in_seq in Hi. lia.
  - intros H. exists (Z.to_nat (x - a)). split; [lia|]. apply List.in_seq. lia.
Qed.

Lemma length_range (a b : Z) : length (range a b) = Z.to_nat (b - a).
Proof. unfold range. now rewrite List.length_map, List.length_seq. Qed.

Lemma sleep_backoff (attempt : Z) : sleep (Z.min (2 ^ attempt) 10) = Ok tt.
Proof.
  assert (H : 0 <= Z.min (2 ^ attempt) 10 <= 10).
  { pose proof (Z.pow_nonneg 2 attempt). lia. }
  set (v := Z.min (2 ^ attempt) 10) in *.
  assert (Hv : v = 0 \/ v = 1 \/ v = 2 \/ v = 3 \/ v = 4 \/ v = 5 \/ v = 6 \/ v = 7
               \/ v = 8 \/ v = 9 \/ v = 10) by lia.
  clearbody v. intuition (subst v; reflexivity).
Qed.

Lemma backoff_continue {A} (attempt : Z) (next : result A * list event) :
  sleep_and_continue attempt (Ok (Z.min (2 ^ attempt) 10)) next
  = (fst next, Request attempt :: Sleep (Z.min (2 ^ attempt) 10) :: snd next).
Proof. unfold sleep_and_continue. cbn [bind]. now rewrite sleep_backoff. Qed.

(** A sleep after a request either goes on with the loop or leaves it
    with the exception of the wait. *)
Lemma sleep_and_continue_cases {A} (attempt : Z) (wait_seconds : result Z)
    (next : result A * list event) :
  (exists seconds,
     sleep_and_continue attempt wait_seconds next
     = (fst next, Request attempt :: Sleep seconds :: snd next))
  \/ (exists exn,
        bind wait_seconds sleep = Raise exn
        /\ sleep_and_continue attempt wait_seconds next = (Raise exn, [Request attempt])).
Proof.
  unfold sleep_and_continue. destruct wait_seconds as [seconds|exn]; cbn [bind].
  - destruct (sleep seconds) as [[]|exn]; cbn [bind]; [left; eauto|right; eauto].
  - right. eauto.
Qed.

(** Case analysis on one attempt of a loop. *)
Ltac one_attempt c attempt next :=
  let response := fresh "resp" in
  let Hreq := fresh "Hreq" in
  let H429 := fresh "H429" in
  let H5xx := fresh "H5xx" in
  let Hraise := fresh "Hraise" in
  let Hwait := fresh "Hwait" in
  let Hgo := fresh "Hgo" in
  let seconds := fresh "seconds" in
  let exn := fresh "exn" in
  destruct (request c attempt) as [| |exn|response] eqn:Hreq;
  [ rewrite backoff_continue
  |
  |
  | destruct (status_code response =? 429) eqn:H429;
    [ destruct (sleep_and_continue_cases attempt
                  (int_of_string (default "2" (retry_after response))) next)
        as [(seconds & Hgo)|(exn & Hwait & Hgo)]; rewrite Hgo
    | destruct ((500 <=? status_code response) && (status_code response <? 600)) eqn:H5xx;
      [ rewrite backoff_continue
      | destruct (raise_for_status c (status_code response)) eqn:Hraise ] ] ].

Lemma accepted_intro {B} (c : client B) (response : response B) :
  (status_code response =? 429) = false ->
  (500 <=? status_code response) && (status_code response <? 600) = false ->
  raise_for_status c (status_code response) = false ->
  accepted c response.
Proof.
  intros H429 H5xx Hraise. unfold accepted. apply Z.eqb_neq in H429.
  apply andb_false_iff in H5xx. rewrite Z.leb_gt, Z.ltb_ge in H5xx.
  split; [exact H429|]. split; [lia|exact Hraise].
Qed.

Lemma send_attempts_requests c l :
  exists rest, l = requests (snd (send_attempts c l)) ++ rest.
Proof.
  induction l as [|attempt l [rest IH]]; [exists []; reflexivity|].
  cbn [send_attempts]. cbv zeta.
  one_attempt c attempt (send_attempts c l);
    try match goal with |- context [body ?r] => destruct (body r) end;
    cbn [snd requests flat_map app];
    first [ exists rest; f_equal; exact IH | exists l; reflexivity ].
Qed.

(** X19.  [send_sell_notification] makes the requests of the attempts
    1, 2, ... in turn and stops at an attempt of its choice: it never
    makes more than [max_retries] requests, and none when [max_retries]
    is not positive. *)
Theorem send_sell_notification_requests (c : client json_body) :
  let evs := snd (send_sell_notification c) in
  (exists rest, range 1 (max_retries c + 1) = requests evs ++ rest)
  /\ (length (requests evs) <= Z.to_nat (max_retries c))%nat.
Proof.
  cbv zeta. unfold send_sell_notification.
  destruct (send_attempts_requests c (range 1 (max_retries c + 1))) as [rest Hrest].
  split; [exists rest; exact Hrest|].
  apply (f_equal (@length Z)) in Hrest. rewrite length_range, List.length_app in Hrest. lia.
Qed.

Lemma send_attempts_true c l :
  fst (send_attempts c l) = Ok true ->
  exists attempt response data evs,
    In attempt l
    /\ request c attempt = Response response
    /\ accepted c response
    /\ body response = JsonObject data
    /\ eq_1 (data !! "status") = true
    /\ snd (send_attempts c l) = evs ++ [Request attempt].
Proof.
  induction l as [|attempt l IH]; [discriminate|].
  cbn [send_attempts]. cbv zeta.
  assert (Hnext : fst (send_attempts c l) = Ok true -> forall wait,
            exists attempt0 response data evs,
              In attempt0 (attempt :: l)
              /\ request c attempt0 = Response response
              /\ accepted c response
              /\ body response = JsonObject data
              /\ eq_1 (data !! "status") = true
              /\ Request attempt :: Sleep wait :: snd (send_attempts c l)
                 = evs ++ [Request attempt0]).
  { intros H wait. destruct (IH H) as (a & r & d & evs & H1 & H2 & H3 & H4 & H5 & H6).
    exists a, r, d, (Request attempt :: Sleep wait :: evs). rewrite H6.
    split; [now right|]. auto 10. }
  one_attempt c attempt (send_attempts c l); cbn [fst snd]; try discriminate;
    try (intros H; apply Hnext; exact H).
  destruct (body resp) as [|exn|data|] eqn:Hbody; cbn [fst snd]; try discriminate.
  intros [= Hstatus]. exists attempt, resp, data, (@nil event).
  split; [now left|]. split; [exact Hreq|].
  split; [apply accepted_intro; assumption|]. auto.
Qed.

(** X20.  [send_sell_notification] returns [True] only when the last
    request it made was answered with a response that no retry branch
    takes, for which [raise_for_status] does not raise, and whose body
    is a JSON object with [status] equal to 1. *)
Theorem send_sell_notification_true (c : client json_body) :
  fst (send_sell_notification c) = Ok true ->
  exists attempt response data evs,
    1 <= attempt <= max_retries c
    /\ request c attempt = Response response
    /\ accepted c response
    /\ body response = JsonObject data
    /\ eq_1 (data !! "status") = true
    /\ snd (send_sell_notification c) = evs ++ [Request attempt].
Proof.
  intros H. apply send_attempts_true in H.
  destruct H as (a & r & d & evs & H1 & H2 & H3 & H4 & H5 & H6).
  exists a, r, d, evs. apply In_range in H1. repeat (split; [auto; lia|]). exact H6.
Qed.

Lemma send_sell_notification_true_witness :
  exists attempt response data evs,
    1 <= attempt <= 3
    /\ request answered attempt = Response response
    /\ accepted answered response
    /\ body response = JsonObject data
    /\ eq_1 (data !! "status") = true
    /\ snd (send_sell_notification answered) = evs ++ [Request attempt].
Proof.
  apply (send_sell_notification_true answered). vm_compute. reflexivity.
Defined.

Lemma send_attempts_backing_off c l :
  (forall attempt, In attempt l -> 1 <= attempt /\ backs_off (request c attempt)) ->
  send_attempts c l
  = (Ok false, flat_map (fun attempt => [Request attempt; Sleep (Z.min (2 ^ attempt) 10)]) l).
Proof.
  induction l as [|attempt l IH]; intros Hall; [reflexivity|].
  cbn [send_attempts flat_map app]. cbv zeta.
  rewrite IH by (intros a Ha; apply Hall; now right).
  destruct (Hall attempt (or_introl eq_refl)) as [_ Hb]. unfold backs_off in Hb.
  destruct (request c attempt) as [| |exn|response];
    [apply backoff_continue|contradiction|contradiction|].
  rewrite (proj2 (Z.eqb_neq _ _)) by lia.
  rewrite (proj2 (Z.leb_le _ _)), (proj2 (Z.ltb_lt _ _)) by lia. apply backoff_continue.
Qed.

(** X21.  When every attempt times out or is answered with a status
    from 500 to 599, [send_sell_notification] makes [max_retries]
    requests, sleeps after each of them, the last one too, and returns
    [False]; each sleep is between 2 and 10 seconds. *)
Theorem send_sell_notification_gives_up (c : client json_body) :
  (forall attempt, 1 <= attempt <= max_retries c -> backs_off (request c attempt)) ->
  send_sell_notification c
  = (Ok false,
     flat_map (fun attempt => [Request attempt; Sleep (Z.min (2 ^ attempt) 10)])
       (range 1 (max_retries c + 1)))
  /\ length (sleeps (snd (send_sell_notification c))) = Z.to_nat (max_retries c)
  /\ Forall (fun seconds => 2 <= seconds <= 10) (sleeps (snd (send_sell_notification c))).
Proof.
  intros Hall. unfold send_sell_notification.
  rewrite send_attempts_backing_off
    by (intros a Ha; apply In_range in Ha; split; [lia|apply Hall; lia]).
  split; [reflexivity|]. cbn [snd].
  assert (Hs : forall l,
             sleeps (flat_map (fun attempt => [Request attempt; Sleep (Z.min (2 ^ attempt) 10)]) l)
             = map (fun attempt => Z.min (2 ^ attempt) 10) l).
  { induction l as [|a l IH]; [reflexivity|]. cbn [flat_map app map]. simpl. now rewrite IH. }
  rewrite Hs, List.length_map, length_range. split; [f_equal; lia|].
  apply List.Forall_forall. intros s Hin. apply List.in_map_iff in Hin.
  destruct Hin as (a & <- & Ha). apply In_range in Ha.
  assert (2 ^ 1 <= 2 ^ a) by (apply Z.pow_le_mono_r; lia). lia.
Qed.

Lemma send_sell_notification_gives_up_witness :
  send_sell_notification timing_out
  = (Ok false,
     flat_map (fun attempt => [Request attempt; Sleep (Z.min (2 ^ attempt) 10)]) (range 1 (3 + 1)))
  /\ length (sleeps (snd (send_sell_notification timing_out))) = Z.to_nat 3
  /\ Forall (fun seconds => 2 <= seconds <= 10) (sleeps (snd (send_sell_notification timing_out))).
Proof.
  apply (send_sell_notification_gives_up timing_out). intros attempt _. exact I.
Defined.

Lemma send_attempts_raise c l e :
  fst (send_attempts c l) = Raise e ->
  exists attempt,
    In attempt l
    /\ (request c attempt = OtherException e
        \/ exists response,
             request c attempt = Response response
             /\ ((status_code response = 429
                  /\ bind (int_of_string (default "2" (retry_after response))) sleep
                     = Raise e)
                 \/ (accepted c response
                     /\ (body response = JsonRaises e
                         \/ (body response = JsonOther /\ e = "AttributeError"))))).
Proof.
  induction l as [|attempt l IH]; [discriminate|].
  cbn [send_attempts]. cbv zeta.
  assert (Hnext : fst (send_attempts c l) = Raise e ->
            exists attempt0,
              In attempt0 (attempt :: l)
              /\ (request c attempt0 = OtherException e
                  \/ exists response,
                       request c attempt0 = Response response
                       /\ ((status_code response = 429
                            /\ bind (int_of_string (default "2" (retry_after response))) sleep
                               = Raise e)
                           \/ (accepted c response
                               /\ (body response = JsonRaises e
                                   \/ (body response = JsonOther
                                       /\ e = "AttributeError")))))).
  { intros H. destruct (IH H) as (a & H1 & H2). exists a. split; [now right|exact H2]. }
  one_attempt c attempt (send_attempts c l); cbn [fst snd]; try discriminate;
    try exact Hnext.
  - intros [= <-]. exists attempt. split; [now left|]. now left.
  - intros [= <-]. exists attempt. split; [now left|]. right. exists resp.
    split; [exact Hreq|]. left. apply Z.eqb_eq in H429. auto.
  - destruct (body resp) eqn:Hbody; cbn [fst]; try discriminate;
      intros [= <-]; exists attempt; (split; [now left|]); right; exists resp;
      (split; [exact Hreq|]); right; (split; [apply accepted_intro; assumption|]); auto.
Qed.

(** X22.  [send_sell_notification] raises only in these cases: the
    request raises an exception that is no [httpx.HTTPError]; a
    response with status 429 has a [Retry-After] header that [int] does
    not read, or that is too large to sleep; or for the answer that is
    taken [response.json()] raises an exception that is no
    [json.JSONDecodeError], or gives a JSON value that is not an
    object.  No timeout, no status code and no body that is not JSON
    makes it raise. *)
Theorem send_sell_notification_raises (c : client json_body) (e : string) :
  fst (send_sell_notification c) = Raise e ->
  exists attempt,
    1 <= attempt <= max_retries c
    /\ (request c attempt = OtherException e
        \/ exists response,
             request c attempt = Response response
             /\ ((status_code response = 429
                  /\ bind (int_of_string (default "2" (retry_after response))) sleep
                     = Raise e)
                 \/ (accepted c response
                     /\ (body response = JsonRaises e
                         \/ (body response = JsonOther /\ e = "AttributeError"))))).
Proof.
  intros H. apply send_attempts_raise in H. destruct H as (a & H1 & H2).
  exists a. apply In_range in H1. split; [lia|exact H2].
Qed.

Lemma send_sell_notification_raises_witness :
  exists attempt,
    1 <= attempt <= 3
    /\ (request (rate_limited_until_date NotJson) attempt = OtherException "ValueError"
        \/ exists response,
             request (rate_limited_until_date NotJson) attempt = Response response
             /\ ((status_code response = 429
                  /\ bind (int_of_string (default "2" (retry_after response))) sleep
                     = Raise "ValueError")
                 \/ (accepted (rate_limited_until_date NotJson) response
                     /\ (body response = JsonRaises "ValueError"
                         \/ (body response = JsonOther
                             /\ "ValueError" = "AttributeError"))))).
Proof.
  apply (send_sell_notification_raises (rate_limited_until_date NotJson) "ValueError").
  vm_compute. reflexivity.
Defined.

Lemma fetch_attempts_trades c l trades :
  fst (fetch_attempts c l) = Ok trades -> trades <> [] ->
  exists attempt response,
    In attempt l
    /\ request c attempt = Response response
    /\ accepted c response
    /\ body response = Trades trades.
Proof.
  intros H Hne. induction l as [|attempt l IH]; [simpl in H; congruence|].
  revert H. cbn [fetch_attempts]. cbv zeta.
  assert (Hnext : fst (fetch_attempts c l) = Ok trades ->
            exists attempt0 response,
              In attempt0 (attempt :: l)
              /\ request c attempt0 = Response response
              /\ accepted c response
              /\ body response = Trades trades).
  { intros H. destruct (IH H) as (a & r & H1 & H2 & H3). exists a, r.
    split; [now right|]. auto. }
  one_attempt c attempt (fetch_attempts c l); cbn [fst snd]; try discriminate;
    try exact Hnext; try (intros [= <-]; congruence).
  destruct (body resp) eqn:Hbody; cbn [fst]; try discriminate;
    try (intros [= <-]; congruence).
  intros [= ->]. exists attempt, resp. split; [now left|]. split; [exact Hreq|].
  split; [apply accepted_intro; assumption|exact Hbody].
Qed.

(** X23.  [fetch_trades] returns trades only from a response that no
    retry branch takes, for which [raise_for_status] does not raise,
    and whose body [TradesResponse] validates: after a timeout, an
    error or a body that does not validate the cycle sees no trade. *)
Theorem fetch_trades_trades (c : client trades_body) (trades : list LighterBot.Trade) :
  fst (fetch_trades c) = Ok trades -> trades <> [] ->
  exists attempt response,
    1 <= attempt <= max_retries c
    /\ request c attempt = Response response
    /\ accepted c response
    /\ body response = Trades trades.
Proof.
  intros H Hne. destruct (fetch_attempts_trades _ _ _ H Hne) as (a & r & H1 & H2 & H3).
  exists a, r. apply In_range in H1. split; [lia|]. auto.
Qed.

Lemma fetch_trades_trades_witness :
  exists attempt response,
    1 <= attempt <= 3
    /\ request (answered_with [poll_sell]) attempt = Response response
    /\ accepted (answered_with [poll_sell]) response
    /\ body response = Trades [poll_sell].
Proof.
  apply (fetch_trades_trades (answered_with [poll_sell]) [poll_sell]);
    [vm_compute; reflexivity|discriminate].
Defined.

Lemma fetch_attempts_raise c l e :
  fst (fetch_attempts c l) = Raise e ->
  exists attempt,
    In attempt l
    /\ (request c attempt = OtherException e
        \/ exists response,
             request c attempt = Response response
             /\ ((status_code response = 429
                  /\ bind (int_of_string (default "2" (retry_after response))) sleep
                     = Raise e)
                 \/ (accepted c response /\ body response = JsonFails e))).
Proof.
  induction l as [|attempt l IH]; [discriminate|].
  cbn [fetch_attempts]. cbv zeta.
  assert (Hnext : fst (fetch_attempts c l) = Raise e ->
            exists attempt0,
              In attempt0 (attempt :: l)
              /\ (request c attempt0 = OtherException e
                  \/ exists response,
                       request c attempt0 = Response response
                       /\ ((status_code response = 429
                            /\ bind (int_of_string (default "2" (retry_after response))) sleep
                               = Raise e)
                           \/ (accepted c response /\ body response = JsonFails e)))).
  { intros H. destruct (IH H) as (a & H1 & H2). exists a. split; [now right|exact H2]. }
  one_attempt c attempt (fetch_attempts c l); cbn [fst snd]; try discriminate;
    try exact Hnext.
  - intros [= <-]. exists attempt. split; [now left|]. now left.
  - intros [= <-]. exists attempt. split; [now left|]. right. exists resp.
    split; [exact Hreq|]. left. apply Z.eqb_eq in H429. auto.
  - destruct (body resp) eqn:Hbody; cbn [fst]; try discriminate.
    intros [= <-]. exists attempt. split; [now left|]. right. exists resp.
    split; [exact Hreq|]. right. split; [apply accepted_intro; assumption|exact Hbody].
Qed.

(** X24.  [fetch_trades] raises only in these cases: the request raises
    an exception that is no [httpx.HTTPError]; a response with status
    429 has a [Retry-After] header that [int] does not read, a date for
    one, or that is too large to sleep; or for the answer that is taken
    [response.json()] raises an exception that is no
    [json.JSONDecodeError].  Every other failure gives the empty
    list. *)
Theorem fetch_trades_raises (c : client trades_body) (e : string) :
  fst (fetch_trades c) = Raise e ->
  exists attempt,
    1 <= attempt <= max_retries c
    /\ (request c attempt = OtherException e
        \/ exists response,
             request c attempt = Response response
             /\ ((status_code response = 429
                  /\ bind (int_of_string (default "2" (retry_after response))) sleep
                     = Raise e)
                 \/ (accepted c response /\ body response = JsonFails e))).
Proof.
  intros H. apply fetch_attempts_raise in H. destruct H as (a & H1 & H2).
  exists a. apply In_range in H1. split; [lia|exact H2].
Qed.

Lemma fetch_trades_raises_witness :
  exists attempt,
    1 <= attempt <= 3
    /\ (request (rate_limited_until_date BadJson) attempt = OtherException "ValueError"
        \/ exists response,
             request (rate_limited_until_date BadJson) attempt = Response response
             /\ ((status_code response = 429
                  /\ bind (int_of_string (default "2" (retry_after response))) sleep
                     = Raise "ValueError")
                 \/ (accepted (rate_limited_until_date BadJson) response
                     /\ body response = JsonFails "ValueError"))).
Proof.
  apply (fetch_trades_raises (rate_limited_until_date BadJson) "ValueError").
  vm_compute. reflexivity.
Defined.

End ClientsMore.

(** ** Reconnecting *)

Section ReconnectMore.
Import LighterWs.

Lemma reconnect_delay_from_5 (k : nat) :
  (5 <= k)%nat -> reconnect_delay k = Py.float_of_decimal false 60 0.
Proof.
  intros Hk. unfold reconnect_delay. f_equal.
  assert (2 ^ 6 <= 2 ^ (Z.of_nat k + 1)) by (apply Z.pow_le_mono_r; lia). lia.
Qed.

Lemma reconnect_delay_next (k : nat) :
  fmin (fmul (reconnect_delay k) _BACKOFF_FACTOR) _MAX_BACKOFF = reconnect_delay (S k).
Proof.
  destruct (le_lt_dec 5 k) as [Hk|Hk].
  - rewrite !reconnect_delay_from_5 by lia. vm_compute. reflexivity.
  - do 5 (destruct k as [|k]; [vm_compute; reflexivity|]). lia.
Qed.

Lemma _run_from_failures (k n : nat) :
  _run_from (reconnect_delay k) (repeat Failed n) = map reconnect_delay (seq k n).
Proof.
  revert k. induction n as [|n IH]; intros k; [reflexivity|].
  cbn [repeat _run_from seq map]. now rewrite reconnect_delay_next, IH.
Qed.

Lemma _run_from_app backoff l1 l2 :
  _run_from backoff (l1 ++ Returned :: l2) = _run_from backoff l1 ++ _run l2.
Proof.
  revert backoff. induction l1 as [|c l1 IH]; intros backoff; [reflexivity|].
  destruct c; cbn [app _run_from]; now rewrite IH.
Qed.

(** X25.  However the connections end, every sleep of [_run] before a
    reconnection is of 2, 4, 8, 16, 32 or 60 seconds. *)
Theorem _run_sleeps (connections : list connection) (seconds : Py.float) :
  In seconds (_run connections) ->
  In seconds (map (fun n => Py.float_of_decimal false n 0) [2; 4; 8; 16; 32; 60]).
Proof.
  unfold _run. change _MIN_BACKOFF with (reconnect_delay 0).
  generalize 0%nat as k. induction connections as [|c l IH]; intros k; [intros []|].
  destruct c; cbn [_run_from].
  - change _MIN_BACKOFF with (reconnect_delay 0). apply IH.
  - rewrite reconnect_delay_next. intros [<-|Hin]; [|exact (IH _ Hin)].
    destruct (le_lt_dec 5 k) as [Hk|Hk].
    + rewrite reconnect_delay_from_5 by lia. simpl. tauto.
    + do 5 (destruct k as [|k]; [simpl; tauto|]). lia.
Qed.

Lemma _run_sleeps_witness :
  In (Py.float_of_decimal false 4 0)
     (map (fun n => Py.float_of_decimal false n 0) [2; 4; 8; 16; 32; 60]).
Proof.
  apply (_run_sleeps [Failed; Failed; Returned; Failed]). vm_compute. right. left. reflexivity.
Defined.

(** X26.  After a connection that returned, [n] failures in a row sleep
    2, 4, 8, 16, 32 seconds and from the sixth on 60 seconds, whatever
    happened before. *)
Theorem _run_after_return (connections : list connection) (n : nat) :
  _run (connections ++ Returned :: repeat Failed n)
  = _run connections ++ map reconnect_delay (seq 0 n).
Proof.
  unfold _run at 1. rewrite _run_from_app. f_equal.
  unfold _run. change _MIN_BACKOFF with (reconnect_delay 0). apply _run_from_failures.
Qed.

End ReconnectMore.
